(** * WeatherApp: the caching, lookup and display logic, and its specification

    A shallow embedding of the TypeScript sources

    - [weather-api.ts]  (condition table, geocoding and weather clients),
    - [search.ts]       (autocomplete list and its keyboard handling),
    - [storage.ts]      (the single-slot "last city" cache),
    - [index.ts]        (display controller and page bootstrap),

    followed by the properties the specification states about them.

    Conventions of the embedding.
    - JavaScript numbers are exact rationals extended with NaN and the two
      infinities; the rounding of IEEE doubles and the sign of zero are not
      represented.
    - JavaScript strings are byte strings holding UTF-8 text.
    - Values that travel inside the program follow the TypeScript
      interfaces ([Coordinates], [WeatherData], [StoredCity]).  The text
      kept in [localStorage] is not trusted by the code and is therefore
      an arbitrary JSON document here.
    - [Date.now()], the two remote services and the state of the page are
      explicit: functions that touch them run in the monad [M] over a
      [World]. *)

From Stdlib Require Import ZArith QArith Qround String Ascii List Bool Lia.
From Stdlib Require Import DecimalString.
From stdpp Require Import base option gmap strings list.

Local Open Scope string_scope.

(** ** The JavaScript values and coercions the sources rely on *)

Module Js.

(** Numbers. *)
Inductive num : Type :=
| NaN
| Inf (negative : bool)
| Fin (q : Q).

Definition of_Z (z : Z) : num := Fin (inject_Z z).
Definition of_nat (n : nat) : num := of_Z (Z.of_nat n).

Definition Qlt_bool (x y : Q) : bool := negb (Qle_bool y x).
Definition Qzero (x : Q) : bool := (Qnum x =? 0)%Z.

(** [a - b] *)
Definition sub (a b : num) : num :=
  match a, b with
  | NaN, _ | _, NaN => NaN
  | Inf s, Inf t => if Bool.eqb s t then NaN else Inf s
  | Inf s, Fin _ => Inf s
  | Fin _, Inf t => Inf (negb t)
  | Fin x, Fin y => Fin (x - y)
  end.

(** [a * b] *)
Definition mul (a b : num) : num :=
  match a, b with
  | NaN, _ | _, NaN => NaN
  | Inf s, Inf t => Inf (xorb s t)
  | Inf s, Fin y | Fin y, Inf s =>
      if Qzero y then NaN else Inf (xorb s (Qlt_bool y 0))
  | Fin x, Fin y => Fin (x * y)
  end.

(** [a / b]; a zero divisor counts as positive zero. *)
Definition div (a b : num) : num :=
  match a, b with
  | NaN, _ | _, NaN => NaN
  | Inf _, Inf _ => NaN
  | Inf s, Fin y => Inf (xorb s (Qlt_bool y 0))
  | Fin _, Inf _ => Fin 0
  | Fin x, Fin y =>
      if Qzero y then (if Qzero x then NaN else Inf (Qlt_bool x 0))
      else Fin (x / y)
  end.

(** [a > b]; every comparison with NaN is false. *)
Definition gt (a b : num) : bool :=
  match a, b with
  | NaN, _ | _, NaN => false
  | Inf s, Inf t => negb s && t
  | Inf s, Fin _ => negb s
  | Fin _, Inf t => t
  | Fin x, Fin y => Qlt_bool y x
  end.

(** [Math.round]: the nearest integer, halves towards plus infinity. *)
Definition round (a : num) : num :=
  match a with
  | Fin x => of_Z (Qfloor (x + (1 # 2)))
  | _ => a
  end.

(** Truthiness of a number: everything but zero and NaN. *)
Definition num_truthy (a : num) : bool :=
  match a with
  | NaN => false
  | Inf _ => true
  | Fin x => negb (Qzero x)
  end.

(** *** Text *)

Definition codes (s : string) : list nat :=
  map nat_of_ascii (list_ascii_of_string s).
Definition text (l : list nat) : string :=
  string_of_list_ascii (map ascii_of_nat l).

(** White space and line terminators of ECMAScript, as UTF-8 byte
    sequences: TAB, LF, VT, FF, CR, SP, U+00A0, U+1680, U+2000..U+200A,
    U+2028, U+2029, U+202F, U+205F, U+3000, U+FEFF. *)
Definition ws1 (c : nat) : bool :=
  (Nat.leb 9 c && Nat.leb c 13) || Nat.eqb c 32.
Definition ws2 (c1 c2 : nat) : bool :=
  Nat.eqb c1 194 && Nat.eqb c2 160.
Definition ws3 (c1 c2 c3 : nat) : bool :=
  (Nat.eqb c1 225 && Nat.eqb c2 154 && Nat.eqb c3 128)
  || (Nat.eqb c1 226 && Nat.eqb c2 128 &&
        ((Nat.leb 128 c3 && Nat.leb c3 138)
         || Nat.eqb c3 168 || Nat.eqb c3 169 || Nat.eqb c3 175))
  || (Nat.eqb c1 226 && Nat.eqb c2 129 && Nat.eqb c3 159)
  || (Nat.eqb c1 227 && Nat.eqb c2 128 && Nat.eqb c3 128)
  || (Nat.eqb c1 239 && Nat.eqb c2 187 && Nat.eqb c3 191).

Fixpoint trim_start (l : list nat) : list nat :=
  match l with
  | [] => []
  | c1 :: r1 =>
      if ws1 c1 then trim_start r1 else
      match r1 with
      | [] => l
      | c2 :: r2 =>
          if ws2 c1 c2 then trim_start r2 else
          match r2 with
          | [] => l
          | c3 :: r3 => if ws3 c1 c2 c3 then trim_start r3 else l
          end
      end
  end.

(** The same from the end, on the reversed byte sequence. *)
Fixpoint trim_start_rev (l : list nat) : list nat :=
  match l with
  | [] => []
  | c1 :: r1 =>
      if ws1 c1 then trim_start_rev r1 else
      match r1 with
      | [] => l
      | c2 :: r2 =>
          if ws2 c2 c1 then trim_start_rev r2 else
          match r2 with
          | [] => l
          | c3 :: r3 => if ws3 c3 c2 c1 then trim_start_rev r3 else l
          end
      end
  end.

(** [String.prototype.trim] *)
Definition trim_codes (l : list nat) : list nat :=
  rev (trim_start_rev (rev (trim_start l))).
Definition trim (s : string) : string := text (trim_codes (codes s)).

(** The double quote character, for texts that contain it. *)
Definition dq : string := String (ascii_of_nat 34) "".

(** [s.includes(sub)] *)
Fixpoint includes (sub s : string) : bool :=
  String.prefix sub s ||
  match s with
  | EmptyString => false
  | String _ s' => includes sub s'
  end.

(** [xs.join(sep)] for an array of strings. *)
Fixpoint join (sep : string) (xs : list string) : string :=
  match xs with
  | [] => ""
  | [x] => x
  | x :: rest => x ++ sep ++ join sep rest
  end.

(** [xs.slice(from, to)] for [0 <= from <= to]. *)
Definition slice {A} (from to : nat) (xs : list A) : list A :=
  firstn (to - from) (skipn from xs).

(** *** Numbers and text *)

Definition digit (c : nat) : option Z :=
  if Nat.leb 48 c && Nat.leb c 57 then Some (Z.of_nat c - 48)%Z else None.
Definition hexdigit (c : nat) : option Z :=
  if Nat.leb 48 c && Nat.leb c 57 then Some (Z.of_nat c - 48)%Z
  else if Nat.leb 97 c && Nat.leb c 102 then Some (Z.of_nat c - 87)%Z
  else if Nat.leb 65 c && Nat.leb c 70 then Some (Z.of_nat c - 55)%Z
  else None.
Definition octdigit (c : nat) : option Z :=
  if Nat.leb 48 c && Nat.leb c 55 then Some (Z.of_nat c - 48)%Z else None.
Definition bindigit (c : nat) : option Z :=
  if Nat.leb 48 c && Nat.leb c 49 then Some (Z.of_nat c - 48)%Z else None.

(** Reads the longest run of digits: its value on top of [acc], how many
    digits were read, and what follows. *)
Fixpoint digits_of (base : Z) (d : nat -> option Z) (l : list nat)
    (acc : Z) (n : nat) : Z * nat * list nat :=
  match l with
  | [] => (acc, n, [])
  | c :: r =>
      match d c with
      | Some v => digits_of base d r (acc * base + v)%Z (S n)
      | None => (acc, n, l)
      end
  end.

Definition is_nil {A} (l : list A) : bool :=
  match l with [] => true | _ => false end.

Definition all_digits (base : Z) (d : nat -> option Z) (l : list nat)
    : option num :=
  let '(v, n, rest) := digits_of base d l 0%Z 0 in
  if Nat.eqb n 0 || negb (is_nil rest) then None else Some (of_Z v).

(** ExponentPart, or nothing. *)
Definition exponent (l : list nat) : option Z :=
  match l with
  | [] => Some 0%Z
  | c :: r =>
      if Nat.eqb c 101 || Nat.eqb c 69 then
        let '(neg, r') :=
          match r with
          | 43 :: r' => (false, r')
          | 45 :: r' => (true, r')
          | _ => (false, r)
          end in
        let '(v, n, rest) := digits_of 10 digit r' 0%Z 0 in
        if Nat.eqb n 0 || negb (is_nil rest) then None
        else Some (if neg then - v else v)%Z
      else None
  end.

(** StrUnsignedDecimalLiteral *)
Definition unsigned_decimal (l : list nat) : option num :=
  if decide (l = codes "Infinity") then Some (Inf false) else
  let '(ip, n1, r1) := digits_of 10 digit l 0%Z 0 in
  let '(m, n2, r2, ok) :=
    match r1 with
    | 46 :: r =>
        let '(m, n2, r2) := digits_of 10 digit r ip 0 in
        (m, n2, r2, negb (Nat.eqb (n1 + n2) 0))
    | _ => (ip, 0, r1, negb (Nat.eqb n1 0))
    end in
  if ok then
    match exponent r2 with
    | Some e => Some (Fin (inject_Z m * (10 # 1) ^ (e - Z.of_nat n2)))
    | None => None
    end
  else None.

Definition negate (a : num) : num :=
  match a with
  | NaN => NaN
  | Inf s => Inf (negb s)
  | Fin x => Fin (- x)
  end.

(** StrNumericLiteral *)
Definition numeric_literal (l : list nat) : option num :=
  match l with
  | 48 :: 120 :: r | 48 :: 88 :: r => all_digits 16 hexdigit r
  | 48 :: 111 :: r | 48 :: 79 :: r => all_digits 8 octdigit r
  | 48 :: 98 :: r | 48 :: 66 :: r => all_digits 2 bindigit r
  | 43 :: r => unsigned_decimal r
  | 45 :: r => negate <$> unsigned_decimal r
  | _ => unsigned_decimal l
  end.

(** The abstract operation StringToNumber: [Number(s)] for a string. *)
Definition StringToNumber (s : string) : num :=
  let l := trim_codes (codes s) in
  if is_nil l then Fin 0 else default NaN (numeric_literal l).

Definition digits_of_Z (z : Z) : string :=
  NilZero.string_of_uint (N.to_uint (Z.to_N z)).

Fixpoint fraction (fuel : nat) (r d : Z) : string :=
  match fuel with
  | O => ""
  | S fuel' =>
      if (r =? 0)%Z then ""
      else digits_of_Z (r * 10 / d) ++ fraction fuel' ((r * 10) mod d)%Z d
  end.

(** [String(a)], as used by template literals.  Integers print in full;
    other numbers print their decimal expansion, cut after 20 places. *)
Definition num_to_string (a : num) : string :=
  match a with
  | NaN => "NaN"
  | Inf false => "Infinity"
  | Inf true => "-Infinity"
  | Fin x =>
      let n := Z.abs (Qnum x) in
      let d := Z.pos (Qden x) in
      let frac := fraction 20 (n mod d)%Z d in
      (if Qlt_bool x 0 then "-" else "")
      ++ digits_of_Z (n / d)
      ++ (if decide (frac = "") then "" else "." ++ frac)
  end.

(** *** JSON documents *)

#[local] Set Warnings "-register-all".

Inductive json : Type :=
| JNull
| JBool (b : bool)
| JNum (q : Q)
| JStr (s : string)
| JArr (items : list json)
| JObj (fields : list (string * json)).

(** A value read from a document: [None] stands for [undefined]. *)
Definition jsval : Type := option json.

Fixpoint lookup_last (k : string) (fs : list (string * json)) : jsval :=
  match fs with
  | [] => None
  | (k', v) :: rest =>
      match lookup_last k rest with
      | Some v' => Some v'
      | None => if decide (k' = k) then Some v else None
      end
  end.

(** [doc.k] for a property name that no prototype defines ([lat], [lon],
    [name], [timestamp], ...): an own property of an object, the last one
    when the text repeats the key, and [undefined] otherwise.  Reading a
    property of [null] is a TypeError: [None]. *)
Definition get_field (doc : json) (k : string) : option jsval :=
  match doc with
  | JNull => None
  | JObj fs => Some (lookup_last k fs)
  | _ => Some None
  end.

(** ToBoolean *)
Definition truthy (v : jsval) : bool :=
  match v with
  | None | Some JNull => false
  | Some (JBool b) => b
  | Some (JNum q) => negb (Qzero q)
  | Some (JStr s) => negb (if decide (s = "") then true else false)
  | Some (JArr _) | Some (JObj _) => true
  end.

Definition has_key (k : string) (fs : list (string * json)) : bool :=
  existsb (fun kv => if decide (kv.1 = k) then true else false) fs.

(** Whether converting the value to a primitive raises a TypeError: a
    parsed object whose own [toString] property shadows the inherited
    method has no callable conversion left; an array converts each of its
    elements. *)
Fixpoint to_primitive_throws (j : json) : bool :=
  match j with
  | JObj fs => has_key "toString" fs
  | JArr items => existsb to_primitive_throws items
  | _ => false
  end.

(** The number a value converts to, when the conversion does not throw.
    An array converts through [join(",")]: empty text for no element, the
    text of its only element, and otherwise a text with a comma, which is
    no numeric literal. *)
Fixpoint to_number (j : json) : num :=
  match j with
  | JNull => Fin 0
  | JBool b => if b then Fin 1 else Fin 0
  | JNum q => Fin q
  | JStr s => StringToNumber s
  | JArr [] => Fin 0
  | JArr [x] =>
      match x with
      | JNull => Fin 0
      | JBool _ => NaN
      | JObj _ => NaN
      | _ => to_number x
      end
  | JArr _ => NaN
  | JObj _ => NaN
  end.

(** ToNumber; [None] is a thrown TypeError. *)
Definition ToNumber (v : jsval) : option num :=
  match v with
  | None => Some NaN
  | Some j => if to_primitive_throws j then None else Some (to_number j)
  end.

(** What [JSON.stringify] writes for a number. *)
Definition json_of_num (a : num) : json :=
  match a with
  | Fin q => JNum q
  | _ => JNull
  end.

End Js.

Import Js.

(** ** Data of the program (the TypeScript interfaces) *)

(** [interface Coordinates] *)
Record Coordinates : Type := {
  lat : num;
  lon : num;
  name : string;
  country : option string;
  postcodes : option (list string)
}.

(** [interface WeatherData] *)
Record WeatherData : Type := {
  temperature : num;
  feelsLike : num;
  humidity : num;
  windSpeed : num;
  weatherCode : num;
  weatherDescription : string;
  cityName : string;
  wd_country : option string;
  wd_postcodes : option (list string)
}.

(** [interface StoredCity extends Coordinates] *)
Record StoredCity : Type := {
  city : Coordinates;
  timestamp : num;
  searchText : string
}.

(** Truthiness of an optional string: present and not empty. *)
Definition str_truthy (s : option string) : bool :=
  match s with
  | Some (String _ _) => true
  | _ => false
  end.

(** ** The environment and the state of the page *)

(** A remote answer: [None] in [body] is a body that is not JSON. *)
Record Response (A : Type) : Type := {
  ok : bool;
  status : nat;
  body : option A
}.
Arguments ok {A} _.
Arguments status {A} _.
Arguments body {A} _.

(** One entry of the geocoding service's [results]. *)
Record GeoResult : Type := {
  latitude : num;
  longitude : num;
  geo_name : string;
  geo_country : option string;
  admin1 : option string;
  geo_postcodes : option (list string)
}.

(** The body of a geocoding answer. *)
Record GeoData : Type := { results : option (list GeoResult) }.

(** [data.current] of a weather answer. *)
Record Current : Type := {
  temperature_2m : num;
  apparent_temperature : num;
  relative_humidity_2m : num;
  weather_code : num;
  wind_speed_10m : num
}.

(** The body of a weather answer. *)
Record WeatherBody : Type := { current : option Current }.

Inductive Request : Type :=
| GeoRequest (query : string)
| WeatherRequest (latitude longitude : num).

(** The text one key of [localStorage] holds, told apart by what the
    code can observe of it: the empty string, a text that [JSON.parse]
    rejects, or the text of a JSON document. *)
Inductive StoredText : Type :=
| EmptyText
| MalformedText
| Document (doc : json).

(** [localStorage].  When [available] is false every access raises;
    when [quota_exceeded] is true [setItem] raises. *)
Record Storage : Type := {
  available : bool;
  quota_exceeded : bool;
  items : gmap string StoredText
}.

Inductive Level : Type := Log | Warn | Err.

(** An element of the page, with the properties the sources touch. *)
Record Element : Type := {
  textContent : string;
  innerHTML : string;
  hidden : bool;
  disabled : bool;
  display : string;
  src : string;
  alt : string;
  onerror : option (string * string);
  placeholder : string;
  value : string;
  classList : list string;
  attributes : gmap string string
}.

(** A child of the results list. *)
Record Item : Type := {
  item_text : string;
  item_id : string;
  aria_selected : option bool;
  city_index : option nat
}.

(** Callbacks handed to [setTimeout] and [requestAnimationFrame]. *)
Inductive Timer : Type :=
| RemoveFadeIn
| UpdateTheme (weatherCode : num)
| AddBodyClass (backgroundType : string)
| RemoveAnnouncement (text : string).

Record World : Type := {
  (* the environment *)
  now : Z;
  geocoding : string -> option (Response GeoData);
  forecast : nat -> num -> num -> option (Response WeatherBody);
  (* browser state *)
  localStorage : Storage;
  console : list (Level * string * jsval);
  requests : list Request;
  document : gmap string Element;
  body_classes : list string;
  announcements : list string;
  timers : list (nat * Timer);
  (* search.ts *)
  results_items : list Item;
  currentResults : list Coordinates;
  selectedIndex : Z;
  dispatched : list Coordinates;
  (* index.ts *)
  currentCoordinates : option Coordinates
}.

Definition with_localStorage (f : Storage -> Storage) (w : World) : World :=
  Build_World (now w) (geocoding w) (forecast w) (f (localStorage w))
    (console w) (requests w) (document w) (body_classes w) (announcements w)
    (timers w) (results_items w) (currentResults w) (selectedIndex w)
    (dispatched w) (currentCoordinates w).
Definition with_console
    (f : list (Level * string * jsval) -> list (Level * string * jsval))
    (w : World) : World :=
  Build_World (now w) (geocoding w) (forecast w) (localStorage w)
    (f (console w)) (requests w) (document w) (body_classes w)
    (announcements w) (timers w) (results_items w) (currentResults w)
    (selectedIndex w) (dispatched w) (currentCoordinates w).
Definition with_requests (f : list Request -> list Request) (w : World)
    : World :=
  Build_World (now w) (geocoding w) (forecast w) (localStorage w)
    (console w) (f (requests w)) (document w) (body_classes w)
    (announcements w) (timers w) (results_items w) (currentResults w)
    (selectedIndex w) (dispatched w) (currentCoordinates w).
Definition with_document (f : gmap string Element -> gmap string Element)
    (w : World) : World :=
  Build_World (now w) (geocoding w) (forecast w) (localStorage w)
    (console w) (requests w) (f (document w)) (body_classes w)
    (announcements w) (timers w) (results_items w) (currentResults w)
    (selectedIndex w) (dispatched w) (currentCoordinates w).
Definition with_body_classes (f : list string -> list string) (w : World)
    : World :=
  Build_World (now w) (geocoding w) (forecast w) (localStorage w)
    (console w) (requests w) (document w) (f (body_classes w))
    (announcements w) (timers w) (results_items w) (currentResults w)
    (selectedIndex w) (dispatched w) (currentCoordinates w).
Definition with_announcements (f : list string -> list string) (w : World)
    : World :=
  Build_World (now w) (geocoding w) (forecast w) (localStorage w)
    (console w) (requests w) (document w) (body_classes w)
    (f (announcements w)) (timers w) (results_items w) (currentResults w)
    (selectedIndex w) (dispatched w) (currentCoordinates w).
Definition with_timers (f : list (nat * Timer) -> list (nat * Timer))
    (w : World) : World :=
  Build_World (now w) (geocoding w) (forecast w) (localStorage w)
    (console w) (requests w) (document w) (body_classes w)
    (announcements w) (f (timers w)) (results_items w) (currentResults w)
    (selectedIndex w) (dispatched w) (currentCoordinates w).
Definition with_results_items (f : list Item -> list Item) (w : World)
    : World :=
  Build_World (now w) (geocoding w) (forecast w) (localStorage w)
    (console w) (requests w) (document w) (body_classes w)
    (announcements w) (timers w) (f (results_items w)) (currentResults w)
    (selectedIndex w) (dispatched w) (currentCoordinates w).
Definition with_currentResults (f : list Coordinates -> list Coordinates)
    (w : World) : World :=
  Build_World (now w) (geocoding w) (forecast w) (localStorage w)
    (console w) (requests w) (document w) (body_classes w)
    (announcements w) (timers w) (results_items w) (f (currentResults w))
    (selectedIndex w) (dispatched w) (currentCoordinates w).
Definition with_selectedIndex (f : Z -> Z) (w : World) : World :=
  Build_World (now w) (geocoding w) (forecast w) (localStorage w)
    (console w) (requests w) (document w) (body_classes w)
    (announcements w) (timers w) (results_items w) (currentResults w)
    (f (selectedIndex w)) (dispatched w) (currentCoordinates w).
Definition with_dispatched (f : list Coordinates -> list Coordinates)
    (w : World) : World :=
  Build_World (now w) (geocoding w) (forecast w) (localStorage w)
    (console w) (requests w) (document w) (body_classes w)
    (announcements w) (timers w) (results_items w) (currentResults w)
    (selectedIndex w) (f (dispatched w)) (currentCoordinates w).
Definition with_currentCoordinates
    (f : option Coordinates -> option Coordinates) (w : World) : World :=
  Build_World (now w) (geocoding w) (forecast w) (localStorage w)
    (console w) (requests w) (document w) (body_classes w)
    (announcements w) (timers w) (results_items w) (currentResults w)
    (selectedIndex w) (dispatched w) (f (currentCoordinates w)).
Definition with_now (t : Z) (w : World) : World :=
  Build_World t (geocoding w) (forecast w) (localStorage w)
    (console w) (requests w) (document w) (body_classes w)
    (announcements w) (timers w) (results_items w) (currentResults w)
    (selectedIndex w) (dispatched w) (currentCoordinates w).

(** ** Computations: state, exceptions, and leaving the typed fragment *)

(** How a call ends.  [Thrown] is a JavaScript exception (or a rejected
    promise).  [Untyped] says that the run met a value which does not have
    its declared TypeScript type; the embedding does not follow the run
    further and no handler intercepts it. *)
Inductive outcome (A : Type) : Type :=
| Returned (a : A)
| Thrown (e : string)
| Untyped.
Arguments Returned {A} a.
Arguments Thrown {A} e.
Arguments Untyped {A}.

Definition M (A : Type) : Type := World -> outcome A * World.

#[export] Instance M_ret : MRet M := fun A a w => (Returned a, w).
#[export] Instance M_bind : MBind M := fun A B f m w =>
  match m w with
  | (Returned a, w') => f a w'
  | (Thrown e, w') => (Thrown e, w')
  | (Untyped, w') => (Untyped, w')
  end.

Definition throw {A} (e : string) : M A := fun w => (Thrown e, w).
Definition untyped {A} : M A := fun w => (Untyped, w).
Definition get {A} (f : World -> A) : M A := fun w => (Returned (f w), w).
Definition modify (f : World -> World) : M unit :=
  fun w => (Returned tt, f w).

(** [try { body } catch (e) { handler e }] *)
Definition try_catch {A} (body : M A) (handler : string -> M A) : M A :=
  fun w =>
    match body w with
    | (Thrown e, w') => handler e w'
    | r => r
    end.

(** [try { body } finally { cleanup }], for a cleanup that runs and
    returns. *)
Definition try_finally {A} (body : M A) (cleanup : M unit) : M A :=
  fun w =>
    match body w with
    | (r, w') =>
        match cleanup w' with
        | (Returned _, w'') => (r, w'')
        | (Thrown e, w'') => (Thrown e, w'')
        | (Untyped, w'') => (Untyped, w'')
        end
    end.

Notation "m1 ;; m2" := (mbind (fun _ : unit => m2) m1)
  (at level 100, m2 at level 200, right associativity).

Definition when (b : bool) (m : M unit) : M unit :=
  if b then m else mret tt.

(** [console.log], [console.warn] and [console.error] with a label and,
    possibly, a value; a caught error is shown by its message. *)
Definition console_log (l : Level) (label : string) (arg : jsval) : M unit :=
  modify (with_console (fun c => (c ++ [(l, label, arg)])%list)).

(** [fetch] of the geocoding endpoint.  The request is identified by the
    name it carries; the URL adds only constants and the encoding. *)
Definition fetch_geocoding (query : string) : M (Response GeoData) :=
  fun w =>
    let w' := with_requests (fun l => (l ++ [GeoRequest query])%list) w in
    match geocoding w query with
    | Some response => (Returned response, w')
    | None => (Thrown "TypeError: Failed to fetch", w')
    end.

(** [fetch] of the weather endpoint, identified by the coordinates.  The
    service may answer differently from one request of a run to the next:
    the oracle also gets the number of requests made before this one. *)
Definition fetch_forecast (latitude longitude : num)
    : M (Response WeatherBody) :=
  fun w =>
    let w' :=
      with_requests
        (fun l => (l ++ [WeatherRequest latitude longitude])%list) w in
    match forecast w (length (requests w)) latitude longitude with
    | Some response => (Returned response, w')
    | None => (Thrown "TypeError: Failed to fetch", w')
    end.

(** [await response.json()] *)
Definition response_json {A} (response : Response A) : M A :=
  match body response with
  | Some data => mret data
  | None => throw "SyntaxError: Unexpected token"
  end.

(** ** weather-api.ts *)

Module WeatherApi.

Record WeatherInfo : Type := {
  condition : string;
  image : string;
  background : string
}.

Definition sunny_rain (c : string) : WeatherInfo :=
  {| condition := c; image := "sunny_rain.png"; background := "cloudy" |}.
Definition cloudy (c : string) : WeatherInfo :=
  {| condition := c; image := "cloudy.png"; background := "cloudy" |}.

(** Maps Open-Meteo weather codes to weather conditions and images. *)
Definition weatherCodeMap : gmap Z WeatherInfo :=
  list_to_map
    [ (0%Z, {| condition := "Klarer Himmel"; image := "sunny.png";
               background := "sunny" |});
      (1%Z, {| condition := "Überwiegend klar"; image := "sunny.png";
               background := "sunny" |});
      (2%Z, {| condition := "Teilweise bewölkt"; image := "cloudy_sunny.png";
               background := "sunny" |});
      (3%Z, cloudy "Bedeckt");
      (45%Z, cloudy "Neblig");
      (48%Z, cloudy "Eisnebel");
      (51%Z, sunny_rain "Nieselregen");
      (53%Z, sunny_rain "Nieselregen");
      (55%Z, sunny_rain "Starker Niesel");
      (56%Z, sunny_rain "Eisregen");
      (57%Z, sunny_rain "Starker Eisregen");
      (61%Z, sunny_rain "Leichter Regen");
      (63%Z, sunny_rain "Mäßiger Regen");
      (65%Z, sunny_rain "Starker Regen");
      (66%Z, sunny_rain "Eisregen");
      (67%Z, sunny_rain "Starker Eisregen");
      (71%Z, cloudy "Leichter Schnee");
      (73%Z, cloudy "Mäßiger Schnee");
      (75%Z, cloudy "Starker Schnee");
      (77%Z, cloudy "Schneekörner");
      (80%Z, sunny_rain "Regenschauer");
      (81%Z, sunny_rain "Regenschauer");
      (82%Z, sunny_rain "Starke Schauer");
      (85%Z, cloudy "Schneeschauer");
      (86%Z, cloudy "Starke Schneeschauer");
      (95%Z, sunny_rain "Gewitter");
      (96%Z, sunny_rain "Gewitter & Hagel");
      (99%Z, sunny_rain "Schweres Gewitter") ].

(** The property key a number selects in a table with integer keys: the
    integer itself, when the number is one. *)
Definition property_key (code : num) : option Z :=
  match code with
  | Fin q =>
      if (Qnum q mod Z.pos (Qden q) =? 0)%Z
      then Some (Qnum q / Z.pos (Qden q))%Z
      else None
  | _ => None
  end.

(** [weatherCodeMap[weatherCode]] *)
Definition weatherCodeMap_at (weatherCode : num) : option WeatherInfo :=
  z ← property_key weatherCode; weatherCodeMap !! z.

(** Gets weather mapping data from weather code. *)
Definition getWeatherInfo (weatherCode : num) : WeatherInfo :=
  let defaultWeather :=
    {| condition := "Klarer Himmel"; image := "sunny.png";
       background := "sunny" |} in
  default defaultWeather (weatherCodeMap_at weatherCode).

(** Searches for cities using the geocoding service. *)
Definition searchCities (query : string) : M (list Coordinates) :=
  if decide (trim query = "") then mret [] else
  try_catch
    (let encodedQuery := trim query in
     response ← fetch_geocoding encodedQuery;
     if negb (ok response) then
       throw ("Geocoding API error: "
                +:+ num_to_string (of_nat (status response)))
     else
       data ← response_json response;
       match results data with
       | None => mret []
       | Some rs =>
           mret (map (fun result =>
                   {| lat := latitude result;
                      lon := longitude result;
                      name := geo_name result;
                      country :=
                        if str_truthy (geo_country result)
                        then geo_country result else admin1 result;
                      postcodes :=
                        Some (default [] (geo_postcodes result)) |}) rs)
       end)
    (fun error =>
       console_log Err "Error searching cities:" (Some (JStr error));;
       mret []).

(** Fetches current weather data from the weather service. *)
Definition getCurrentWeather (coordinates : Coordinates) : M WeatherData :=
  try_catch
    (response ← fetch_forecast (lat coordinates) (lon coordinates);
     if negb (ok response) then
       throw ("Weather API error: "
                +:+ num_to_string (of_nat (status response)))
     else
       data ← response_json response;
       match current data with
       | None =>
           throw "TypeError: Cannot read properties of undefined"
       | Some current =>
           let weatherInfo := getWeatherInfo (weather_code current) in
           mret {| temperature := round (temperature_2m current);
                   feelsLike := round (apparent_temperature current);
                   humidity := relative_humidity_2m current;
                   windSpeed :=
                     div (round (mul (wind_speed_10m current) (Fin 10)))
                         (Fin 10);
                   weatherCode := weather_code current;
                   weatherDescription := condition weatherInfo;
                   cityName := name coordinates;
                   wd_country :=
                     if str_truthy (country coordinates)
                     then country coordinates else None;
                   wd_postcodes :=
                     Some (default [] (postcodes coordinates)) |}
       end)
    (fun error =>
       console_log Err "Error fetching weather data:" (Some (JStr error));;
       throw "Fehler beim Laden der Wetterdaten. Bitte versuchen Sie es erneut.").

(** Coordinates for Berlin, Germany (default city). *)
Definition getBerlinCoordinates : Coordinates :=
  {| lat := Fin (5252 # 100);
     lon := Fin (13405 # 1000);
     name := "Berlin";
     country := Some "Deutschland";
     postcodes := Some ["10115"; "10117"; "10119"] |}.

End WeatherApi.

(** ** storage.ts *)

Module Storage.

Definition STORAGE_KEY : string := "weather-app-last-city".

(** [localStorage.getItem] *)
Definition getItem (key : string) : M (option StoredText) :=
  fun w =>
    if available (localStorage w)
    then (Returned (items (localStorage w) !! key), w)
    else (Thrown "SecurityError", w).

Definition put (key : string) (t : StoredText) (s : Storage) : Storage :=
  {| available := available s; quota_exceeded := quota_exceeded s;
     items := <[key := t]> (items s) |}.
Definition remove (key : string) (s : Storage) : Storage :=
  {| available := available s; quota_exceeded := quota_exceeded s;
     items := delete key (items s) |}.

(** [localStorage.setItem] *)
Definition setItem (key : string) (t : StoredText) : M unit :=
  fun w =>
    if negb (available (localStorage w)) then (Thrown "SecurityError", w)
    else if quota_exceeded (localStorage w)
    then (Thrown "QuotaExceededError", w)
    else (Returned tt, with_localStorage (put key t) w).

(** [localStorage.removeItem] *)
Definition removeItem (key : string) : M unit :=
  fun w =>
    if available (localStorage w)
    then (Returned tt, with_localStorage (remove key) w)
    else (Thrown "SecurityError", w).

(** [JSON.stringify] of a [StoredCity]: the properties of the candidate,
    then [timestamp] and [searchText]; a property that is [undefined] is
    left out, a number that is not finite is written as [null]. *)
Definition properties (cityData : StoredCity) : list (string * json) :=
  let c := city cityData in
  ([("lat", json_of_num (lat c));
    ("lon", json_of_num (lon c));
    ("name", JStr (name c))]
   ++ match country c with
      | Some s => [("country", JStr s)]
      | None => []
      end
   ++ match postcodes c with
      | Some l => [("postcodes", JArr (map JStr l))]
      | None => []
      end
   ++ [("timestamp", json_of_num (timestamp cityData));
       ("searchText", JStr (searchText cityData))])%list.

Definition stringify (cityData : StoredCity) : json :=
  JObj (properties cityData).

(** Saves the last selected city to localStorage. *)
Definition saveLastCity (coordinates : Coordinates) (searchText : string)
    : M unit :=
  try_catch
    (t ← get now;
     let cityData :=
       {| city := coordinates; timestamp := of_Z t;
          searchText := searchText |} in
     setItem STORAGE_KEY (Document (stringify cityData));;
     console_log Log "Saved last city:" (Some (JStr (name coordinates))))
    (fun error =>
       console_log Warn "Failed to save city to localStorage:"
         (Some (JStr error))).

(** Clears the stored city data. *)
Definition clearLastCity : M unit :=
  try_catch
    (removeItem STORAGE_KEY;;
     console_log Log "Cleared stored city data" None)
    (fun error =>
       console_log Warn "Failed to clear stored city data:"
         (Some (JStr error))).

(** [JSON.parse]: a SyntaxError on text that is no document. *)
Definition parse (stored : StoredText) : M json :=
  match stored with
  | Document doc => mret doc
  | _ => throw "SyntaxError: Unexpected token"
  end.

(** Reading a property of the parsed value. *)
Definition field (doc : json) (k : string) : M jsval :=
  match get_field doc k with
  | Some v => mret v
  | None => throw "TypeError: Cannot read properties of null"
  end.

(** [Date.now() - v] *)
Definition since (v : jsval) : M num :=
  t ← get now;
  match ToNumber v with
  | Some n => mret (sub (of_Z t) n)
  | None => throw "TypeError: Cannot convert object to primitive value"
  end.

(** Retrieves the last selected city from localStorage: the parsed
    record, or [None] for [null]. *)
Definition getLastCity (maxAgeHours : num) : M (option json) :=
  try_catch
    (stored ← getItem STORAGE_KEY;
     match stored with
     | None | Some EmptyText => mret None
     | Some stored =>
         cityData ← parse stored;
         (* Check if data is expired *)
         ts ← field cityData "timestamp";
         age ← since ts;
         let ageInHours := div age (of_Z (1000 * 60 * 60)) in
         if gt ageInHours maxAgeHours then
           console_log Log "Stored city data expired, removing..." None;;
           clearLastCity;;
           mret None
         else
           (* Validate required properties *)
           vlat ← field cityData "lat";
           vlon ← field cityData "lon";
           vname ← field cityData "name";
           if negb (truthy vlat) || negb (truthy vlon)
              || negb (truthy vname) then
             console_log Warn "Invalid stored city data, removing..." None;;
             clearLastCity;;
             mret None
           else
             console_log Log "Retrieved last city:" vname;;
             mret (Some cityData)
     end)
    (fun error =>
       console_log Warn "Failed to retrieve city from localStorage:"
         (Some (JStr error));;
       clearLastCity;;
       mret None).

(** The default of the parameter [maxAgeHours]. *)
Definition default_maxAgeHours : num := Fin 24.

(** Checks if localStorage is available. *)
Definition isStorageAvailable : M bool :=
  try_catch
    (let testKey := "test-storage" in
     setItem testKey MalformedText;;
     removeItem testKey;;
     mret true)
    (fun _ => mret false).

End Storage.

(** The type assertion [const cityData: StoredCity = JSON.parse(stored)],
    read as a cast: the typed record a document stands for, if it has the
    declared shape. *)
Definition as_strings (l : list json) : option (list string) :=
  mapM (fun j => match j with JStr s => Some s | _ => None end) l.

Definition as_StoredCity (doc : json) : option StoredCity :=
  match doc with
  | JObj fs =>
      match lookup_last "lat" fs, lookup_last "lon" fs,
            lookup_last "name" fs, lookup_last "timestamp" fs,
            lookup_last "searchText" fs with
      | Some (JNum la), Some (JNum lo), Some (JStr n), Some (JNum ts),
        Some (JStr st) =>
          co ← match lookup_last "country" fs with
               | None => Some None
               | Some (JStr s) => Some (Some s)
               | _ => None
               end;
          pc ← match lookup_last "postcodes" fs with
               | None => Some None
               | Some (JArr l) => Some <$> as_strings l
               | _ => None
               end;
          Some {| city := {| lat := Fin la; lon := Fin lo; name := n;
                             country := co; postcodes := pc |};
                  timestamp := Fin ts; searchText := st |}
      | _, _, _, _, _ => None
      end
  | _ => None
  end.

(** ** The page *)

Definition set_textContent (s : string) (e : Element) : Element :=
  Build_Element s (innerHTML e) (hidden e) (disabled e) (display e) (src e)
    (alt e) (onerror e) (placeholder e) (value e) (classList e)
    (attributes e).
Definition set_innerHTML (s : string) (e : Element) : Element :=
  Build_Element (textContent e) s (hidden e) (disabled e) (display e)
    (src e) (alt e) (onerror e) (placeholder e) (value e) (classList e)
    (attributes e).
Definition set_hidden (b : bool) (e : Element) : Element :=
  Build_Element (textContent e) (innerHTML e) b (disabled e) (display e)
    (src e) (alt e) (onerror e) (placeholder e) (value e) (classList e)
    (attributes e).
Definition set_disabled (b : bool) (e : Element) : Element :=
  Build_Element (textContent e) (innerHTML e) (hidden e) b (display e)
    (src e) (alt e) (onerror e) (placeholder e) (value e) (classList e)
    (attributes e).
Definition set_display (s : string) (e : Element) : Element :=
  Build_Element (textContent e) (innerHTML e) (hidden e) (disabled e) s
    (src e) (alt e) (onerror e) (placeholder e) (value e) (classList e)
    (attributes e).
Definition set_src (s : string) (e : Element) : Element :=
  Build_Element (textContent e) (innerHTML e) (hidden e) (disabled e)
    (display e) s (alt e) (onerror e) (placeholder e) (value e)
    (classList e) (attributes e).
Definition set_alt (s : string) (e : Element) : Element :=
  Build_Element (textContent e) (innerHTML e) (hidden e) (disabled e)
    (display e) (src e) s (onerror e) (placeholder e) (value e)
    (classList e) (attributes e).
Definition set_onerror (h : option (string * string)) (e : Element)
    : Element :=
  Build_Element (textContent e) (innerHTML e) (hidden e) (disabled e)
    (display e) (src e) (alt e) h (placeholder e) (value e) (classList e)
    (attributes e).
Definition set_placeholder (s : string) (e : Element) : Element :=
  Build_Element (textContent e) (innerHTML e) (hidden e) (disabled e)
    (display e) (src e) (alt e) (onerror e) s (value e) (classList e)
    (attributes e).
Definition set_value (s : string) (e : Element) : Element :=
  Build_Element (textContent e) (innerHTML e) (hidden e) (disabled e)
    (display e) (src e) (alt e) (onerror e) (placeholder e) s (classList e)
    (attributes e).
Definition set_classList (f : list string -> list string) (e : Element)
    : Element :=
  Build_Element (textContent e) (innerHTML e) (hidden e) (disabled e)
    (display e) (src e) (alt e) (onerror e) (placeholder e) (value e)
    (f (classList e)) (attributes e).
Definition setAttribute (k v : string) (e : Element) : Element :=
  Build_Element (textContent e) (innerHTML e) (hidden e) (disabled e)
    (display e) (src e) (alt e) (onerror e) (placeholder e) (value e)
    (classList e) (<[k := v]> (attributes e)).

(** [classList.add] and [classList.remove] *)
Definition class_add (c : string) (l : list string) : list string :=
  if decide (c ∈ l) then l else (l ++ [c])%list.
Definition class_remove (c : string) (l : list string) : list string :=
  filter (fun x => x ≠ c) l.

(** [if (el) { el... }] for the element with the given id: nothing
    happens when the page has no such element. *)
Definition update (id : string) (f : Element -> Element) : M unit :=
  modify (with_document (alter f id)).

(** [if (el)] *)
Definition present (id : string) : M bool :=
  get (fun w => bool_decide (is_Some (document w !! id))).

Definition setTimeout (t : Timer) (delay : nat) : M unit :=
  modify (with_timers (fun l => (l ++ [(delay, t)])%list)).

(** ** search.ts

    [initSearch] installs its handlers only when the page has both
    [#search] and [#results]; the handlers below are the bodies of those
    listeners. *)

Module Search.

Inductive Key : Type := ArrowDown | ArrowUp | Enter | Escape | OtherKey.

(** Hides the search results dropdown. *)
Definition hideResults : M unit :=
  modify (with_results_items (fun _ => []));;
  update "results" (set_hidden true);;
  update "search" (setAttribute "aria-expanded" "false").

(** The text of one entry of the dropdown. *)
Definition cityText (city : Coordinates) : string :=
  let cityText := name city in
  let cityText :=
    if str_truthy (country city)
    then cityText +:+ ", " +:+ default "" (country city) else cityText in
  (* Add postal code if available *)
  match postcodes city with
  | Some (first :: rest) =>
      cityText +:+ " (PLZ: " +:+ first
        +:+ (if Nat.ltb 1 (length (first :: rest))
             then ", +"
                    +:+ num_to_string (of_nat (length (first :: rest) - 1))
                    +:+ " more"
             else "")
        +:+ ")"
  | _ => cityText
  end.

Fixpoint entries (index : nat) (matches : list Coordinates) : list Item :=
  match matches with
  | [] => []
  | city :: rest =>
      {| item_text := cityText city;
         item_id := "result-" +:+ num_to_string (of_nat index);
         aria_selected := None;
         city_index := Some index |} :: entries (S index) rest
  end.

(** Shows all matches as an interactive dropdown. *)
Definition showResults (matches : list Coordinates) : M unit :=
  modify (with_results_items (fun _ => []));;
  modify (with_currentResults (fun _ => matches));;
  if Nat.eqb (length matches) 0 then
    modify (with_results_items (fun _ =>
      [ {| item_text := "Keine Treffer gefunden"; item_id := "";
           aria_selected := None; city_index := None |} ]));;
    update "results" (set_hidden false);;
    update "search" (setAttribute "aria-expanded" "true")
  else
    modify (with_results_items (fun _ => entries 0 matches));;
    update "results" (set_hidden false);;
    update "search" (setAttribute "aria-expanded" "true").

(** Handles city selection from search results. *)
Definition selectCity (city : Coordinates) : M unit :=
  let searchText := name city in
  let searchText :=
    if str_truthy (country city)
    then searchText +:+ ", " +:+ default "" (country city)
    else searchText in
  let searchText :=
    match postcodes city with
    | Some (first :: _) => searchText +:+ " (PLZ: " +:+ first +:+ ")"
    | _ => searchText
    end in
  update "search" (set_value "");;
  update "search" (set_placeholder ("Aktuell: " +:+ searchText));;
  hideResults;;
  (* the citySelected event *)
  modify (with_dispatched (fun l => (l ++ [city])%list)).

Fixpoint select_items (index : nat) (selectedIndex : Z) (items : list Item)
    : list Item :=
  match items with
  | [] => []
  | item :: rest =>
      {| item_text := item_text item; item_id := item_id item;
         aria_selected := Some (Z.of_nat index =? selectedIndex)%Z;
         city_index := city_index item |}
        :: select_items (S index) selectedIndex rest
  end.

(** Updates the visual selection in the dropdown. *)
Definition updateSelection (selectedIndex : Z) : M unit :=
  items ← get results_items;
  modify (with_results_items (select_items 0 selectedIndex));;
  match (if (0 <=? selectedIndex)%Z
         then items !! Z.to_nat selectedIndex else None) with
  | Some item =>
      update "search" (setAttribute "aria-activedescendant" (item_id item))
  | None => mret tt
  end.

(** The [keydown] listener of the search field. *)
Definition keydown (key : Key) : M unit :=
  items ← get results_items;
  sel ← get selectedIndex;
  match key with
  | ArrowDown =>
      let sel' := Z.min (sel + 1) (Z.of_nat (length items) - 1) in
      modify (with_selectedIndex (fun _ => sel'));;
      updateSelection sel'
  | ArrowUp =>
      let sel' := Z.max (sel - 1) (-1) in
      modify (with_selectedIndex (fun _ => sel'));;
      updateSelection sel'
  | Enter =>
      current ← get currentResults;
      if (0 <=? sel)%Z && (sel <? Z.of_nat (length current))%Z
         && bool_decide (is_Some (items !! Z.to_nat sel)) then
        match current !! Z.to_nat sel with
        | Some selectedCity => selectCity selectedCity
        | None => mret tt
        end
      else mret tt
  | Escape =>
      hideResults;;
      modify (with_selectedIndex (fun _ => (-1)%Z))
  | OtherKey => mret tt
  end.

(** The body of the debounced [input] listener, once the delay is over. *)
Definition debounced : M unit :=
  field ← get (fun w => document w !! "search");
  let value := trim (default "" (value <$> field)) in
  if decide (value = "") then hideResults else
  try_catch
    (matches ← WeatherApi.searchCities value;
     showResults matches;;
     modify (with_selectedIndex (fun _ => (-1)%Z)))
    (fun error =>
       console_log Err "Error searching cities:" (Some (JStr error));;
       showResults []).

(** The [click] listener of the document, for a click outside the search
    field and the list. *)
Definition click_outside : M unit := hideResults.

End Search.

(** ** index.ts *)

Module Index.

(** Shows the loading state and hides weather data. *)
Definition showLoadingState : M unit :=
  update "weather-loading" (set_hidden false);;
  update "weather-data" (set_hidden true).

(** Hides loading state and shows weather data with animation. *)
Definition showWeatherData : M unit :=
  update "weather-loading" (set_hidden true);;
  has_section ← present "weather-data";
  when has_section
    (update "weather-data" (set_hidden false);;
     update "weather-data" (set_classList (class_add "fade-in"));;
     setTimeout RemoveFadeIn 500).

(** The text of the postal codes element. *)
Definition postalText (first : string) (rest : list string) : string :=
  let postcodes := first :: rest in
  let postalText := "PLZ: " +:+ first in
  if Nat.ltb 1 (length postcodes) then
    let postalText :=
      postalText +:+ ", " +:+ join ", " (slice 1 3 postcodes) in
    if Nat.ltb 3 (length postcodes) then
      postalText +:+ ", +"
        +:+ num_to_string (of_nat (length postcodes - 3)) +:+ " more"
    else postalText
  else postalText.

(** Updates the weather display with new weather data. *)
Definition updateWeatherDisplay (weatherData : WeatherData) : M unit :=
  update "temperature"
    (set_textContent (num_to_string (temperature weatherData) +:+ "°C"));;
  update "feels-like"
    (set_textContent (num_to_string (feelsLike weatherData) +:+ "°C"));;
  update "weather-type"
    (set_textContent (weatherDescription weatherData));;
  update "city"
    (set_textContent
       (if str_truthy (wd_country weatherData)
        then cityName weatherData +:+ ", "
               +:+ default "" (wd_country weatherData)
        else cityName weatherData));;
  (* Update postal codes display *)
  match wd_postcodes weatherData with
  | Some (first :: rest) =>
      update "postal-codes" (set_textContent (postalText first rest));;
      update "postal-codes" (set_display "block")
  | _ => update "postal-codes" (set_display "none")
  end;;
  (* Update additional weather information *)
  update "humidity"
    (set_textContent (num_to_string (humidity weatherData) +:+ "%"));;
  update "wind-speed"
    (set_textContent (num_to_string (windSpeed weatherData) +:+ " km/h"));;
  (* Update weather image with proper paths and alt text *)
  (let weatherInfo := WeatherApi.getWeatherInfo (weatherCode weatherData) in
   update "weather-image"
     (set_src ("./assets/images/" +:+ WeatherApi.image weatherInfo));;
   update "weather-image"
     (set_alt (weatherDescription weatherData +:+ " weather conditions in "
                 +:+ cityName weatherData));;
   update "weather-image"
     (set_onerror
        (Some ("./assets/images/sunny.png",
               "Weather conditions in " +:+ cityName weatherData))));;
  (* Show the weather data with animation first *)
  showWeatherData;;
  (* Update background theme after a slight delay to avoid flash *)
  setTimeout (UpdateTheme (weatherCode weatherData)) 100.

(** Updates the background theme based on weather background type. *)
Definition updateBackgroundTheme (backgroundType : string) : M unit :=
  modify (with_body_classes (class_add "background-loaded"));;
  modify (with_body_classes (class_remove "sunny"));;
  modify (with_body_classes (class_remove "cloudy"));;
  setTimeout (AddBodyClass backgroundType) 0.

(** Generates search text for a given city coordinates. *)
Definition generateSearchText (coordinates : Coordinates) : string :=
  let searchText := name coordinates in
  let searchText :=
    if str_truthy (country coordinates)
    then searchText +:+ ", " +:+ default "" (country coordinates)
    else searchText in
  match postcodes coordinates with
  | Some (first :: _) => searchText +:+ " (PLZ: " +:+ first +:+ ")"
  | _ => searchText
  end.

(** Announces weather updates to screen readers. *)
Definition announceWeatherUpdate (cityName : string) (temp : num)
    (weatherType : string) : M unit :=
  let announcement :=
    "Wetter aktualisiert für " +:+ cityName
      +:+ ". Aktuelle Bedingungen: " +:+ weatherType +:+ ", "
      +:+ num_to_string temp +:+ " Grad Celsius." in
  modify (with_announcements (fun l => (l ++ [announcement])%list));;
  setTimeout (RemoveAnnouncement announcement) 1000.

(** What a pending callback does when it runs. *)
Definition run_timer (t : Timer) : M unit :=
  match t with
  | RemoveFadeIn =>
      update "weather-data" (set_classList (class_remove "fade-in"))
  | UpdateTheme code =>
      updateBackgroundTheme
        (WeatherApi.background (WeatherApi.getWeatherInfo code))
  | AddBodyClass backgroundType =>
      modify (with_body_classes (class_add backgroundType))
  | RemoveAnnouncement a =>
      modify (with_announcements (fun l => filter (fun x => x ≠ a) l))
  end.

(** Fetches and displays weather data for the given coordinates. *)
Definition fetchWeatherData (coordinates : Coordinates)
    (saveToStorage showLoading : bool) : M unit :=
  try_finally
    (try_catch
       ((* Show loading states *)
        when showLoading showLoadingState;;
        update "submit-search" (set_disabled true);;
        update "submit-search"
          (set_innerHTML ("<span class=" +:+ dq +:+ "button-text" +:+ dq
                            +:+ ">Lädt...</span>"));;
        (* Fetch real weather data *)
        weatherData ← WeatherApi.getCurrentWeather coordinates;
        (* Update the display (this will also show the weather data) *)
        updateWeatherDisplay weatherData;;
        (* Save to localStorage if requested and available *)
        usable ← (if saveToStorage then Storage.isStorageAvailable
                  else mret false);
        when usable
          (try_catch
             (let searchText := generateSearchText coordinates in
              Storage.saveLastCity coordinates searchText)
             (fun error =>
                console_log Warn "Failed to save city to storage:"
                  (Some (JStr error))));;
        (* Announce the update to screen readers *)
        announceWeatherUpdate (cityName weatherData)
          (temperature weatherData) (weatherDescription weatherData))
       (fun error =>
          console_log Err "Error fetching weather:" (Some (JStr error));;
          (* Show error in weather section *)
          showWeatherData;;
          update "city" (set_textContent "Fehler beim Laden der Wetterdaten");;
          update "weather-type"
            (set_textContent "Bitte versuchen Sie es erneut")))
    ((* Reset button state *)
     update "submit-search" (set_disabled false);;
     update "submit-search"
       (set_innerHTML ("<span class=" +:+ dq +:+ "button-text" +:+ dq
                         +:+ ">Wetter abrufen</span>"))).

(** Placeholder and value of the search field once a city is shown. *)
Definition show_current (searchText : string) : M unit :=
  update "search" (set_placeholder ("Aktuell: " +:+ searchText));;
  update "search" (set_value "").

(** Loads weather data on page load - either last saved city or Berlin
    default. *)
Definition loadInitialWeather : M unit :=
  try_finally
    (try_catch
       ((* Try to get the last saved city *)
        lastCity ← Storage.getLastCity Storage.default_maxAgeHours;
        match lastCity with
        | Some doc =>
            match as_StoredCity doc with
            | None => untyped
            | Some lastCity =>
                console_log Log "Loading last saved city:"
                  (Some (JStr (name (city lastCity))));;
                (* Show loading indicator for saved city *)
                update "loading-indicator" (set_hidden false);;
                (* Keep loading section visible and load saved city *)
                fetchWeatherData (city lastCity) false false;;
                (* Set the search field placeholder to the saved city *)
                show_current (searchText lastCity);;
                (* Set current coordinates for the button *)
                modify (with_currentCoordinates
                          (fun _ => Some (city lastCity)))
            end
        | None =>
            (* Fall back to Berlin default *)
            console_log Log
              "No saved city found, loading Berlin default immediately"
              None;;
            update "weather-loading" (set_hidden true);;
            let berlinCoords := WeatherApi.getBerlinCoordinates in
            fetchWeatherData berlinCoords false false;;
            show_current (generateSearchText berlinCoords);;
            modify (with_currentCoordinates (fun _ => Some berlinCoords))
        end)
       (fun error =>
          console_log Err "Error loading initial weather:"
            (Some (JStr error));;
          (* Ultimate fallback to Berlin - hide loading section first *)
          update "weather-loading" (set_hidden true);;
          let berlinCoords := WeatherApi.getBerlinCoordinates in
          fetchWeatherData berlinCoords false false;;
          show_current (generateSearchText berlinCoords);;
          modify (with_currentCoordinates (fun _ => Some berlinCoords))))
    ((* Hide loading indicator *)
     update "loading-indicator" (set_hidden true)).

(** The [citySelected] listener. *)
Definition on_citySelected (detail : Coordinates) : M unit :=
  modify (with_currentCoordinates (fun _ => Some detail));;
  fetchWeatherData detail true true.

End Index.

(** ** Sample worlds *)

Definition blank : Element :=
  {| textContent := ""; innerHTML := ""; hidden := false; disabled := false;
     display := ""; src := ""; alt := ""; onerror := None;
     placeholder := ""; value := ""; classList := [];
     attributes := ∅ |}.

(** The elements the scripts look up, by id. *)
Definition page : gmap string Element :=
  list_to_map
    (map (fun id => (id, blank))
       ["submit-search"; "search"; "results"; "temperature"; "feels-like";
        "weather-type"; "city"; "weather-image"; "postal-codes";
        "weather-data"; "weather-loading"; "humidity"; "wind-speed";
        "loading-indicator"]).

(** A freshly loaded page with working, empty storage and no network. *)
Definition offline : World :=
  {| now := 1700000000000;
     geocoding := fun _ => None;
     forecast := fun _ _ _ => None;
     localStorage :=
       {| available := true; quota_exceeded := false; items := ∅ |};
     console := [];
     requests := [];
     document := page;
     body_classes := [];
     announcements := [];
     timers := [];
     results_items := [];
     currentResults := [];
     selectedIndex := (-1)%Z;
     dispatched := [];
     currentCoordinates := None |}.

(** The same page with the given text in the slot of the last city. *)
Definition holding (t : StoredText) (w : World) : World :=
  with_localStorage (Storage.put Storage.STORAGE_KEY t) w.

(** ** Notions the statements use *)

(** What the slot of the last city holds. *)
Definition held (w : World) : option StoredText :=
  items (localStorage w) !! Storage.STORAGE_KEY.

(** Storage that can be read and written. *)
Definition working (s : Storage) : Prop :=
  available s = true /\ quota_exceeded s = false.

(** Key presses, one after the other. *)
Fixpoint press (keys : list Search.Key) : M unit :=
  match keys with
  | [] => mret tt
  | key :: rest => Search.keydown key;; press rest
  end.

Definition arrow (key : Search.Key) : Prop :=
  key = Search.ArrowDown \/ key = Search.ArrowUp.

(** The selection is none ([-1]) or one of the entries. *)
Definition in_bounds (count : nat) (w : World) : Prop :=
  length (results_items w) = count /\
  (-1 <= selectedIndex w <= Z.of_nat count - 1)%Z.

(** Three entries, four times Down and then five times Up. *)
Definition three_entries : World :=
  with_results_items
    (fun _ =>
       Search.entries 0 [WeatherApi.getBerlinCoordinates;
                         WeatherApi.getBerlinCoordinates;
                         WeatherApi.getBerlinCoordinates]) offline.

Definition down_then_up : list Search.Key :=
  replicate 4 Search.ArrowDown ++ replicate 5 Search.ArrowUp.

Ltac run :=
  unfold mbind, M_bind, mret, M_ret, get, modify, update, present, when,
    throw, untyped, try_catch, try_finally, console_log, setTimeout;
  cbn.

(** The world after [clearLastCity] in readable storage. *)
Definition cleared (w : World) : World :=
  with_console
    (fun c => (c ++ [(Log, "Cleared stored city data", None)])%list)
    (with_localStorage (Storage.remove Storage.STORAGE_KEY) w).

(** The record [saveLastCity] writes at the time of the world. *)
Definition record_of (coordinates : Coordinates) (searchText : string)
    (w : World) : StoredCity :=
  {| city := coordinates; timestamp := of_Z (now w);
     searchText := searchText |}.

(** The world after [saveLastCity] in working storage. *)
Definition saved (coordinates : Coordinates) (searchText : string)
    (w : World) : World :=
  with_console
    (fun c =>
       (c ++ [(Log, "Saved last city:", Some (JStr (name coordinates)))])%list)
    (holding (Document (Storage.stringify
                          (record_of coordinates searchText w))) w).

(** A number that is zero. *)
Definition is_zero (a : num) : Prop :=
  exists q, a = Fin q /\ (q == 0)%Q.

(** A number that is finite and not zero. *)
Definition finite_nonzero (a : num) : Prop :=
  exists q, a = Fin q /\ ~ (q == 0)%Q.

(** Whether the property [k] of the document reads as a truthy value. *)
Definition field_truthy (doc : json) (k : string) : bool :=
  match get_field doc k with
  | Some v => truthy v
  | None => false
  end.

(** The number the property [k] of the document converts to. *)
Definition field_number (doc : json) (k : string) : option num :=
  match get_field doc k with
  | Some v => ToNumber v
  | None => None
  end.

(** A place on the prime meridian. *)
Definition greenwich : Coordinates :=
  {| lat := Fin (5148 # 100);
     lon := Fin 0;
     name := "Greenwich";
     country := Some "United Kingdom";
     postcodes := Some [] |}.

(** A stored record of Berlin whose [timestamp] is [null]. *)
Definition berlin_null_timestamp : json :=
  JObj [("lat", JNum (5252 # 100));
        ("lon", JNum (13405 # 1000));
        ("name", JStr "Berlin");
        ("country", JStr "Deutschland");
        ("timestamp", JNull);
        ("searchText", JStr "Berlin, Deutschland")].

(** A stored record of Berlin without [timestamp]. *)
Definition berlin_no_timestamp : json :=
  JObj [("lat", JNum (5252 # 100));
        ("lon", JNum (13405 # 1000));
        ("name", JStr "Berlin");
        ("country", JStr "Deutschland");
        ("searchText", JStr "Berlin, Deutschland")].


(** The geocoding request for the query fails: no answer, an answer with
    an error status, or a body that does not decode. *)
Definition geocoding_fails (w : World) (query : string) : Prop :=
  match geocoding w (trim query) with
  | None => True
  | Some response => ok response = false \/ body response = None
  end.

(** The next weather request for the coordinates fails: no answer, an
    answer with an error status, a body that does not decode, or one
    without [current]. *)
Definition forecast_fails (w : World) (coordinates : Coordinates) : Prop :=
  match forecast w (length (requests w)) (lat coordinates) (lon coordinates)
  with
  | None => True
  | Some response =>
      ok response = false \/
      match body response with
      | None => True
      | Some data => current data = None
      end
  end.

(** What an element shows of the weather: its text, whether it is
    displayed, and, for the icon, source and alternative text. *)
Definition shown (e : Element) : string * string * string * string :=
  (textContent e, display e, src e, alt e).

(** Paris, and the record a selection of Paris left in the cache an hour
    before the time of [offline]. *)
Definition paris : Coordinates :=
  {| lat := Fin (4885341 # 100000);
     lon := Fin (23488 # 10000);
     name := "Paris";
     country := Some "France";
     postcodes := Some ["75001"; "75002"] |}.

Definition paris_cached : json :=
  Storage.stringify
    {| city := paris;
       timestamp := of_Z (1700000000000 - 3600000);
       searchText := "Paris, France (PLZ: 75001)" |}.

(** A snapshot of the weather in Berlin. *)
Definition berlin_snapshot : WeatherData :=
  {| temperature := Fin 18;
     feelsLike := Fin 17;
     humidity := Fin 64;
     windSpeed := Fin (123 # 10);
     weatherCode := Fin 3;
     weatherDescription := "Bedeckt";
     cityName := "Berlin";
     wd_country := Some "Deutschland";
     wd_postcodes := Some ["10115"; "10117"; "10119"] |}.

(** A computation that always returns and asks the services nothing. *)
Definition quiet {A} (m : M A) : Prop :=
  forall w, exists a w', m w = (Returned a, w') /\ requests w' = requests w.

(** A computation that returns or throws and asks the services nothing. *)
Definition calm {A} (m : M A) : Prop :=
  forall w, exists r w',
    m w = (r, w') /\ r <> Untyped /\ requests w' = requests w.

(** A computation that always returns after exactly the one request. *)
Definition asks_once {A} (request : Request) (m : M A) : Prop :=
  forall w, exists a w',
    m w = (Returned a, w') /\ requests w' = (requests w ++ [request])%list.

(** A computation that returns or throws after exactly the one request. *)
Definition lands {A} (request : Request) (m : M A) : Prop :=
  forall w, exists r w',
    m w = (r, w') /\ r <> Untyped /\
    requests w' = (requests w ++ [request])%list.

(** ** index.ts: the page state at load and the remaining listeners *)

Module Handlers.

(** Initializes the page state based on whether there's a saved city. *)
Definition initializePageState : M unit :=
  lastCity ← Storage.getLastCity Storage.default_maxAgeHours;
  match lastCity with
  | Some _ =>
      (* There's a saved city - show loading state *)
      update "weather-loading" (set_hidden false);;
      update "weather-data" (set_hidden true)
  | None =>
      (* No saved city - prepare for immediate Berlin display *)
      update "weather-loading" (set_hidden true);;
      update "weather-data" (set_hidden false)
  end.

(** The [input] listener of index.ts: reset current coordinates when the
    user types. *)
Definition on_input : M unit :=
  modify (with_currentCoordinates (fun _ => None)).

(** The [keydown] listener of the document for Ctrl+Shift+C: clear the
    stored city and say so. *)
Definition on_clear_shortcut : M unit :=
  try_catch
    (Storage.clearLastCity;;
     (* Show confirmation *)
     (let announcement :=
        "Gespeicherte Stadt gelöscht. Seite aktualisieren, um Berlin-Standard zu laden."
      in
      modify (with_announcements (fun l => (l ++ [announcement])%list));;
      setTimeout (RemoveAnnouncement announcement) 2000);;
     console_log Log "Stored city cleared via keyboard shortcut" None)
    (fun error =>
       console_log Warn "Failed to clear stored city:" (Some (JStr error))).

(** The [click] listener of the submit button.  It is installed, like the
    other listeners of index.ts, when the page has the button and the
    search field.  [search.focus()] moves the focus, which nothing else
    in the page reads. *)
Definition on_button_click : M unit :=
  current ← get currentCoordinates;
  match current with
  | Some coordinates =>
      (* Use selected coordinates *)
      Index.fetchWeatherData coordinates true true
  | None =>
      (* Try to search for the typed city name if there's input *)
      field ← get (fun w => document w !! "search");
      let cityName := trim (default "" (value <$> field)) in
      if decide (cityName = "") then
        (* No input - prompt user to type *)
        update "search" (set_placeholder "Stadtname zum Suchen eingeben...")
      else
        (* Simple search for exact city name *)
        try_catch
          (cities ← WeatherApi.searchCities cityName;
           match cities with
           | first :: _ =>
               modify (with_currentCoordinates (fun _ => Some first));;
               Index.fetchWeatherData first true true
           | [] =>
               (* Show error if no cities found *)
               update "city" (set_textContent "Stadt nicht gefunden");;
               update "weather-type"
                 (set_textContent "Bitte versuchen Sie eine andere Stadt")
           end)
          (fun error =>
             console_log Err "Error searching for city:" (Some (JStr error)))
  end.

End Handlers.

(** ** Frames: what a computation leaves as it was *)

(** A computation that returns or throws, with the world after related to
    the world before by [R]. *)
Definition keeps {A} (R : World -> World -> Prop) (m : M A) : Prop :=
  forall w, exists r w', m w = (r, w') /\ r <> Untyped /\ R w w'.

(** A computation that always returns, with the world after related to
    the world before by [R]. *)
Definition returning {A} (R : World -> World -> Prop) (m : M A) : Prop :=
  forall w, exists a w', m w = (Returned a, w') /\ R w w'.

(** The relations used as frames are reflexive and transitive. *)
Class Frame (R : World -> World -> Prop) : Prop := {
  frame_refl : forall w, R w w;
  frame_trans : forall w1 w2 w3, R w1 w2 -> R w2 w3 -> R w1 w3
}.

(** The storage is as it was. *)
Definition same_storage (w w' : World) : Prop :=
  localStorage w' = localStorage w.

(** The page is as it was: its elements, the classes of the body and the
    announcements. *)
Definition same_page (w w' : World) : Prop :=
  document w' = document w /\ body_classes w' = body_classes w /\
  announcements w' = announcements w.

(** The element with the given id is as it was. *)
Definition same_element (id : string) (w w' : World) : Prop :=
  document w' !! id = document w !! id.

(** The state of the autocomplete list and of the selection is as it
    was. *)
Definition same_search (w w' : World) : Prop :=
  results_items w' = results_items w /\
  currentResults w' = currentResults w /\
  selectedIndex w' = selectedIndex w /\
  dispatched w' = dispatched w /\
  currentCoordinates w' = currentCoordinates w.

(** The environment is as it was: the clock and the two services. *)
Definition same_environment (w w' : World) : Prop :=
  now w' = now w /\ geocoding w' = geocoding w /\ forecast w' = forecast w.

(** ** More sample worlds *)

Definition with_forecast
    (f : nat -> num -> num -> option (Response WeatherBody)) (w : World)
    : World :=
  Build_World (now w) (geocoding w) f (localStorage w)
    (console w) (requests w) (document w) (body_classes w) (announcements w)
    (timers w) (results_items w) (currentResults w) (selectedIndex w)
    (dispatched w) (currentCoordinates w).

Definition with_geocoding (g : string -> option (Response GeoData))
    (w : World) : World :=
  Build_World (now w) g (forecast w) (localStorage w)
    (console w) (requests w) (document w) (body_classes w) (announcements w)
    (timers w) (results_items w) (currentResults w) (selectedIndex w)
    (dispatched w) (currentCoordinates w).

(** An overcast day, 17.6 degrees. *)
Definition overcast : Current :=
  {| temperature_2m := Fin (176 # 10);
     apparent_temperature := Fin (169 # 10);
     relative_humidity_2m := Fin 64;
     weather_code := Fin 3;
     wind_speed_10m := Fin (1234 # 100) |}.

(** The page of [offline] with a weather service that answers. *)
Definition online : World :=
  with_forecast
    (fun _ _ _ =>
       Some {| ok := true; status := 200;
               body := Some {| current := Some overcast |} |})
    offline.

(** The page of [offline] in a browser that denies the storage. *)
Definition storage_denied : World :=
  with_localStorage
    (fun s => {| available := false; quota_exceeded := false;
                 items := items s |}) offline.

(** Two answers of the geocoding service for the name Frankfurt. *)
Definition frankfurt_main : GeoResult :=
  {| latitude := Fin (5011552 # 100000);
     longitude := Fin (868417 # 100000);
     geo_name := "Frankfurt am Main";
     geo_country := Some "Deutschland";
     admin1 := Some "Hessen";
     geo_postcodes := Some ["60306"; "60308"] |}.

Definition frankfurt_oder : GeoResult :=
  {| latitude := Fin (5234714 # 100000);
     longitude := Fin (1455062 # 100000);
     geo_name := "Frankfurt (Oder)";
     geo_country := None;
     admin1 := Some "Brandenburg";
     geo_postcodes := None |}.

Definition frankfurt_results : list GeoResult :=
  [frankfurt_main; frankfurt_oder].

Definition geocoding_frankfurt : World :=
  with_geocoding
    (fun _ =>
       Some {| ok := true; status := 200;
               body := Some {| results := Some frankfurt_results |} |})
    offline.

(** ** What the cache answers *)

(** The age in hours, at the time of the world, of a timestamp that
    converts to the number [ts]. *)
Definition ageInHours (w : World) (ts : num) : num :=
  div (sub (of_Z (now w)) ts) (of_Z (1000 * 60 * 60)).

(** The record [getLastCity] has to offer: the stored document, when the
    storage can be read, the timestamp converts to a number, the age is
    not above [maxAgeHours], and latitude, longitude and name are
    truthy. *)
Definition cached (maxAgeHours : num) (w : World) : option json :=
  if available (localStorage w) then
    match held w with
    | Some (Document doc) =>
        match field_number doc "timestamp" with
        | Some ts =>
            if gt (ageInHours w ts) maxAgeHours then None
            else if field_truthy doc "lat" && field_truthy doc "lon"
                    && field_truthy doc "name"
                 then Some doc else None
        | None => None
        end
    | _ => None
    end
  else None.

(** What the slot holds after [getLastCity]: a text that was looked at and
    not returned is removed. *)
Definition after_load (maxAgeHours : num) (w : World) : option StoredText :=
  if available (localStorage w) then
    match held w with
    | Some (Document doc) =>
        match cached maxAgeHours w with
        | Some _ => held w
        | None => None
        end
    | Some MalformedText => None
    | other => other
    end
  else held w.

(** The storage differs at most in the slot of the last city. *)
Definition same_storage_but_slot (w w' : World) : Prop :=
  available (localStorage w') = available (localStorage w) /\
  quota_exceeded (localStorage w') = quota_exceeded (localStorage w) /\
  forall k, k <> Storage.STORAGE_KEY ->
    items (localStorage w') !! k = items (localStorage w) !! k.

(** A stored record with coordinates and timestamp but without name. *)
Definition record_without_name : json :=
  JObj [("lat", JNum (5252 # 100)); ("lon", JNum (13405 # 1000));
        ("timestamp", JNum 1700000000000)].

(** What [fetchWeatherData] leaves alone when it is not asked to save:
    the storage, the search field, the loading indicator, the state of
    the autocomplete list and the environment. *)
Definition beside_the_display (w w' : World) : Prop :=
  same_storage w w' /\ same_element "search" w w' /\
  same_element "loading-indicator" w w' /\ same_search w w' /\
  same_environment w w'.

(** The two sections after a fetch: the loading section is hidden and the
    weather data is shown. *)
Definition sections_shown (w : World) : Prop :=
  (forall e, document w !! "weather-loading" = Some e -> hidden e = true) /\
  (forall e, document w !! "weather-data" = Some e -> hidden e = false).

(** The two sections are as they were. *)
Definition same_sections (w w' : World) : Prop :=
  same_element "weather-loading" w w' /\ same_element "weather-data" w w'.

(** The next weather request for the coordinates is answered with the
    given current conditions. *)
Definition forecast_answers (w : World) (coordinates : Coordinates)
    (cur : Current) : Prop :=
  exists s,
    forecast w (length (requests w)) (lat coordinates) (lon coordinates)
    = Some {| ok := true; status := s;
              body := Some {| current := Some cur |} |}.

(** The snapshot [getCurrentWeather] builds from an answer. *)
Definition snapshot (coordinates : Coordinates) (cur : Current)
    : WeatherData :=
  {| temperature := round (temperature_2m cur);
     feelsLike := round (apparent_temperature cur);
     humidity := relative_humidity_2m cur;
     windSpeed := div (round (mul (wind_speed_10m cur) (Fin 10))) (Fin 10);
     weatherCode := weather_code cur;
     weatherDescription :=
       WeatherApi.condition (WeatherApi.getWeatherInfo (weather_code cur));
     cityName := name coordinates;
     wd_country :=
       if str_truthy (country coordinates) then country coordinates
       else None;
     wd_postcodes := Some (default [] (postcodes coordinates)) |}.

(** The city the bootstrap resolves, with the text for the search field:
    the cached city, read at its declared type, or else Berlin.  [None]
    when the cached record does not have the declared type. *)
Definition resolved (w : World) : option (Coordinates * string) :=
  match cached Storage.default_maxAgeHours w with
  | Some doc =>
      (fun lastCity => (city lastCity, searchText lastCity))
        <$> as_StoredCity doc
  | None =>
      Some (WeatherApi.getBerlinCoordinates,
            Index.generateSearchText WeatherApi.getBerlinCoordinates)
  end.

(** The search field once it names the city on display. *)
Definition naming (text : string) (e : Element) : Element :=
  set_value "" (set_placeholder ("Aktuell: " +:+ text) e).

(** Nothing is asked of the world after. *)
Definition any_world (w w' : World) : Prop := True.

(** A computation that always returns, in a world where [P] holds. *)
Definition ending {A} (P : World -> Prop) (m : M A) : Prop :=
  forall w, exists a w', m w = (Returned a, w') /\ P w'.

(** A computation that returns in a world where [P] holds, or throws. *)
Definition ending_or_throwing {A} (P : World -> Prop) (m : M A) : Prop :=
  forall w, exists r w',
    m w = (r, w') /\
    match r with
    | Returned _ => P w'
    | Thrown _ => True
    | Untyped => False
    end.

(** The submit button after a fetch: enabled, with its label. *)
Definition button_restored (w : World) : Prop :=
  forall e, document w !! "submit-search" = Some e ->
    disabled e = false /\
    innerHTML e = "<span class=" +:+ dq +:+ "button-text" +:+ dq
                    +:+ ">Wetter abrufen</span>".

(** The sentence [announceWeatherUpdate] adds for a snapshot. *)
Definition announcement_of (weatherData : WeatherData) : string :=
  "Wetter aktualisiert für " +:+ cityName weatherData
    +:+ ". Aktuelle Bedingungen: " +:+ weatherDescription weatherData
    +:+ ", " +:+ num_to_string (temperature weatherData)
    +:+ " Grad Celsius.".

(** ** The autocomplete list *)

(** The geocoding service answers the query with the given results. *)
Definition geocoding_answers (w : World) (query : string)
    (rs : list GeoResult) : Prop :=
  exists s,
    geocoding w (trim query)
    = Some {| ok := true; status := s;
              body := Some {| results := Some rs |} |}.

(** The page once the user has typed the text into the search field. *)
Definition typed (text : string) (w : World) : World :=
  with_document (alter (set_value text) "search") w.

(** The entry of the list that says there is no match. *)
Definition no_match : Item :=
  {| item_text := "Keine Treffer gefunden"; item_id := "";
     aria_selected := None; city_index := None |}.

(** The list is closed: it has no entry and nothing is selected. *)
Definition closed (w : World) : Prop :=
  results_items w = [] /\ selectedIndex w = (-1)%Z.

(** ** The frames are reflexive and transitive *)

#[local] Instance same_storage_frame : Frame same_storage.
Proof.
  split; unfold same_storage; [reflexivity | intros; congruence].
Qed.

#[local] Instance same_page_frame : Frame same_page.
Proof.
  split; unfold same_page.
  - intros w. repeat split.
  - intros w1 w2 w3 (H1 & H2 & H3) (H4 & H5 & H6).
    repeat split; congruence.
Qed.

#[local] Instance same_element_frame (id : string) : Frame (same_element id).
Proof.
  split; unfold same_element; [reflexivity | intros; congruence].
Qed.

#[local] Instance same_search_frame : Frame same_search.
Proof.
  split; unfold same_search.
  - intros w. repeat split.
  - intros w1 w2 w3 (? & ? & ? & ? & ?) (? & ? & ? & ? & ?).
    repeat split; congruence.
Qed.

#[local] Instance same_environment_frame : Frame same_environment.
Proof.
  split; unfold same_environment.
  - intros w. repeat split.
  - intros w1 w2 w3 (? & ? & ?) (? & ? & ?). repeat split; congruence.
Qed.

#[local] Instance same_storage_but_slot_frame : Frame same_storage_but_slot.
Proof.
  split; unfold same_storage_but_slot.
  - intros w. repeat split.
  - intros w1 w2 w3 (H1 & H2 & H3) (H4 & H5 & H6).
    split; [congruence |]. split; [congruence |].
    intros k Hk. rewrite H6, H3 by exact Hk. reflexivity.
Qed.

#[local] Instance beside_the_display_frame : Frame beside_the_display.
Proof.
  split; unfold beside_the_display.
  - intros w. repeat split.
  - intros w1 w2 w3 (A1 & B1 & C1 & D1 & E1) (A2 & B2 & C2 & D2 & E2).
    split; [exact (frame_trans _ _ _ A1 A2) |].
    split; [exact (frame_trans _ _ _ B1 B2) |].
    split; [exact (frame_trans _ _ _ C1 C2) |].
    split; [exact (frame_trans _ _ _ D1 D2) |].
    exact (frame_trans _ _ _ E1 E2).
Qed.

#[local] Instance same_sections_frame : Frame same_sections.
Proof.
  split; unfold same_sections.
  - intros w. split; apply frame_refl.
  - intros w1 w2 w3 (A1 & B1) (A2 & B2).
    split; [exact (frame_trans _ _ _ A1 A2) |].
    exact (frame_trans _ _ _ B1 B2).
Qed.

#[local] Instance any_world_frame : Frame any_world.
Proof. split; intros; exact I. Qed.

(** ** weather-api.ts: the condition table *)

Section ConditionTable.
  Import WeatherApi.

(** C5. [getWeatherInfo] is a function of the code alone, and a code that
    the table does not hold gets the entry of code 0, the clear-sky
    default (condition text, icon and theme), not a failure. *)
Theorem getWeatherInfo_unknown_code (code : num) :
  weatherCodeMap_at code = None ->
  getWeatherInfo code = getWeatherInfo (Fin 0) /\
  getWeatherInfo (Fin 0) =
    {| condition := "Klarer Himmel"; image := "sunny.png";
       background := "sunny" |}.
Proof.
  intros Hnone. split.
  - unfold getWeatherInfo. now rewrite Hnone.
  - reflexivity.
Qed.

Lemma getWeatherInfo_9999 :
  weatherCodeMap_at (Fin 9999) = None /\
  getWeatherInfo (Fin 9999) = getWeatherInfo (Fin 0).
Proof.
  split; [reflexivity |].
  apply (getWeatherInfo_unknown_code (Fin 9999)). reflexivity.
Defined.

(** For an integer code the lookup is the lookup of the table. *)
Lemma weatherCodeMap_at_integer (z : Z) :
  weatherCodeMap_at (of_Z z) = weatherCodeMap !! z.
Proof.
  unfold weatherCodeMap_at, property_key, of_Z. cbn.
  now rewrite Z.mod_1_r, Z.div_1_r.
Qed.

(** A code of the table gets its own entry. *)
Lemma getWeatherInfo_known (code : num) (info : WeatherInfo) :
  weatherCodeMap_at code = Some info -> getWeatherInfo code = info.
Proof. intros H. unfold getWeatherInfo. now rewrite H. Qed.

End ConditionTable.

(** ** search.ts: keyboard navigation *)

Section Keyboard.
  Import Search.

Lemma select_items_length (i : nat) (s : Z) (items : list Item) :
  length (select_items i s items) = length items.
Proof.
  revert i. induction items as [| item rest IH]; intros i; simpl;
    [reflexivity | now rewrite IH].
Qed.

Lemma updateSelection_spec (s : Z) (w : World) :
  exists w',
    updateSelection s w = (Returned tt, w') /\
    results_items w' = select_items 0 s (results_items w) /\
    selectedIndex w' = selectedIndex w.
Proof.
  unfold updateSelection. run.
  destruct (if (0 <=? s)%Z then results_items w !! Z.to_nat s else None);
    run; eexists; (split; [reflexivity |]); split; reflexivity.
Qed.

Lemma keydown_arrow (count : nat) (key : Key) (w : World) :
  arrow key -> in_bounds count w ->
  exists w', keydown key w = (Returned tt, w') /\ in_bounds count w'.
Proof.
  intros Harrow [Hlen Hsel].
  destruct Harrow as [-> | ->]; unfold keydown; run.
  - destruct (updateSelection_spec
                (Z.min (selectedIndex w + 1)
                       (Z.of_nat (length (results_items w)) - 1))
                (with_selectedIndex
                   (fun _ => Z.min (selectedIndex w + 1)
                               (Z.of_nat (length (results_items w)) - 1)) w))
      as (w' & Hrun & Hitems & Hidx).
    exists w'. split; [exact Hrun |].
    unfold in_bounds. rewrite Hitems, Hidx, select_items_length. cbn.
    rewrite Hlen. split; [reflexivity | lia].
  - destruct (updateSelection_spec
                (Z.max (selectedIndex w - 1) (-1))
                (with_selectedIndex
                   (fun _ => Z.max (selectedIndex w - 1) (-1)) w))
      as (w' & Hrun & Hitems & Hidx).
    exists w'. split; [exact Hrun |].
    unfold in_bounds. rewrite Hitems, Hidx, select_items_length. cbn.
    split; [exact Hlen | lia].
Qed.

Lemma press_arrows (count : nat) (keys : list Key) :
  Forall arrow keys ->
  forall w, in_bounds count w ->
  exists w', press keys w = (Returned tt, w') /\ in_bounds count w'.
Proof.
  induction 1 as [| key rest Hkey _ IH]; intros w Hw.
  - exists w. split; [reflexivity | exact Hw].
  - destruct (keydown_arrow count key w Hkey Hw) as (w1 & Hrun1 & Hw1).
    destruct (IH w1 Hw1) as (w2 & Hrun2 & Hw2).
    exists w2. split; [| exact Hw2].
    cbn [press]. unfold mbind, M_bind. now rewrite Hrun1.
Qed.

(** C6. From no selection ([-1]) and a list of [count] entries, however
    many ArrowDown and ArrowUp presses follow, after each of them the
    selection index is between [-1] and [count - 1]: Down never passes
    the last entry, Up never goes below [-1]. *)
Theorem keyboard_bounds (keys : list Key) (n : nat) (w : World) :
  Forall arrow keys ->
  selectedIndex w = (-1)%Z ->
  let count := length (results_items w) in
  let w' := (press (take n keys) w).2 in
  length (results_items w') = count /\
  (-1 <= selectedIndex w' <= Z.of_nat count - 1)%Z.
Proof.
  intros Hkeys Hstart count w'.
  assert (Hw : in_bounds count w).
  { split; [reflexivity |]. rewrite Hstart. lia. }
  destruct (press_arrows count (take n keys) (Forall_take _ n _ Hkeys) w Hw)
    as (w1 & Hrun & Hw1).
  subst w'. rewrite Hrun. exact Hw1.
Qed.

Lemma keyboard_bounds_three_entries :
  Forall arrow down_then_up /\
  selectedIndex three_entries = (-1)%Z /\
  selectedIndex (press (take 4 down_then_up) three_entries).2 = 2%Z /\
  (-1 <= selectedIndex (press (take 9 down_then_up) three_entries).2
      <= 3 - 1)%Z.
Proof.
  assert (Hkeys : Forall arrow down_then_up).
  { repeat (constructor;
            [first [left; reflexivity | right; reflexivity] |]).
    constructor. }
  split; [exact Hkeys |]. split; [reflexivity |].
  split; [reflexivity |].
  apply (keyboard_bounds down_then_up 9 three_entries Hkeys).
  reflexivity.
Defined.

End Keyboard.

(** ** weather-api.ts: the geocoding client *)

Section Geocoding.
  Import WeatherApi.

(** C7. When the geocoding request fails, or its answer does not decode,
    [searchCities] returns the empty list and throws nothing; the failure
    is written to the console (a blank query makes no request and logs
    nothing). *)
Theorem searchCities_failure (query : string) (w : World) :
  geocoding_fails w query ->
  exists w',
    searchCities query w = (Returned [], w') /\
    (trim query <> "" ->
     exists cause,
       console w' =
         (console w
            ++ [(Err, "Error searching cities:", Some (JStr cause))])%list).
Proof.
  unfold geocoding_fails, searchCities. intros Hfails.
  destruct (decide (trim query = "")) as [Hblank | Hquery].
  { exists w. split; [reflexivity | contradiction]. }
  unfold fetch_geocoding, response_json. run.
  destruct (geocoding w (trim query)) as [[o s b] |]; cbn in *.
  - destruct Hfails as [-> | ->]; cbn.
    + eexists. split; [reflexivity |]. intros _. eexists. reflexivity.
    + destruct o; cbn;
        (eexists; split; [reflexivity |]; intros _; eexists; reflexivity).
  - eexists. split; [reflexivity |]. intros _. eexists. reflexivity.
Qed.

Lemma searchCities_offline :
  geocoding_fails offline "Paris" /\
  exists w', searchCities "Paris" offline = (Returned [], w').
Proof.
  assert (Hfails : geocoding_fails offline "Paris") by exact I.
  split; [exact Hfails |].
  destruct (searchCities_failure "Paris" offline Hfails) as (w' & Hrun & _).
  exists w'. exact Hrun.
Defined.

(** Whatever the service does, [searchCities] returns a list. *)
Lemma searchCities_returns (query : string) (w : World) :
  exists l w', searchCities query w = (Returned l, w').
Proof.
  unfold searchCities.
  destruct (decide (trim query = "")); [eexists; eexists; reflexivity |].
  unfold fetch_geocoding, response_json. run.
  destruct (geocoding w (trim query)) as [[o s b] |]; cbn;
    [| eexists; eexists; reflexivity].
  destruct o; cbn; [| eexists; eexists; reflexivity].
  destruct b as [[r] |]; cbn; [| eexists; eexists; reflexivity].
  destruct r; eexists; eexists; reflexivity.
Qed.

End Geocoding.

#[local] Arguments sub : simpl never.
#[local] Arguments div : simpl never.
#[local] Arguments gt : simpl never.

(** ** storage.ts: the cache of the last city *)

Section Cache.
  Import Storage.


Lemma Qlt_bool_false (x y : Q) : (y <= x)%Q -> Qlt_bool x y = false.
Proof.
  intros H. unfold Qlt_bool. apply Qle_bool_iff in H. now rewrite H.
Qed.

Lemma Qzero_iff (q : Q) : Qzero q = true <-> (q == 0)%Q.
Proof.
  unfold Qzero, Qeq. cbn. rewrite Z.eqb_eq. lia.
Qed.

(** The age of a numeric timestamp, in hours. *)
Lemma ageInHours_number (t : Z) (ts : Q) :
  div (sub (of_Z t) (Fin ts)) (of_Z (1000 * 60 * 60))
  = Fin ((inject_Z t - ts) / 3600000).
Proof. reflexivity. Qed.

(** The age of a timestamp that is not a number is not a number, and is
    not greater than anything. *)
Lemma ageInHours_NaN (t : Z) (maxAgeHours : num) :
  gt (div (sub (of_Z t) NaN) (of_Z (1000 * 60 * 60))) maxAgeHours = false.
Proof. reflexivity. Qed.

Lemma clearLastCity_available (w : World) :
  available (localStorage w) = true ->
  clearLastCity w = (Returned tt, cleared w).
Proof.
  intros H. unfold clearLastCity, removeItem. run. now rewrite H.
Qed.

Lemma held_cleared (w : World) : held (cleared w) = None.
Proof. unfold held, cleared. cbn. apply lookup_delete_eq. Qed.

Lemma held_holding (t : StoredText) (w : World) :
  held (holding t w) = Some t.
Proof. unfold held, holding. cbn. apply lookup_insert_eq. Qed.

Lemma saveLastCity_working (c : Coordinates) (text : string) (w : World) :
  working (localStorage w) ->
  saveLastCity c text w = (Returned tt, saved c text w).
Proof.
  intros [Havail Hquota]. unfold saveLastCity, setItem. run.
  now rewrite Havail, Hquota.
Qed.


(** What [getLastCity] does with a document whose timestamp converts to
    a number: the three outcomes of the source, in its order. *)
Lemma getLastCity_document (maxAgeHours age : num) (doc : json) (w : World) :
  available (localStorage w) = true ->
  held w = Some (Document doc) ->
  doc <> JNull ->
  field_number doc "timestamp" = Some age ->
  exists w',
    getLastCity maxAgeHours w =
      (Returned
         (if gt (div (sub (of_Z (now w)) age) (of_Z (1000 * 60 * 60)))
               maxAgeHours
          then None
          else if field_truthy doc "lat" && field_truthy doc "lon"
                  && field_truthy doc "name"
               then Some doc else None), w') /\
    held w' =
      (if gt (div (sub (of_Z (now w)) age) (of_Z (1000 * 60 * 60)))
            maxAgeHours
       then None
       else if field_truthy doc "lat" && field_truthy doc "lon"
               && field_truthy doc "name"
            then Some (Document doc) else None) /\
    available (localStorage w') = true.
Proof.
  intros Havail Hheld Hdoc Hage.
  unfold getLastCity, getItem, parse, field, since. run.
  unfold held in Hheld. rewrite Havail, Hheld. cbn.
  unfold field_number in Hage. unfold field_truthy.
  destruct (get_field doc "timestamp") as [ts |] eqn:Hts; [| discriminate].
  cbn. rewrite Hage. cbn.
  destruct (gt _ maxAgeHours).
  - rewrite clearLastCity_available by exact Havail.
    eexists. split; [reflexivity |]. split; [apply held_cleared | exact Havail].
  - assert (Hget : forall k, exists v, get_field doc k = Some v).
    { intros k. destruct doc; cbn; eauto; congruence. }
    destruct (Hget "lat") as [vlat ->], (Hget "lon") as [vlon ->],
      (Hget "name") as [vname ->]. cbn.
    destruct (truthy vlat), (truthy vlon), (truthy vname); cbn;
      try (rewrite clearLastCity_available by exact Havail;
           eexists; split; [reflexivity |];
           split; [apply held_cleared | exact Havail]).
    eexists. split; [reflexivity |]. split; [exact Hheld | exact Havail].
Qed.



Lemma properties_lookup (s : StoredCity) :
  lookup_last "lat" (properties s) = Some (json_of_num (lat (city s)))
  /\ lookup_last "lon" (properties s) = Some (json_of_num (lon (city s)))
  /\ lookup_last "name" (properties s) = Some (JStr (name (city s)))
  /\ lookup_last "country" (properties s) = JStr <$> country (city s)
  /\ lookup_last "postcodes" (properties s)
       = (fun l => JArr (map JStr l)) <$> postcodes (city s)
  /\ lookup_last "timestamp" (properties s)
       = Some (json_of_num (timestamp s))
  /\ lookup_last "searchText" (properties s) = Some (JStr (searchText s)).
Proof.
  destruct s as [[la lo n co pc] ts st]. unfold properties. cbn.
  destruct co, pc; repeat split; reflexivity.
Qed.

Lemma stringify_fields (s : StoredCity) :
  get_field (stringify s) "timestamp" = Some (Some (json_of_num (timestamp s)))
  /\ get_field (stringify s) "lat" = Some (Some (json_of_num (lat (city s))))
  /\ get_field (stringify s) "lon" = Some (Some (json_of_num (lon (city s))))
  /\ get_field (stringify s) "name" = Some (Some (JStr (name (city s)))).
Proof.
  pose proof (properties_lookup s) as (Hlat & Hlon & Hname & _ & _ & Hts & _).
  unfold stringify, get_field. now rewrite Hlat, Hlon, Hname, Hts.
Qed.

Lemma truthy_json_of_num (a : num) :
  truthy (Some (json_of_num a)) = true <-> finite_nonzero a.
Proof.
  unfold finite_nonzero. destruct a as [| s | q]; cbn.
  - split; [discriminate | intros (q & H & _); discriminate].
  - split; [discriminate | intros (q & H & _); discriminate].
  - rewrite negb_true_iff, <- not_true_iff_false, Qzero_iff. split.
    + intros H. exists q. split; [reflexivity | exact H].
    + intros (q' & [= <-] & H). exact H.
Qed.

Lemma falsy_json_of_zero (a : num) :
  is_zero a -> truthy (Some (json_of_num a)) = false.
Proof.
  intros (q & -> & Hq). cbn. apply Qzero_iff in Hq. now rewrite Hq.
Qed.

(** C9. A candidate on the equator or on the prime meridian (latitude 0
    or longitude 0) does not survive the cache: [saveLastCity] writes it,
    and [getLastCity] then answers [null] and removes the record, since it
    rejects a record whose latitude or longitude is falsy. *)
Theorem save_load_zero_coordinate (coordinates : Coordinates)
    (searchText : string) (w : World) (later : Z) (maxAgeHours : num) :
  working (localStorage w) ->
  is_zero (lat coordinates) \/ is_zero (lon coordinates) ->
  exists w1 w2,
    saveLastCity coordinates searchText w = (Returned tt, w1) /\
    held w1 =
      Some (Document (stringify (record_of coordinates searchText w))) /\
    getLastCity maxAgeHours (with_now later w1) = (Returned None, w2) /\
    held w2 = None.
Proof.
  intros Hworking Hzero.
  exists (saved coordinates searchText w).
  pose proof (stringify_fields (record_of coordinates searchText w))
    as (Hts & Hlat & Hlon & _).
  destruct (getLastCity_document maxAgeHours (of_Z (now w))
              (stringify (record_of coordinates searchText w))
              (with_now later (saved coordinates searchText w)))
    as (w2 & Hrun & Hheld & _).
  - apply Hworking.
  - apply held_holding.
  - discriminate.
  - unfold field_number. rewrite Hts. reflexivity.
  - exists w2. split; [now apply saveLastCity_working |].
    split; [apply held_holding |].
    assert (Hfalsy :
      field_truthy (stringify (record_of coordinates searchText w)) "lat"
      && field_truthy (stringify (record_of coordinates searchText w)) "lon"
      = false).
    { unfold field_truthy. rewrite Hlat, Hlon. cbn [record_of city].
      destruct Hzero as [H | H]; rewrite (falsy_json_of_zero _ H);
        [reflexivity | apply andb_false_r]. }
    rewrite Hfalsy in Hrun, Hheld. cbn in Hrun, Hheld.
    destruct (gt _ maxAgeHours); split; assumption.
Qed.

Lemma save_load_greenwich :
  working (localStorage offline) /\
  (is_zero (lat greenwich) \/ is_zero (lon greenwich)) /\
  exists w1 w2,
    saveLastCity greenwich "Greenwich, United Kingdom" offline
      = (Returned tt, w1) /\
    getLastCity default_maxAgeHours w1 = (Returned None, w2) /\
    held w2 = None.
Proof.
  assert (Hworking : working (localStorage offline)) by (split; reflexivity).
  assert (Hzero : is_zero (lat greenwich) \/ is_zero (lon greenwich)).
  { right. exists 0%Q. split; reflexivity. }
  split; [exact Hworking |]. split; [exact Hzero |].
  destruct (save_load_zero_coordinate greenwich "Greenwich, United Kingdom"
              offline (now offline) default_maxAgeHours Hworking Hzero)
    as (w1 & w2 & Hsave & _ & Hload & Hheld).
  exists w1, w2. split; [exact Hsave |]. split; [| exact Hheld].
  rewrite <- Hload. f_equal.
  apply (f_equal snd) in Hsave. cbn in Hsave. now subst w1.
Defined.
(** C4, at a candidate on the prime meridian: the record is written, and
    the load that follows at once answers [null] instead of the record. *)
Theorem save_load_greenwich_lost :
  exists w1 w2,
    saveLastCity greenwich "Greenwich, United Kingdom" offline
      = (Returned tt, w1) /\
    held w1 =
      Some (Document
              (stringify
                 (record_of greenwich "Greenwich, United Kingdom" offline)))
    /\
    getLastCity default_maxAgeHours w1 = (Returned None, w2) /\
    held w2 = None.
Proof.
  eexists. eexists. split; [reflexivity |].
  split; [reflexivity |]. split; reflexivity.
Qed.

Lemma as_strings_map (l : list string) : as_strings (map JStr l) = Some l.
Proof.
  unfold as_strings. induction l as [| x l IH]; [reflexivity |].
  cbn. cbn in IH. now rewrite IH.
Qed.

(** The cast recovers what [stringify] wrote, for finite numbers. *)
Lemma as_StoredCity_stringify (s : StoredCity) (la lo ts : Q) :
  lat (city s) = Fin la -> lon (city s) = Fin lo -> timestamp s = Fin ts ->
  as_StoredCity (stringify s) = Some s.
Proof.
  intros Hla Hlo Hts.
  pose proof (properties_lookup s)
    as (Hlat & Hlon & Hname & Hco & Hpc & Htime & Htext).
  unfold stringify, as_StoredCity.
  rewrite Hlat, Hlon, Hname, Hco, Hpc, Htime, Htext, Hla, Hlo, Hts.
  destruct s as [[la' lo' n co pc] ts' st]. cbn in *. subst.
  destruct co, pc; cbn; rewrite ?as_strings_map; reflexivity.
Qed.

(** X1. The round trip of the cache, for a candidate whose latitude and
    longitude are finite and not zero and whose name is not empty: a load
    within [maxAgeHours] of the save returns what was written, which is
    the candidate, the text and the time of the save. *)
Lemma save_load_round_trip (coordinates : Coordinates) (searchText : string)
    (w : World) (later : Z) (maxAgeHours : Q) :
  working (localStorage w) ->
  finite_nonzero (lat coordinates) ->
  finite_nonzero (lon coordinates) ->
  name coordinates <> "" ->
  ((inject_Z later - inject_Z (now w)) / 3600000 <= maxAgeHours)%Q ->
  let written := record_of coordinates searchText w in
  exists w1 w2,
    saveLastCity coordinates searchText w = (Returned tt, w1) /\
    getLastCity (Fin maxAgeHours) (with_now later w1)
      = (Returned (Some (stringify written)), w2) /\
    as_StoredCity (stringify written) = Some written /\
    held w2 = Some (Document (stringify written)).
Proof.
  intros Hworking Hlat Hlon Hname Hage written.
  exists (saved coordinates searchText w).
  pose proof (stringify_fields written) as (Hts & Hflat & Hflon & Hfname).
  destruct (getLastCity_document (Fin maxAgeHours) (of_Z (now w))
              (stringify written)
              (with_now later (saved coordinates searchText w)))
    as (w2 & Hrun & Hheld & _).
  - apply Hworking.
  - apply held_holding.
  - discriminate.
  - unfold field_number. rewrite Hts. reflexivity.
  - exists w2. split; [now apply saveLastCity_working |].
    cbn [now with_now] in Hrun, Hheld.
    unfold of_Z at 2 in Hrun. unfold of_Z at 2 in Hheld.
    rewrite ageInHours_number in Hrun, Hheld. unfold gt in Hrun, Hheld.
    rewrite (Qlt_bool_false _ _ Hage) in Hrun, Hheld.
    assert (Hok : field_truthy (stringify written) "lat"
                  && field_truthy (stringify written) "lon"
                  && field_truthy (stringify written) "name" = true).
    { unfold field_truthy. rewrite Hflat, Hflon, Hfname.
      cbn [written record_of city].
      rewrite (proj2 (truthy_json_of_num _) Hlat).
      rewrite (proj2 (truthy_json_of_num _) Hlon).
      cbn. destruct (decide (name coordinates = "")); [contradiction |].
      reflexivity. }
    rewrite Hok in Hrun, Hheld.
    split; [exact Hrun |]. split; [| exact Hheld].
    destruct Hlat as (la & Hla & _), Hlon as (lo & Hlo & _).
    apply (as_StoredCity_stringify written la lo (inject_Z (now w)));
      [exact Hla | exact Hlo | reflexivity].
Qed.

(** At a [null] timestamp the age is the whole time since 1970: the
    record counts as expired and is removed, although its timestamp is
    not a number and its latitude, longitude and name are truthy. *)
Lemma getLastCity_null_timestamp :
  get_field berlin_null_timestamp "timestamp" = Some (Some JNull) /\
  field_truthy berlin_null_timestamp "lat" = true /\
  field_truthy berlin_null_timestamp "lon" = true /\
  field_truthy berlin_null_timestamp "name" = true /\
  exists w',
    getLastCity default_maxAgeHours
      (holding (Document berlin_null_timestamp) offline)
      = (Returned None, w') /\
    held w' = None.
Proof.
  repeat (split; [reflexivity |]).
  eexists. split; reflexivity.
Qed.

(** C10, amended.  A stored record whose [timestamp] is missing, or
    converts to NaN (a text that is no numeric literal, a plain object),
    never counts as expired: its age is NaN, the comparison with
    [maxAgeHours] is false, and [getLastCity] returns the record as soon
    as its latitude, longitude and name are truthy, whatever
    [maxAgeHours] is.  The record stays in the storage. *)
Theorem getLastCity_timestamp_NaN (w : World) (doc : json)
    (maxAgeHours : num) :
  available (localStorage w) = true ->
  held w = Some (Document doc) ->
  field_number doc "timestamp" = Some NaN ->
  field_truthy doc "lat" = true ->
  field_truthy doc "lon" = true ->
  field_truthy doc "name" = true ->
  exists w',
    getLastCity maxAgeHours w = (Returned (Some doc), w') /\
    held w' = Some (Document doc).
Proof.
  intros Havail Hheld Hts Hlat Hlon Hname.
  destruct (getLastCity_document maxAgeHours NaN doc w)
    as (w' & Hrun & Hheld' & _); try assumption.
  { intros ->. discriminate. }
  rewrite ageInHours_NaN, Hlat, Hlon, Hname in Hrun, Hheld'.
  exists w'. split; assumption.
Qed.

Lemma getLastCity_missing_timestamp :
  get_field berlin_no_timestamp "timestamp" = Some None /\
  exists w',
    getLastCity (Fin 0) (holding (Document berlin_no_timestamp) offline)
      = (Returned (Some berlin_no_timestamp), w') /\
    held w' = Some (Document berlin_no_timestamp).
Proof.
  split; [reflexivity |].
  apply (getLastCity_timestamp_NaN
           (holding (Document berlin_no_timestamp) offline)
           berlin_no_timestamp (Fin 0)); reflexivity.
Defined.

(** The timestamps that convert to NaN include the missing one and every
    text that is no numeric literal; [null], booleans and numeric texts
    convert to numbers. *)
Lemma timestamp_conversions :
  ToNumber None = Some NaN /\
  ToNumber (Some (JStr "yesterday")) = Some NaN /\
  ToNumber (Some (JObj [])) = Some NaN /\
  ToNumber (Some JNull) = Some (Fin 0) /\
  ToNumber (Some (JBool true)) = Some (Fin 1) /\
  ToNumber (Some (JStr "1700000000000")) = Some (of_Z 1700000000000).
Proof. repeat split; reflexivity. Qed.

End Cache.

(** ** Which computations return, and what they ask *)

Section Requests.

Lemma quiet_calm {A} (m : M A) : quiet m -> calm m.
Proof.
  intros H w. destruct (H w) as (a & w' & Hrun & Hreq).
  exists (Returned a), w'. repeat split; [exact Hrun | discriminate | exact Hreq].
Qed.

Lemma quiet_ret {A} (a : A) : quiet (mret a).
Proof. intros w. exists a, w. split; reflexivity. Qed.

Lemma quiet_bind {A B} (m : M A) (f : A -> M B) :
  quiet m -> (forall a, quiet (f a)) -> quiet (m ≫= f).
Proof.
  intros Hm Hf w. destruct (Hm w) as (a & w1 & Hrun1 & Hreq1).
  destruct (Hf a w1) as (b & w2 & Hrun2 & Hreq2).
  exists b, w2. unfold mbind, M_bind. rewrite Hrun1. split; [exact Hrun2 |].
  now rewrite Hreq2.
Qed.

Lemma calm_bind {A B} (m : M A) (f : A -> M B) :
  calm m -> (forall a, calm (f a)) -> calm (m ≫= f).
Proof.
  intros Hm Hf w. destruct (Hm w) as (r & w1 & Hrun1 & Hr & Hreq1).
  unfold mbind, M_bind. rewrite Hrun1. destruct r as [a | e |].
  - destruct (Hf a w1) as (r2 & w2 & Hrun2 & Hr2 & Hreq2).
    exists r2, w2. split; [exact Hrun2 |]. split; [exact Hr2 |].
    now rewrite Hreq2.
  - exists (Thrown e), w1. split; [reflexivity |].
    split; [discriminate | exact Hreq1].
  - contradiction.
Qed.


Lemma quiet_get {A} (f : World -> A) : quiet (get f).
Proof. intros w. exists (f w), w. split; reflexivity. Qed.

Lemma quiet_modify (f : World -> World) :
  (forall w, requests (f w) = requests w) -> quiet (modify f).
Proof. intros Hf w. exists tt, (f w). split; [reflexivity | apply Hf]. Qed.

Lemma quiet_when (b : bool) (m : M unit) : quiet m -> quiet (when b m).
Proof. intros Hm. destruct b; [exact Hm | apply quiet_ret]. Qed.

Lemma quiet_try_catch {A} (m : M A) (h : string -> M A) :
  calm m -> (forall e, quiet (h e)) -> quiet (try_catch m h).
Proof.
  intros Hm Hh w. destruct (Hm w) as (r & w1 & Hrun1 & Hr & Hreq1).
  unfold try_catch. rewrite Hrun1. destruct r as [a | e |].
  - exists a, w1. split; [reflexivity | exact Hreq1].
  - destruct (Hh e w1) as (a & w2 & Hrun2 & Hreq2).
    exists a, w2. split; [exact Hrun2 |]. now rewrite Hreq2.
  - contradiction.
Qed.

Lemma quiet_try_finally {A} (m : M A) (c : M unit) :
  quiet m -> quiet c -> quiet (try_finally m c).
Proof.
  intros Hm Hc w. destruct (Hm w) as (a & w1 & Hrun1 & Hreq1).
  destruct (Hc w1) as ([] & w2 & Hrun2 & Hreq2).
  exists a, w2. unfold try_finally. rewrite Hrun1, Hrun2.
  split; [reflexivity |]. now rewrite Hreq2.
Qed.

Ltac quietly :=
  unfold update, present, console_log, setTimeout;
  repeat first
    [ apply quiet_ret
    | apply quiet_get
    | apply quiet_modify; intros ?; reflexivity
    | apply quiet_when
    | apply quiet_bind; [| intros ?]
    | match goal with
      | |- quiet (if ?b then _ else _) => destruct b
      | |- quiet (match ?x with _ => _ end) => destruct x
      end ].


Lemma calm_setItem (key : string) (t : StoredText) :
  calm (Storage.setItem key t).
Proof.
  intros w. unfold Storage.setItem.
  destruct (available (localStorage w)); cbn;
    [destruct (quota_exceeded (localStorage w)) |]; eexists; eexists;
    (split; [reflexivity |]; split; [discriminate | reflexivity]).
Qed.

Lemma calm_removeItem (key : string) : calm (Storage.removeItem key).
Proof.
  intros w. unfold Storage.removeItem.
  destruct (available (localStorage w)); eexists; eexists;
    (split; [reflexivity |]; split; [discriminate | reflexivity]).
Qed.

(** The functions of storage.ts catch what they raise. *)
Lemma quiet_saveLastCity (c : Coordinates) (text : string) :
  quiet (Storage.saveLastCity c text).
Proof.
  unfold Storage.saveLastCity. apply quiet_try_catch; [| intros e; quietly].
  apply calm_bind; [apply quiet_calm, quiet_get | intros t].
  apply calm_bind; [apply calm_setItem | intros _].
  apply quiet_calm. quietly.
Qed.


Lemma quiet_isStorageAvailable : quiet Storage.isStorageAvailable.
Proof.
  unfold Storage.isStorageAvailable.
  apply quiet_try_catch; [| intros e; quietly].
  apply calm_bind; [apply calm_setItem | intros _].
  apply calm_bind; [apply calm_removeItem | intros _].
  apply quiet_calm. quietly.
Qed.





Lemma quiet_showWeatherData : quiet Index.showWeatherData.
Proof. unfold Index.showWeatherData. quietly. Qed.

Lemma quiet_updateWeatherDisplay (weatherData : WeatherData) :
  quiet (Index.updateWeatherDisplay weatherData).
Proof.
  unfold Index.updateWeatherDisplay. quietly; apply quiet_showWeatherData.
Qed.

Lemma lands_after {A B} (request : Request) (m : M A) (f : A -> M B) :
  quiet m -> (forall a, lands request (f a)) -> lands request (m ≫= f).
Proof.
  intros Hm Hf w. destruct (Hm w) as (a & w1 & Hrun1 & Hreq1).
  destruct (Hf a w1) as (r & w2 & Hrun2 & Hr & Hreq2).
  exists r, w2. unfold mbind, M_bind. rewrite Hrun1.
  split; [exact Hrun2 |]. split; [exact Hr |]. now rewrite Hreq2, Hreq1.
Qed.

Lemma lands_before {A B} (request : Request) (m : M A) (f : A -> M B) :
  lands request m -> (forall a, calm (f a)) -> lands request (m ≫= f).
Proof.
  intros Hm Hf w. destruct (Hm w) as (r & w1 & Hrun1 & Hr & Hreq1).
  unfold mbind, M_bind. rewrite Hrun1. destruct r as [a | e |].
  - destruct (Hf a w1) as (r2 & w2 & Hrun2 & Hr2 & Hreq2).
    exists r2, w2. split; [exact Hrun2 |]. split; [exact Hr2 |].
    now rewrite Hreq2.
  - exists (Thrown e), w1. split; [reflexivity |].
    split; [discriminate | exact Hreq1].
  - contradiction.
Qed.

Lemma asks_once_try_catch {A} (request : Request) (m : M A)
    (h : string -> M A) :
  lands request m -> (forall e, quiet (h e)) ->
  asks_once request (try_catch m h).
Proof.
  intros Hm Hh w. destruct (Hm w) as (r & w1 & Hrun1 & Hr & Hreq1).
  unfold try_catch. rewrite Hrun1. destruct r as [a | e |].
  - exists a, w1. split; [reflexivity | exact Hreq1].
  - destruct (Hh e w1) as (a & w2 & Hrun2 & Hreq2).
    exists a, w2. split; [exact Hrun2 |]. now rewrite Hreq2.
  - contradiction.
Qed.

Lemma asks_once_try_finally {A} (request : Request) (m : M A) (c : M unit) :
  asks_once request m -> quiet c -> asks_once request (try_finally m c).
Proof.
  intros Hm Hc w. destruct (Hm w) as (a & w1 & Hrun1 & Hreq1).
  destruct (Hc w1) as ([] & w2 & Hrun2 & Hreq2).
  exists a, w2. unfold try_finally. rewrite Hrun1, Hrun2.
  split; [reflexivity |]. now rewrite Hreq2.
Qed.



(** [getCurrentWeather] makes its one request and returns or throws. *)
Lemma getCurrentWeather_lands (c : Coordinates) :
  lands (WeatherRequest (lat c) (lon c)) (WeatherApi.getCurrentWeather c).
Proof.
  intros w.
  unfold WeatherApi.getCurrentWeather, fetch_forecast, response_json. run.
  destruct (forecast w (length (requests w)) (lat c) (lon c))
    as [[o s b] |]; cbn.
  - destruct o; cbn.
    + destruct b as [[[cur |]] |]; cbn; eexists; eexists;
        (split; [reflexivity |]; split; [discriminate | reflexivity]).
    + eexists; eexists;
        (split; [reflexivity |]; split; [discriminate | reflexivity]).
  - eexists; eexists;
      (split; [reflexivity |]; split; [discriminate | reflexivity]).
Qed.

(** [fetchWeatherData] always returns: it handles a failed request itself,
    by showing the error message.  It makes exactly one request. *)
Lemma fetchWeatherData_once (c : Coordinates)
    (saveToStorage showLoading : bool) :
  asks_once (WeatherRequest (lat c) (lon c))
    (Index.fetchWeatherData c saveToStorage showLoading).
Proof.
  unfold Index.fetchWeatherData.
  apply asks_once_try_finally; [| quietly].
  apply asks_once_try_catch; [| intros e; quietly].
  apply lands_after; [unfold Index.showLoadingState; quietly | intros _].
  apply lands_after; [quietly | intros _].
  apply lands_after; [quietly | intros _].
  apply lands_before; [apply getCurrentWeather_lands | intros weatherData].
  apply quiet_calm.
  apply quiet_bind; [apply quiet_updateWeatherDisplay | intros _].
  apply quiet_bind.
  { destruct saveToStorage;
      [apply quiet_isStorageAvailable | apply quiet_ret]. }
  intros usable.
  apply quiet_bind.
  { apply quiet_when, quiet_try_catch; [| intros e; quietly].
    apply quiet_calm, quiet_saveLastCity. }
  intros _. unfold Index.announceWeatherUpdate. quietly.
Qed.


End Requests.

(** ** index.ts: the display controller *)

Section Display.
  Import Index.

(** A failing request makes [getCurrentWeather] throw its user-facing
    error, after one request and one console entry. *)
Lemma getCurrentWeather_fails (c : Coordinates) (w : World) :
  forecast_fails w c ->
  exists cause,
    WeatherApi.getCurrentWeather c w =
      (Thrown "Fehler beim Laden der Wetterdaten. Bitte versuchen Sie es erneut.",
       with_console
         (fun l =>
            (l ++ [(Err, "Error fetching weather data:",
                    Some (JStr cause))])%list)
         (with_requests
            (fun l => (l ++ [WeatherRequest (lat c) (lon c)])%list) w)).
Proof.
  unfold forecast_fails, WeatherApi.getCurrentWeather, fetch_forecast,
    response_json. intros Hfails. run.
  destruct (forecast w (length (requests w)) (lat c) (lon c))
    as [[o s b] |]; cbn in *.
  - destruct Hfails as [-> | Hbody]; cbn; [eexists; reflexivity |].
    destruct o; cbn; [| eexists; reflexivity].
    destruct b as [[cur] |]; cbn in *; [| eexists; reflexivity].
    subst cur. cbn. eexists; reflexivity.
  - eexists; reflexivity.
Qed.

(** An update that leaves what an element shows alone. *)
Lemma shown_alter (f : Element -> Element) (k id : string)
    (d : gmap string Element) :
  (forall e, shown (f e) = shown e) ->
  shown <$> alter f k d !! id = shown <$> d !! id.
Proof.
  intros Hf. destruct (decide (k = id)) as [-> | Hne].
  - rewrite lookup_alter_eq. destruct (d !! id); cbn; [| reflexivity].
    now rewrite Hf.
  - now rewrite lookup_alter_ne.
Qed.

Ltac other_element :=
  repeat first
    [ rewrite shown_alter by (intros ?; reflexivity)
    | rewrite lookup_alter_ne by congruence ].

(** C8. When the weather request of [fetchWeatherData] fails, the call
    returns after writing the error message into the city and condition
    fields.  No other element changes what it shows (temperature,
    feels-like, humidity, wind, postal codes, icon), the elements other
    than these two, the two sections and the button do not change at all,
    the theme stays, and the storage is not written. *)
Theorem fetchWeatherData_failure_frame (c : Coordinates)
    (saveToStorage showLoading : bool) (w : World) :
  forecast_fails w c ->
  exists w',
    fetchWeatherData c saveToStorage showLoading w = (Returned tt, w') /\
    document w' !! "city" =
      set_textContent "Fehler beim Laden der Wetterdaten"
        <$> document w !! "city" /\
    document w' !! "weather-type" =
      set_textContent "Bitte versuchen Sie es erneut"
        <$> document w !! "weather-type" /\
    (forall id, id <> "city" -> id <> "weather-type" ->
       shown <$> document w' !! id = shown <$> document w !! id) /\
    (forall id, id <> "city" -> id <> "weather-type" ->
       id <> "weather-loading" -> id <> "weather-data" ->
       id <> "submit-search" ->
       document w' !! id = document w !! id) /\
    body_classes w' = body_classes w /\
    announcements w' = announcements w /\
    localStorage w' = localStorage w.
Proof.
  intros Hfails. unfold fetchWeatherData, showLoadingState. run.
  destruct showLoading; cbn;
    match goal with
    | |- context [WeatherApi.getCurrentWeather c ?W] =>
        destruct (getCurrentWeather_fails c W Hfails) as [msg ->]
    end;
    unfold showWeatherData; run;
    rewrite ?lookup_alter_eq, ?lookup_alter_ne by discriminate;
    rewrite ?lookup_alter_eq, ?lookup_alter_ne by discriminate;
    destruct (document w !! "weather-data") as [section |] eqn:Hsection;
    cbn;
    (eexists; split; [reflexivity |]; cbn;
     split; [now rewrite ?lookup_alter_ne, lookup_alter_eq,
               ?lookup_alter_ne by discriminate |];
     split; [now rewrite ?lookup_alter_ne, lookup_alter_eq,
               ?lookup_alter_ne by discriminate |];
     split; [intros id ? ?; now other_element |];
     split; [intros id ? ? ? ? ?; now other_element |];
     repeat split).
Qed.
Lemma fetchWeatherData_offline :
  forecast_fails offline paris /\
  exists w',
    fetchWeatherData paris true true offline = (Returned tt, w') /\
    textContent <$> document w' !! "city"
      = Some "Fehler beim Laden der Wetterdaten" /\
    shown <$> document w' !! "temperature"
      = shown <$> document offline !! "temperature" /\
    localStorage w' = localStorage offline.
Proof.
  assert (Hfails : forecast_fails offline paris) by exact I.
  split; [exact Hfails |].
  destruct (fetchWeatherData_failure_frame paris true true offline Hfails)
    as (w' & Hrun & Hcity & _ & Hshown & _ & _ & _ & Hstorage).
  exists w'. split; [exact Hrun |].
  split; [rewrite Hcity; vm_compute; reflexivity |].
  split; [apply Hshown; discriminate | exact Hstorage].
Defined.

(** C1, on a page reloaded without network while the cache holds Paris:
    the failing request for Paris is the only request of the bootstrap.
    [fetchWeatherData] handles the failure itself and returns, so the
    handler of [loadInitialWeather] that would load Berlin does not run:
    the error message is shown after one attempt, Berlin is not
    requested. *)
Theorem loadInitialWeather_offline_no_retry :
  let w := holding (Document paris_cached) offline in
  let w' := (loadInitialWeather w).2 in
  (loadInitialWeather w).1 = Returned tt /\
  requests w' = [WeatherRequest (lat paris) (lon paris)] /\
  textContent <$> document w' !! "city"
    = Some "Fehler beim Laden der Wetterdaten" /\
  textContent <$> document w' !! "weather-type"
    = Some "Bitte versuchen Sie es erneut" /\
  currentCoordinates w' = Some paris.
Proof. vm_compute. repeat split; reflexivity. Qed.

(** The same without a cached city: Berlin is requested once. *)
Lemma loadInitialWeather_offline_default :
  let w' := (loadInitialWeather offline).2 in
  (loadInitialWeather offline).1 = Returned tt /\
  requests w' =
    [WeatherRequest (lat WeatherApi.getBerlinCoordinates)
                    (lon WeatherApi.getBerlinCoordinates)] /\
  textContent <$> document w' !! "city"
    = Some "Fehler beim Laden der Wetterdaten".
Proof. vm_compute. repeat split; reflexivity. Qed.

Lemma includes_app_r (sub p s : string) :
  includes sub s = true -> includes sub (p +:+ s) = true.
Proof.
  intros H. induction p as [| a p IH]; [exact H |].
  simpl. rewrite IH. apply orb_true_r.
Qed.

Lemma append_assoc (a b c : string) : (a +:+ b) +:+ c = a +:+ b +:+ c.
Proof.
  induction a as [| x a IH]; [reflexivity |].
  change (String x ((a +:+ b) +:+ c) = String x (a +:+ b +:+ c)).
  now rewrite IH.
Qed.

(** The postal codes element after [updateWeatherDisplay]. *)
Lemma updateWeatherDisplay_postal_codes (weatherData : WeatherData)
    (w : World) :
  exists w',
    updateWeatherDisplay weatherData w = (Returned tt, w') /\
    document w' !! "postal-codes" =
      match wd_postcodes weatherData with
      | Some (first :: rest) =>
          (fun e => set_display "block"
                      (set_textContent (postalText first rest) e))
      | _ => set_display "none"
      end <$> document w !! "postal-codes".
Proof.
  unfold updateWeatherDisplay, showWeatherData. run.
  destruct (wd_postcodes weatherData) as [[| first rest] |]; cbn;
    rewrite ?lookup_alter_eq, ?lookup_alter_ne by discriminate;
    rewrite ?lookup_alter_eq, ?lookup_alter_ne by discriminate;
    destruct (document w !! "weather-data"); cbn;
    (eexists; split; [reflexivity |]); cbn;
    rewrite ?lookup_alter_ne by discriminate;
    rewrite ?lookup_alter_eq, ?lookup_alter_ne by discriminate;
    destruct (document w !! "postal-codes"); reflexivity.
Qed.

(** The display shows up to three codes and counts the codes beyond the
    third; three codes are listed in full. *)
Lemma postalText_berlin :
  includes "+2 more" (postalText "10115" ["10117"; "10119"]) = false /\
  postalText "10115" ["10117"; "10119"] = "PLZ: 10115, 10117, 10119".
Proof. split; reflexivity. Qed.

(** On the claim as it is written: for the snapshot of Berlin, with the
    codes 10115, 10117 and 10119, the text of the postal codes element
    does not contain [+2 more]. *)
Lemma updateWeatherDisplay_berlin_no_more :
  wd_postcodes berlin_snapshot = Some ["10115"; "10117"; "10119"] /\
  let w' := (updateWeatherDisplay berlin_snapshot offline).2 in
  textContent <$> document w' !! "postal-codes"
    = Some "PLZ: 10115, 10117, 10119" /\
  includes "+2 more" "PLZ: 10115, 10117, 10119" = false.
Proof. vm_compute. repeat split; reflexivity. Qed.

(** C2, amended.  For a snapshot with the postal codes 10115, 10117 and
    10119 the postal codes element is displayed with the text
    [PLZ: 10115, 10117, 10119]: it contains 10115, and all three codes
    instead of a count (the display counts only the codes beyond the
    third, as in [+1 more] for four codes).  The entry of the
    autocomplete list for a candidate with these codes contains 10115
    and [+2 more].  For an empty list of codes the element is hidden, its
    [display] being [none]. *)
Theorem postal_codes_rendering (weatherData : WeatherData)
    (candidate : Coordinates) (w : World) (e : Element) :
  document w !! "postal-codes" = Some e ->
  exists w' e',
    updateWeatherDisplay weatherData w = (Returned tt, w') /\
    document w' !! "postal-codes" = Some e' /\
    (wd_postcodes weatherData = Some ["10115"; "10117"; "10119"] ->
       textContent e' = "PLZ: 10115, 10117, 10119" /\
       display e' = "block" /\
       includes "10115" (textContent e') = true /\
       includes "more" (textContent e') = false) /\
    (forall a b c d,
       wd_postcodes weatherData = Some [a; b; c; d] ->
       textContent e' = "PLZ: " +:+ a +:+ ", " +:+ b +:+ ", " +:+ c
                          +:+ ", +1 more") /\
    (wd_postcodes weatherData = Some [] ->
       display e' = "none" /\ textContent e' = textContent e) /\
    (postcodes candidate = Some ["10115"; "10117"; "10119"] ->
       includes "10115" (Search.cityText candidate) = true /\
       includes "+2 more" (Search.cityText candidate) = true).
Proof.
  intros He.
  destruct (updateWeatherDisplay_postal_codes weatherData w)
    as (w' & Hrun & Hdoc).
  rewrite He in Hdoc. cbn in Hdoc.
  eexists w', _. split; [exact Hrun |]. split; [exact Hdoc |].
  split; [| split; [| split]].
  - intros ->. repeat split; reflexivity.
  - intros a b c d ->. cbn [textContent set_display set_textContent].
    change (postalText a [b; c; d])
      with ((("PLZ: " +:+ a) +:+ ", " +:+ b +:+ ", " +:+ c)
              +:+ ", +" +:+ "1" +:+ " more").
    now rewrite !append_assoc.
  - intros ->. split; reflexivity.
  - intros Hcodes. unfold Search.cityText. rewrite Hcodes.
    split; apply includes_app_r; reflexivity.
Qed.

Lemma postal_codes_rendering_berlin :
  document offline !! "postal-codes" = Some blank /\
  exists w' e',
    updateWeatherDisplay berlin_snapshot offline = (Returned tt, w') /\
    document w' !! "postal-codes" = Some e' /\
    textContent e' = "PLZ: 10115, 10117, 10119" /\
    includes "+2 more"
      (Search.cityText WeatherApi.getBerlinCoordinates) = true.
Proof.
  split; [reflexivity |].
  destruct (postal_codes_rendering berlin_snapshot
              WeatherApi.getBerlinCoordinates offline blank)
    as (w' & e' & Hrun & He' & Hthree & _ & _ & Hentry); [reflexivity |].
  exists w', e'. split; [exact Hrun |]. split; [exact He' |].
  split; [apply Hthree; reflexivity | apply Hentry; reflexivity].
Defined.

End Display.

(** ** Frames *)

Section Frames.
  Context (R : World -> World -> Prop) `{!Frame R}.

Lemma returning_keeps {A} (m : M A) : returning R m -> keeps R m.
Proof.
  intros H w. destruct (H w) as (a & w' & Hrun & HR).
  exists (Returned a), w'. split; [exact Hrun |].
  split; [discriminate | exact HR].
Qed.

Lemma returning_ret {A} (a : A) : returning R (mret a).
Proof. intros w. exists a, w. split; [reflexivity | apply frame_refl]. Qed.

Lemma returning_bind {A B} (m : M A) (f : A -> M B) :
  returning R m -> (forall a, returning R (f a)) -> returning R (m ≫= f).
Proof.
  intros Hm Hf w. destruct (Hm w) as (a & w1 & Hrun1 & HR1).
  destruct (Hf a w1) as (b & w2 & Hrun2 & HR2).
  exists b, w2. unfold mbind, M_bind. rewrite Hrun1. split; [exact Hrun2 |].
  exact (frame_trans _ _ _ HR1 HR2).
Qed.

Lemma keeps_bind {A B} (m : M A) (f : A -> M B) :
  keeps R m -> (forall a, keeps R (f a)) -> keeps R (m ≫= f).
Proof.
  intros Hm Hf w. destruct (Hm w) as (r & w1 & Hrun1 & Hr & HR1).
  unfold mbind, M_bind. rewrite Hrun1. destruct r as [a | e |].
  - destruct (Hf a w1) as (r2 & w2 & Hrun2 & Hr2 & HR2).
    exists r2, w2. split; [exact Hrun2 |]. split; [exact Hr2 |].
    exact (frame_trans _ _ _ HR1 HR2).
  - exists (Thrown e), w1. split; [reflexivity |].
    split; [discriminate | exact HR1].
  - contradiction.
Qed.

Lemma keeps_throw {A} (e : string) : keeps R (@throw A e).
Proof.
  intros w. exists (Thrown e), w. split; [reflexivity |].
  split; [discriminate | apply frame_refl].
Qed.

Lemma returning_get {A} (f : World -> A) : returning R (get f).
Proof. intros w. exists (f w), w. split; [reflexivity | apply frame_refl]. Qed.

Lemma returning_modify (f : World -> World) :
  (forall w, R w (f w)) -> returning R (modify f).
Proof. intros Hf w. exists tt, (f w). split; [reflexivity | apply Hf]. Qed.

Lemma returning_when (b : bool) (m : M unit) :
  returning R m -> returning R (when b m).
Proof. intros Hm. destruct b; [exact Hm | apply returning_ret]. Qed.

Lemma returning_try_catch {A} (m : M A) (h : string -> M A) :
  keeps R m -> (forall e, returning R (h e)) -> returning R (try_catch m h).
Proof.
  intros Hm Hh w. destruct (Hm w) as (r & w1 & Hrun1 & Hr & HR1).
  unfold try_catch. rewrite Hrun1. destruct r as [a | e |].
  - exists a, w1. split; [reflexivity | exact HR1].
  - destruct (Hh e w1) as (a & w2 & Hrun2 & HR2).
    exists a, w2. split; [exact Hrun2 |].
    exact (frame_trans _ _ _ HR1 HR2).
  - contradiction.
Qed.

Lemma returning_try_finally {A} (m : M A) (c : M unit) :
  returning R m -> returning R c -> returning R (try_finally m c).
Proof.
  intros Hm Hc w. destruct (Hm w) as (a & w1 & Hrun1 & HR1).
  destruct (Hc w1) as ([] & w2 & Hrun2 & HR2).
  exists a, w2. unfold try_finally. rewrite Hrun1, Hrun2.
  split; [reflexivity |]. exact (frame_trans _ _ _ HR1 HR2).
Qed.

End Frames.

(** ** storage.ts: what every call does *)

Section CacheAnswers.
  Import Storage.

Lemma clearLastCity_denied (w : World) :
  available (localStorage w) = false ->
  clearLastCity w =
    (Returned tt,
     with_console
       (fun c =>
          (c ++ [(Warn, "Failed to clear stored city data:",
                  Some (JStr "SecurityError"))])%list) w).
Proof.
  intros H. unfold clearLastCity, removeItem. run. now rewrite H.
Qed.

(** [getLastCity] in full: it always returns, its answer is [cached], and
    it changes nothing but the console and, by removing a text it does
    not return, the slot of the last city. *)
Lemma getLastCity_answer (maxAgeHours : num) (w : World) :
  exists w',
    getLastCity maxAgeHours w = (Returned (cached maxAgeHours w), w') /\
    held w' = after_load maxAgeHours w /\
    same_storage_but_slot w w' /\
    same_environment w w' /\ same_page w w' /\ same_search w w' /\
    requests w' = requests w.
Proof.
  unfold after_load, cached.
  destruct (available (localStorage w)) eqn:Havail.
  - unfold getLastCity, getItem, parse, field, since. run.
    rewrite Havail.
    destruct (held w) as [[| | doc] |] eqn:Hheld;
      pose proof Hheld as Hslot; unfold held, STORAGE_KEY in Hslot;
      cbn in Hslot; pose proof Hheld as Hkey; unfold held in Hkey;
      rewrite ?Hslot, ?Hkey; cbn.
    + eexists. split; [reflexivity |]. split; [exact Hheld |]. repeat split.
    + rewrite clearLastCity_available by exact Havail.
      eexists. split; [reflexivity |]. split; [apply held_cleared |].
      repeat split; intros k Hk; cbn; now apply lookup_delete_ne.
    + unfold field_number, field_truthy, ageInHours.
      destruct (get_field doc "timestamp") as [ts |] eqn:Hts; cbn.
      2:{ rewrite clearLastCity_available by exact Havail.
          eexists. split; [reflexivity |]. split; [apply held_cleared |].
          repeat split; intros k Hk; cbn; now apply lookup_delete_ne. }
      assert (Hget : forall k, exists v, get_field doc k = Some v).
      { intros k. destruct doc; cbn; eauto; discriminate. }
      destruct (Hget "lat") as [vlat ->], (Hget "lon") as [vlon ->],
        (Hget "name") as [vname ->].
      destruct (ToNumber ts) as [age |]; cbn.
      2:{ rewrite clearLastCity_available by exact Havail.
          eexists. split; [reflexivity |]. split; [apply held_cleared |].
          repeat split; intros k Hk; cbn; now apply lookup_delete_ne. }
      destruct (gt _ maxAgeHours); cbn.
      { rewrite clearLastCity_available by exact Havail.
        eexists. split; [reflexivity |]. split; [apply held_cleared |].
        repeat split; intros k Hk; cbn; now apply lookup_delete_ne. }
      destruct (truthy vlat), (truthy vlon), (truthy vname); cbn;
        try (rewrite clearLastCity_available by exact Havail;
             eexists; split; [reflexivity |];
             split; [apply held_cleared |];
             repeat split; intros k Hk; cbn; now apply lookup_delete_ne).
      eexists. split; [reflexivity |]. split; [exact Hheld |]. repeat split.
    + eexists. split; [reflexivity |]. split; [exact Hheld |]. repeat split.
  - unfold getLastCity, getItem. run. rewrite Havail. cbn.
    rewrite clearLastCity_denied by exact Havail.
    eexists. split; [reflexivity |]. split; [reflexivity |]. repeat split.
Qed.

Lemma getLastCity_cached (maxAgeHours : num) (w : World) :
  (getLastCity maxAgeHours w).1 = Returned (cached maxAgeHours w).
Proof.
  destruct (getLastCity_answer maxAgeHours w) as (w' & Hrun & _).
  now rewrite Hrun.
Qed.

Lemma storage_eq (w w' : World) :
  same_storage_but_slot w w' -> held w' = held w ->
  localStorage w' = localStorage w.
Proof.
  unfold same_storage_but_slot, held.
  destruct (localStorage w') as [a' q' i'], (localStorage w) as [a q i].
  cbn. intros (-> & -> & Hother) Hheld. f_equal. apply map_eq. intros k.
  destruct (decide (k = STORAGE_KEY)) as [-> | Hk];
    [exact Hheld | now apply Hother].
Qed.

(** X3. What [getLastCity] returns is the document in the slot, and only
    one that passed every check: its latitude, longitude and name are
    truthy and its age is not above [maxAgeHours].  Returning it leaves
    the storage as it was. *)
Theorem getLastCity_sound (maxAgeHours : num) (w w' : World) (doc : json) :
  getLastCity maxAgeHours w = (Returned (Some doc), w') ->
  held w = Some (Document doc) /\
  field_truthy doc "lat" = true /\
  field_truthy doc "lon" = true /\
  field_truthy doc "name" = true /\
  (exists ts, field_number doc "timestamp" = Some ts /\
              gt (ageInHours w ts) maxAgeHours = false) /\
  localStorage w' = localStorage w.
Proof.
  intros Hrun.
  destruct (getLastCity_answer maxAgeHours w)
    as (w1 & Hrun1 & Hheld1 & Hslot & _).
  rewrite Hrun in Hrun1. injection Hrun1 as Hcached <-.
  unfold after_load in Hheld1. rewrite <- Hcached in Hheld1.
  unfold cached in Hcached.
  destruct (available (localStorage w)); [| discriminate].
  destruct (held w) as [[| | doc0] |] eqn:Hheld; try discriminate.
  destruct (field_number doc0 "timestamp") as [ts |] eqn:Hts;
    [| discriminate].
  destruct (gt (ageInHours w ts) maxAgeHours) eqn:Hage; [discriminate |].
  destruct (field_truthy doc0 "lat") eqn:Hlat; [| discriminate].
  destruct (field_truthy doc0 "lon") eqn:Hlon; [| discriminate].
  destruct (field_truthy doc0 "name") eqn:Hname; [| discriminate].
  cbn in Hcached. injection Hcached as ->.
  split; [reflexivity |]. repeat (split; [assumption |]).
  split; [exists ts; split; [exact Hts | exact Hage] |].
  apply storage_eq; [exact Hslot |]. now rewrite Hheld1.
Qed.

Lemma getLastCity_sound_paris :
  let w := holding (Document paris_cached) offline in
  exists w',
    getLastCity default_maxAgeHours w = (Returned (Some paris_cached), w') /\
    field_truthy paris_cached "name" = true /\
    localStorage w' = localStorage w.
Proof.
  cbv zeta.
  assert (Hrun :
    getLastCity default_maxAgeHours (holding (Document paris_cached) offline)
    = (Returned (Some paris_cached),
       (getLastCity default_maxAgeHours
          (holding (Document paris_cached) offline)).2))
    by (vm_compute; reflexivity).
  destruct (getLastCity_sound _ _ _ _ Hrun) as (_ & _ & _ & Hname & _ & Hsame).
  eexists. split; [exact Hrun |]. split; [exact Hname | exact Hsame].
Defined.

(** X4. A stored record whose latitude, longitude or name is missing or
    falsy is never returned, whatever its timestamp: [getLastCity] answers
    [null] and removes the record. *)
Theorem getLastCity_rejects_invalid (maxAgeHours : num) (w : World)
    (doc : json) :
  available (localStorage w) = true ->
  held w = Some (Document doc) ->
  field_truthy doc "lat" && field_truthy doc "lon"
    && field_truthy doc "name" = false ->
  exists w',
    getLastCity maxAgeHours w = (Returned None, w') /\ held w' = None.
Proof.
  intros Havail Hheld Hinvalid.
  destruct (getLastCity_answer maxAgeHours w) as (w' & Hrun & Hheld' & _).
  assert (Hcached : cached maxAgeHours w = None).
  { unfold cached. rewrite Havail, Hheld, Hinvalid.
    destruct (field_number doc "timestamp"); [| reflexivity].
    now destruct (gt _ _). }
  exists w'. rewrite Hcached in Hrun. split; [exact Hrun |].
  rewrite Hheld'. unfold after_load. now rewrite Havail, Hheld, Hcached.
Qed.

Lemma getLastCity_rejects_nameless :
  field_truthy record_without_name "name" = false /\
  exists w',
    getLastCity default_maxAgeHours
      (holding (Document record_without_name) offline)
      = (Returned None, w') /\ held w' = None.
Proof.
  split; [reflexivity |].
  apply (getLastCity_rejects_invalid default_maxAgeHours
           (holding (Document record_without_name) offline)
           record_without_name); reflexivity.
Defined.

(** X5. A text in the slot that is no JSON, or that is the document
    [null], is not an error for the caller: [getLastCity] answers [null]
    and removes the text.  The empty text is answered with [null] too, but
    stays where it is. *)
Theorem getLastCity_heals_corrupt (maxAgeHours : num) (w : World) :
  available (localStorage w) = true ->
  held w = Some MalformedText \/ held w = Some (Document JNull)
    \/ held w = Some EmptyText ->
  exists w',
    getLastCity maxAgeHours w = (Returned None, w') /\
    held w' = match held w with
              | Some EmptyText => Some EmptyText
              | _ => None
              end.
Proof.
  intros Havail Hcorrupt.
  destruct (getLastCity_answer maxAgeHours w) as (w' & Hrun & Hheld' & _).
  exists w'. unfold cached in Hrun. unfold after_load, cached in Hheld'.
  rewrite Havail in Hrun, Hheld'.
  destruct Hcorrupt as [H | [H | H]]; rewrite H in *; cbn in *;
    (split; [exact Hrun | exact Hheld']).
Qed.

Lemma getLastCity_heals_garbage :
  held (holding MalformedText offline) = Some MalformedText /\
  exists w',
    getLastCity default_maxAgeHours (holding MalformedText offline)
      = (Returned None, w') /\ held w' = None.
Proof.
  split; [reflexivity |].
  destruct (getLastCity_heals_corrupt default_maxAgeHours
              (holding MalformedText offline))
    as (w' & Hrun & Hheld); [reflexivity | left; reflexivity |].
  exists w'. split; [exact Hrun | exact Hheld].
Defined.

Lemma cached_stable (maxAgeHours : num) (w w1 : World) :
  available (localStorage w1) = available (localStorage w) ->
  now w1 = now w ->
  held w1 = after_load maxAgeHours w ->
  cached maxAgeHours w1 = cached maxAgeHours w /\
  after_load maxAgeHours w1 = held w1.
Proof.
  intros Havail Hnow Hheld.
  unfold after_load, cached, ageInHours in *. rewrite Havail, Hnow.
  destruct (available (localStorage w)); [| split; reflexivity].
  destruct (held w) as [[| | doc] |];
    try (rewrite Hheld; split; reflexivity).
  destruct (field_number doc "timestamp") as [ts |] eqn:Hts;
    [| rewrite Hheld; split; reflexivity].
  destruct (gt _ maxAgeHours) eqn:Hage;
    [rewrite Hheld; split; reflexivity |].
  destruct (_ && _) eqn:Hvalid; rewrite Hheld; [| split; reflexivity].
  rewrite Hts, Hage, Hvalid. split; reflexivity.
Qed.

(** X6. Asking twice is asking once: at the same time, a second
    [getLastCity] gives the answer of the first and finds the storage as
    the first left it. *)
Theorem getLastCity_idempotent (maxAgeHours : num) (w : World) :
  let first := getLastCity maxAgeHours w in
  let second := getLastCity maxAgeHours first.2 in
  second.1 = first.1 /\ localStorage second.2 = localStorage first.2.
Proof.
  cbv zeta.
  destruct (getLastCity_answer maxAgeHours w)
    as (w1 & Hrun1 & Hheld1 & (Havail1 & _) & (Hnow1 & _) & _).
  rewrite Hrun1. cbn [fst snd].
  destruct (getLastCity_answer maxAgeHours w1)
    as (w2 & Hrun2 & Hheld2 & Hslot2 & _).
  rewrite Hrun2. cbn [fst snd].
  destruct (cached_stable maxAgeHours w w1 Havail1 Hnow1 Hheld1)
    as [Hcached Hstable].
  split; [now rewrite Hcached |].
  apply storage_eq; [exact Hslot2 |]. now rewrite Hheld2.
Qed.

Lemma saveLastCity_denied (c : Coordinates) (text : string) (w : World) :
  available (localStorage w) = false ->
  exists w',
    saveLastCity c text w = (Returned tt, w') /\
    localStorage w' = localStorage w.
Proof.
  intros H. unfold saveLastCity, setItem. run. rewrite H. cbn.
  eexists. split; reflexivity.
Qed.

(** [isStorageAvailable] in full. *)
Lemma isStorageAvailable_answer (w : World) :
  exists w',
    isStorageAvailable w =
      (Returned (available (localStorage w)
                 && negb (quota_exceeded (localStorage w))), w') /\
    available (localStorage w') = available (localStorage w) /\
    quota_exceeded (localStorage w') = quota_exceeded (localStorage w) /\
    (forall k, k <> "test-storage" ->
       items (localStorage w') !! k = items (localStorage w) !! k) /\
    (available (localStorage w) = false \/
     quota_exceeded (localStorage w) = true ->
     localStorage w' = localStorage w) /\
    same_environment w w' /\ same_page w w' /\ same_search w w' /\
    requests w' = requests w /\ console w' = console w.
Proof.
  unfold isStorageAvailable, setItem, removeItem. run.
  destruct (available (localStorage w)) eqn:Havail; cbn.
  - destruct (quota_exceeded (localStorage w)) eqn:Hquota; cbn.
    + eexists. split; [reflexivity |]. repeat split; try assumption.
    + rewrite Havail. cbn. eexists. split; [reflexivity |]. cbn.
      repeat split; try assumption.
      * intros k Hk. rewrite lookup_delete_ne, lookup_insert_ne by congruence.
        reflexivity.
      * intros [H | H]; discriminate.
  - eexists. split; [reflexivity |]. repeat split; try assumption.
Qed.

(** X7. In a browser that denies the storage nothing of storage.ts
    throws: [getLastCity] answers [null], [saveLastCity] and
    [clearLastCity] return without effect on the storage, and
    [isStorageAvailable] answers [false]. *)
Theorem storage_denied_is_harmless (maxAgeHours : num) (c : Coordinates)
    (text : string) (w : World) :
  available (localStorage w) = false ->
  (exists w', getLastCity maxAgeHours w = (Returned None, w') /\
              localStorage w' = localStorage w) /\
  (exists w', saveLastCity c text w = (Returned tt, w') /\
              localStorage w' = localStorage w) /\
  (exists w', clearLastCity w = (Returned tt, w') /\
              localStorage w' = localStorage w) /\
  (exists w', isStorageAvailable w = (Returned false, w') /\
              localStorage w' = localStorage w).
Proof.
  intros Havail. repeat split.
  - destruct (getLastCity_answer maxAgeHours w)
      as (w' & Hrun & Hheld & Hslot & _).
    exists w'. unfold cached in Hrun. unfold after_load in Hheld.
    rewrite Havail in Hrun, Hheld. split; [exact Hrun |].
    now apply storage_eq.
  - now apply saveLastCity_denied.
  - rewrite clearLastCity_denied by exact Havail.
    eexists. split; reflexivity.
  - destruct (isStorageAvailable_answer w)
      as (w' & Hrun & _ & _ & _ & Hsame & _).
    rewrite Havail in Hrun. exists w'. split; [exact Hrun |].
    apply Hsame. now left.
Qed.

Lemma storage_denied_is_harmless_paris :
  available (localStorage storage_denied) = false /\
  exists w', getLastCity default_maxAgeHours storage_denied
             = (Returned None, w').
Proof.
  split; [reflexivity |].
  destruct (storage_denied_is_harmless default_maxAgeHours paris
              "Paris, France (PLZ: 75001)" storage_denied)
    as ((w' & Hrun & _) & _); [reflexivity |].
  exists w'. exact Hrun.
Defined.

(** X8. The probe [isStorageAvailable] answers [true] exactly when the
    storage can be read and written, and it never touches the slot of the
    last city: only its own key [test-storage] is written and removed. *)
Theorem isStorageAvailable_probe (w : World) :
  exists w',
    isStorageAvailable w =
      (Returned (available (localStorage w)
                 && negb (quota_exceeded (localStorage w))), w') /\
    held w' = held w /\
    (forall k, k <> "test-storage" ->
       items (localStorage w') !! k = items (localStorage w) !! k) /\
    (available (localStorage w) = true ->
     quota_exceeded (localStorage w) = false ->
     items (localStorage w') !! "test-storage" = None).
Proof.
  unfold isStorageAvailable, setItem, removeItem. run.
  destruct (available (localStorage w)) eqn:Havail; cbn.
  - destruct (quota_exceeded (localStorage w)) eqn:Hquota; cbn.
    + eexists. split; [reflexivity |].
      split; [reflexivity |]. split; [reflexivity | discriminate].
    + rewrite Havail. cbn. eexists. split; [reflexivity |].
      split; [| split].
      * unfold held. cbn.
        now rewrite lookup_delete_ne, lookup_insert_ne by discriminate.
      * intros k Hk. cbn.
        now rewrite lookup_delete_ne, lookup_insert_ne by congruence.
      * intros _ _. cbn. apply lookup_delete_eq.
  - eexists. split; [reflexivity |].
    split; [reflexivity |]. split; [reflexivity | discriminate].
Qed.

(** X9. The cache has one slot.  A second [saveLastCity] replaces the
    record of the first, and [clearLastCity] leaves nothing behind; the
    other keys of the storage are never touched. *)
Theorem one_slot_cache (c1 c2 : Coordinates) (t1 t2 : string) (w : World) :
  working (localStorage w) ->
  exists w1 w2 w3,
    saveLastCity c1 t1 w = (Returned tt, w1) /\
    saveLastCity c2 t2 w1 = (Returned tt, w2) /\
    clearLastCity w2 = (Returned tt, w3) /\
    held w1 = Some (Document (stringify (record_of c1 t1 w))) /\
    held w2 = Some (Document (stringify (record_of c2 t2 w))) /\
    held w3 = None /\
    forall k, k <> STORAGE_KEY ->
      items (localStorage w3) !! k = items (localStorage w) !! k.
Proof.
  intros Hworking.
  exists (saved c1 t1 w), (saved c2 t2 (saved c1 t1 w)),
    (cleared (saved c2 t2 (saved c1 t1 w))).
  split; [now apply saveLastCity_working |].
  split; [apply saveLastCity_working; exact Hworking |].
  split; [apply clearLastCity_available; apply Hworking |].
  split; [apply held_holding |]. split; [apply held_holding |].
  split; [apply held_cleared |].
  intros k Hk. cbn.
  now rewrite lookup_delete_ne, !lookup_insert_ne by congruence.
Qed.

Lemma one_slot_cache_paris_berlin :
  working (localStorage offline) /\
  exists w1 w2 w3,
    saveLastCity paris "Paris" offline = (Returned tt, w1) /\
    saveLastCity WeatherApi.getBerlinCoordinates "Berlin" w1
      = (Returned tt, w2) /\
    clearLastCity w2 = (Returned tt, w3) /\
    held w3 = None.
Proof.
  assert (Hworking : working (localStorage offline)) by (split; reflexivity).
  split; [exact Hworking |].
  destruct (one_slot_cache paris WeatherApi.getBerlinCoordinates
              "Paris" "Berlin" offline Hworking)
    as (w1 & w2 & w3 & H1 & H2 & H3 & _ & _ & H4 & _).
  exists w1, w2, w3. repeat split; assumption.
Defined.

Lemma save_load_round_trip_paris :
  working (localStorage offline) /\
  exists w1 w2,
    saveLastCity paris "Paris, France (PLZ: 75001)" offline
      = (Returned tt, w1) /\
    getLastCity default_maxAgeHours w1
      = (Returned
           (Some (stringify
                    (record_of paris "Paris, France (PLZ: 75001)" offline))),
         w2) /\
    as_StoredCity
      (stringify (record_of paris "Paris, France (PLZ: 75001)" offline))
      = Some (record_of paris "Paris, France (PLZ: 75001)" offline).
Proof.
  assert (Hworking : working (localStorage offline)) by (split; reflexivity).
  split; [exact Hworking |].
  destruct (save_load_round_trip paris "Paris, France (PLZ: 75001)" offline
              (now offline) 24 Hworking)
    as (w1 & w2 & Hsave & Hload & Hcast & _).
  - eexists. split; [reflexivity |]. vm_compute. discriminate.
  - eexists. split; [reflexivity |]. vm_compute. discriminate.
  - discriminate.
  - vm_compute. discriminate.
  - exists w1, w2. split; [exact Hsave |]. split; [| exact Hcast].
    rewrite <- Hload. f_equal.
    apply (f_equal snd) in Hsave. cbn in Hsave. now subst w1.
Defined.

End CacheAnswers.

(** ** index.ts: what a fetch leaves alone, and how it ends *)

Ltac within_frames :=
  unfold beside_the_display, same_sections, same_storage, same_page,
    same_element, same_search, same_environment, same_storage_but_slot;
  cbn;
  repeat split;
  first [ reflexivity | rewrite lookup_alter_ne by discriminate; reflexivity ].

Ltac frame_instance :=
  try match goal with |- Frame _ => exact _ end.

Ltac framing_all :=
  unfold update, present, console_log, setTimeout;
  repeat first
    [ apply returning_ret; frame_instance
    | apply returning_get; frame_instance
    | apply returning_modify; intros ?; within_frames
    | apply returning_when; frame_instance
    | apply returning_bind; frame_instance; [| intros ?]
    | match goal with
      | |- returning _ (if ?b then _ else _) => destruct b
      | |- returning _ (match ?x with _ => _ end) => destruct x
      end ].

Section Fetch.
  Import Index.

(** [getCurrentWeather] touches the log of requests and the console. *)
Lemma getCurrentWeather_keeps (R : World -> World -> Prop)
    (c : Coordinates) :
  (forall w g, R w (with_requests g w)) ->
  (forall w f g, R w (with_console f (with_requests g w))) ->
  keeps R (WeatherApi.getCurrentWeather c).
Proof.
  intros Hreq Hlog w.
  unfold WeatherApi.getCurrentWeather, fetch_forecast, response_json. run.
  destruct (forecast w (length (requests w)) (lat c) (lon c))
    as [[o s b] |]; cbn.
  - destruct o; cbn.
    + destruct b as [[[cur |]] |]; cbn; eexists; eexists;
        (split; [reflexivity |]; split; [discriminate |]);
        first [apply Hreq | apply Hlog].
    + eexists; eexists;
        (split; [reflexivity |]; split; [discriminate | apply Hlog]).
  - eexists; eexists;
      (split; [reflexivity |]; split; [discriminate | apply Hlog]).
Qed.

Lemma fetchWeatherData_beside (c : Coordinates) (showLoading : bool) :
  returning beside_the_display (fetchWeatherData c false showLoading).
Proof.
  unfold fetchWeatherData.
  apply returning_try_finally; frame_instance; [| framing_all].
  apply returning_try_catch; frame_instance.
  - apply keeps_bind; frame_instance.
    { apply returning_keeps; frame_instance.
      unfold showLoadingState. framing_all. }
    intros _. apply keeps_bind; frame_instance;
      [apply returning_keeps; frame_instance; framing_all |].
    intros _. apply keeps_bind; frame_instance;
      [apply returning_keeps; frame_instance; framing_all |].
    intros _. apply keeps_bind; frame_instance.
    { apply getCurrentWeather_keeps; intros; within_frames. }
    intros weatherData. apply returning_keeps; frame_instance.
    unfold updateWeatherDisplay, showWeatherData, announceWeatherUpdate.
    framing_all.
  - intros e. unfold showWeatherData. framing_all.
Qed.
Lemma returning_weaken {A} (R R' : World -> World -> Prop) (m : M A) :
  (forall w w', R w w' -> R' w w') -> returning R m -> returning R' m.
Proof.
  intros HR Hm w. destruct (Hm w) as (a & w' & Hrun & Hw).
  exists a, w'. split; [exact Hrun | now apply HR].
Qed.

(** A fetch that is not asked to save. *)
Lemma fetchWeatherData_unsaved (c : Coordinates) (showLoading : bool)
    (w : World) :
  exists w',
    fetchWeatherData c false showLoading w = (Returned tt, w') /\
    beside_the_display w w' /\
    requests w' = (requests w ++ [WeatherRequest (lat c) (lon c)])%list.
Proof.
  destruct (fetchWeatherData_beside c showLoading w)
    as ([] & w1 & Hrun & Hframe).
  destruct (fetchWeatherData_once c false showLoading w)
    as ([] & w1' & Hrun' & Hreq).
  rewrite Hrun in Hrun'. injection Hrun' as <-.
  exists w1. split; [exact Hrun |]. split; [exact Hframe | exact Hreq].
Qed.

Ltac bootstrap_branch c Hslot Hheld Henv Hdoc Hreq Hhidden :=
  let w2 := fresh "w2" in
  let Hrun := fresh "Hrun" in
  let Hstorage := fresh "Hstorage" in
  let Hsearch := fresh "Hsearch" in
  let Hind := fresh "Hind" in
  let Henv2 := fresh "Henv2" in
  let Hreq2 := fresh "Hreq2" in
  unfold console_log at 1; unfold update at 1; run;
  match goal with
  | |- context [fetchWeatherData c false false ?W] =>
      destruct (fetchWeatherData_unsaved c false W)
        as (w2 & Hrun & (Hstorage & Hsearch & Hind & _ & Henv2) & Hreq2)
  end;
  rewrite Hrun; unfold show_current; run;
  eexists; eexists; (split; [reflexivity |]);
  unfold same_storage, same_element, same_storage_but_slot,
    same_environment, held in *;
  cbn in *;
  (split;
   [destruct Hslot as (? & ? & ?); rewrite Hstorage;
    repeat split; assumption |]);
  (split; [rewrite Hstorage; exact Hheld |]);
  (split;
   [destruct Henv as (? & ? & ?), Henv2 as (? & ? & ?);
    repeat split; congruence |]);
  (split; [apply Hhidden |]);
  (split; [reflexivity |]);
  (split; [rewrite Hreq2, Hreq; reflexivity |]);
  (split; [reflexivity |]);
  rewrite lookup_alter_ne, !lookup_alter_eq, Hsearch by discriminate;
  rewrite ?lookup_alter_ne by discriminate; rewrite Hdoc;
  unfold naming;
  match goal with
  | |- context [@lookup _ _ _ _ "search" ?d] =>
      destruct (@lookup _ _ _ _ "search" d); reflexivity
  end.

(** The bootstrap in full. *)
Lemma loadInitialWeather_run (w : World) :
  exists r w',
    loadInitialWeather w = (r, w') /\
    same_storage_but_slot w w' /\
    held w' = after_load Storage.default_maxAgeHours w /\
    same_environment w w' /\
    (forall e, document w' !! "loading-indicator" = Some e ->
               hidden e = true) /\
    match resolved w with
    | None => r = Untyped
    | Some (c, text) =>
        r = Returned tt /\
        requests w' = (requests w ++ [WeatherRequest (lat c) (lon c)])%list /\
        currentCoordinates w' = Some c /\
        document w' !! "search" = naming text <$> document w !! "search"
    end.
Proof.
  destruct (getLastCity_answer Storage.default_maxAgeHours w)
    as (w1 & Hload & Hheld & Hslot & Henv & (Hdoc & _) & _ & Hreq).
  assert (Hhidden : forall (d : gmap string Element) e,
            alter (set_hidden true) "loading-indicator" d
              !! "loading-indicator" = Some e -> hidden e = true).
  { intros d e. rewrite lookup_alter_eq.
    destruct (d !! "loading-indicator"); [| discriminate].
    cbn. now intros [= <-]. }
  unfold loadInitialWeather, try_finally, try_catch, resolved.
  unfold mbind at 1. unfold M_bind at 1. rewrite Hload.
  destruct (cached Storage.default_maxAgeHours w) as [doc |].
  - destruct (as_StoredCity doc) as [lastCity |];
      cbn [fmap option_fmap option_map].
    + bootstrap_branch (city lastCity) Hslot Hheld Henv Hdoc Hreq Hhidden.
    + cbn. eexists; eexists. split; [reflexivity |]. cbn.
      split; [exact Hslot |]. split; [exact Hheld |].
      split; [exact Henv |]. split; [apply Hhidden | reflexivity].
  - bootstrap_branch WeatherApi.getBerlinCoordinates
      Hslot Hheld Henv Hdoc Hreq Hhidden.
Qed.

(** X10. The bootstrap never writes the cache.  After
    [loadInitialWeather] every other key of the storage is as before, and
    the slot of the last city holds what it held or, when [getLastCity]
    did not return its text, nothing; a record that was loaded leaves the
    storage unchanged. *)
Theorem loadInitialWeather_never_saves (w : World) :
  let w' := (loadInitialWeather w).2 in
  same_storage_but_slot w w' /\
  (held w' = held w \/ held w' = None) /\
  (forall doc,
     (Storage.getLastCity Storage.default_maxAgeHours w).1
       = Returned (Some doc) ->
     localStorage w' = localStorage w).
Proof.
  cbv zeta.
  destruct (loadInitialWeather_run w) as (r & w' & Hrun & Hslot & Hheld & _).
  rewrite Hrun. cbn [snd]. split; [exact Hslot |].
  unfold after_load in Hheld. split.
  - rewrite Hheld. destruct (available (localStorage w)); [| now left].
    destruct (held w) as [[| | doc] |]; try (now left); try (now right).
    destruct (cached Storage.default_maxAgeHours w);
      [left | right]; reflexivity.
  - intros doc Hdoc. rewrite getLastCity_cached in Hdoc.
    injection Hdoc as Hcached. apply storage_eq; [exact Hslot |].
    rewrite Hheld, Hcached. unfold cached in Hcached.
    destruct (available (localStorage w)); [| reflexivity].
    destruct (held w) as [[| | doc0] |]; try reflexivity; discriminate.
Qed.

(** X11. Without a usable cached city (none stored, expired, invalid or
    unreadable) the bootstrap loads Berlin: it returns after one weather
    request for the coordinates of Berlin, makes Berlin the current
    selection, names it in the search field and hides the loading
    indicator. *)
Theorem loadInitialWeather_default (w : World) :
  (Storage.getLastCity Storage.default_maxAgeHours w).1 = Returned None ->
  exists w',
    loadInitialWeather w = (Returned tt, w') /\
    requests w' =
      (requests w
         ++ [WeatherRequest (lat WeatherApi.getBerlinCoordinates)
                            (lon WeatherApi.getBerlinCoordinates)])%list /\
    currentCoordinates w' = Some WeatherApi.getBerlinCoordinates /\
    document w' !! "search" =
      naming "Berlin, Deutschland (PLZ: 10115)" <$> document w !! "search" /\
    (forall e, document w' !! "loading-indicator" = Some e ->
               hidden e = true).
Proof.
  intros Hnone. rewrite getLastCity_cached in Hnone.
  injection Hnone as Hcached.
  destruct (loadInitialWeather_run w)
    as (r & w' & Hrun & _ & _ & _ & Hhidden & Hresolved).
  unfold resolved in Hresolved. rewrite Hcached in Hresolved.
  destruct Hresolved as (-> & Hreq & Hcur & Hsearch).
  exists w'. repeat split; assumption.
Qed.

Lemma loadInitialWeather_default_offline :
  (Storage.getLastCity Storage.default_maxAgeHours offline).1
    = Returned None /\
  exists w',
    loadInitialWeather offline = (Returned tt, w') /\
    currentCoordinates w' = Some WeatherApi.getBerlinCoordinates.
Proof.
  split; [vm_compute; reflexivity |].
  destruct (loadInitialWeather_default offline)
    as (w' & Hrun & _ & Hcur & _); [vm_compute; reflexivity |].
  exists w'. split; [exact Hrun | exact Hcur].
Defined.

(** X12. With a cached city that [getLastCity] returns, the bootstrap
    loads that city: one weather request for its coordinates, the city as
    current selection, the saved text in the search field, the loading
    indicator hidden at the end, and the storage as it was. *)
Theorem loadInitialWeather_cached (w : World) (doc : json)
    (lastCity : StoredCity) :
  (Storage.getLastCity Storage.default_maxAgeHours w).1
    = Returned (Some doc) ->
  as_StoredCity doc = Some lastCity ->
  exists w',
    loadInitialWeather w = (Returned tt, w') /\
    requests w' =
      (requests w
         ++ [WeatherRequest (lat (city lastCity))
                            (lon (city lastCity))])%list /\
    currentCoordinates w' = Some (city lastCity) /\
    document w' !! "search" =
      naming (searchText lastCity) <$> document w !! "search" /\
    (forall e, document w' !! "loading-indicator" = Some e ->
               hidden e = true) /\
    localStorage w' = localStorage w.
Proof.
  intros Hsome Hcast. rewrite getLastCity_cached in Hsome.
  injection Hsome as Hcached.
  destruct (loadInitialWeather_run w)
    as (r & w' & Hrun & Hslot & Hheld & _ & Hhidden & Hresolved).
  unfold resolved in Hresolved. rewrite Hcached, Hcast in Hresolved.
  destruct Hresolved as (-> & Hreq & Hcur & Hsearch).
  exists w'. repeat split; try assumption.
  apply storage_eq; [exact Hslot |]. rewrite Hheld.
  unfold after_load. rewrite Hcached. unfold cached in Hcached.
  destruct (available (localStorage w)); [| discriminate].
  now destruct (held w) as [[| | doc0] |].
Qed.

Lemma loadInitialWeather_cached_paris :
  let w := holding (Document paris_cached) offline in
  (Storage.getLastCity Storage.default_maxAgeHours w).1
    = Returned (Some paris_cached) /\
  exists w',
    loadInitialWeather w = (Returned tt, w') /\
    currentCoordinates w' = Some paris /\
    localStorage w' = localStorage w.
Proof.
  cbv zeta. split; [vm_compute; reflexivity |].
  destruct (loadInitialWeather_cached
              (holding (Document paris_cached) offline) paris_cached
              {| city := paris;
                 timestamp := of_Z (1700000000000 - 3600000);
                 searchText := "Paris, France (PLZ: 75001)" |})
    as (w' & Hrun & _ & Hcur & _ & _ & Hstorage);
    [vm_compute; reflexivity | vm_compute; reflexivity |].
  exists w'. repeat split; assumption.
Defined.

End Fetch.

Section PageState.
  Import Handlers.

Lemma cached_document (maxAgeHours : num)
    (f : gmap string Element -> gmap string Element) (w : World) :
  cached maxAgeHours (with_document f w) = cached maxAgeHours w.
Proof. reflexivity. Qed.

(** X13. [initializePageState] shows exactly one of the two sections: the
    loading section when [getLastCity] returns a city, the weather data
    otherwise.  The [loadInitialWeather] that follows at the same time
    finds the same answer in the cache. *)
Theorem initializePageState_sections (w : World) :
  let answer := (Storage.getLastCity Storage.default_maxAgeHours w).1 in
  exists w',
    initializePageState w = (Returned tt, w') /\
    (forall e, document w' !! "weather-loading" = Some e ->
       hidden e = match answer with
                  | Returned (Some _) => false
                  | _ => true
                  end) /\
    (forall e, document w' !! "weather-data" = Some e ->
       hidden e = match answer with
                  | Returned (Some _) => true
                  | _ => false
                  end) /\
    (Storage.getLastCity Storage.default_maxAgeHours w').1 = answer.
Proof.
  cbv zeta. rewrite getLastCity_cached.
  destruct (getLastCity_answer Storage.default_maxAgeHours w)
    as (w1 & Hload & Hheld & (Havail & _) & (Hnow & _) & _).
  destruct (cached_stable _ w w1 Havail Hnow Hheld) as [Hcached _].
  unfold initializePageState. unfold mbind at 1. unfold M_bind at 1.
  rewrite Hload.
  destruct (cached Storage.default_maxAgeHours w) as [doc |]; run;
    (eexists; split; [reflexivity |]; cbn;
     split;
     [intros e; rewrite lookup_alter_ne, lookup_alter_eq by discriminate;
      destruct (document w1 !! "weather-loading"); [| discriminate];
      cbn; now intros [= <-] |];
     split;
     [intros e; rewrite lookup_alter_eq, lookup_alter_ne by discriminate;
      destruct (document w1 !! "weather-data"); [| discriminate];
      cbn; now intros [= <-] |];
     rewrite getLastCity_cached; f_equal; exact Hcached).
Qed.

(** X14. The shortcut that clears the stored city empties the slot and
    announces it; a page loaded afterwards with this storage asks for
    Berlin. *)
Theorem on_clear_shortcut_then_reload (w reloaded : World) :
  available (localStorage w) = true ->
  exists w',
    on_clear_shortcut w = (Returned tt, w') /\
    held w' = None /\
    announcements w' =
      (announcements w
         ++ ["Gespeicherte Stadt gelöscht. Seite aktualisieren, um Berlin-Standard zu laden."])%list /\
    (localStorage reloaded = localStorage w' ->
     requests (Index.loadInitialWeather reloaded).2 =
       (requests reloaded
          ++ [WeatherRequest (lat WeatherApi.getBerlinCoordinates)
                             (lon WeatherApi.getBerlinCoordinates)])%list).
Proof.
  intros Havail. unfold on_clear_shortcut, try_catch.
  unfold mbind at 1. unfold M_bind at 1.
  rewrite clearLastCity_available by exact Havail. run.
  eexists. split; [reflexivity |]. split; [apply held_cleared |].
  split; [reflexivity |]. intros Hsame.
  destruct (loadInitialWeather_run reloaded)
    as (r & w2 & Hrun & _ & _ & _ & _ & Hresolved).
  assert (Hcached : cached Storage.default_maxAgeHours reloaded = None).
  { unfold cached, held. rewrite Hsame. cbn. rewrite lookup_delete_eq.
    now destruct (available (localStorage w)). }
  unfold resolved in Hresolved. rewrite Hcached in Hresolved.
  rewrite Hrun. cbn [snd]. apply Hresolved.
Qed.

Lemma on_clear_shortcut_paris :
  let w := holding (Document paris_cached) offline in
  available (localStorage w) = true /\
  exists w', on_clear_shortcut w = (Returned tt, w') /\ held w' = None.
Proof.
  cbv zeta. split; [reflexivity |].
  destruct (on_clear_shortcut_then_reload
              (holding (Document paris_cached) offline) offline)
    as (w' & Hrun & Hheld & _); [reflexivity |].
  exists w'. split; [exact Hrun | exact Hheld].
Defined.

End PageState.

(** ** index.ts: a fetch that succeeds, and how every fetch ends *)

Section FetchOutcome.
  Import Index.

(** [getCurrentWeather] on an answer with current conditions. *)
Lemma getCurrentWeather_answers (c : Coordinates) (cur : Current)
    (w : World) :
  forecast_answers w c cur ->
  WeatherApi.getCurrentWeather c w =
    (Returned (snapshot c cur),
     with_requests
       (fun l => (l ++ [WeatherRequest (lat c) (lon c)])%list) w).
Proof.
  intros [s Hanswer].
  unfold WeatherApi.getCurrentWeather, fetch_forecast, response_json. run.
  now rewrite Hanswer.
Qed.

Lemma hidden_after (b : bool) (id : string) (d : gmap string Element)
    (e : Element) :
  alter (set_hidden b) id d !! id = Some e -> hidden e = b.
Proof.
  rewrite lookup_alter_eq. destruct (d !! id); [| discriminate].
  cbn. now intros [= <-].
Qed.

(** [showWeatherData] ends with the weather data on display. *)
Lemma showWeatherData_shows (w : World) :
  exists w',
    showWeatherData w = (Returned tt, w') /\
    sections_shown w' /\
    same_storage w w' /\ same_environment w w' /\
    requests w' = requests w /\ announcements w' = announcements w /\
    forall id, id <> "weather-loading" -> id <> "weather-data" ->
      document w' !! id = document w !! id.
Proof.
  unfold showWeatherData. run.
  rewrite lookup_alter_ne by discriminate.
  destruct (document w !! "weather-data") as [section |] eqn:Hsection; cbn;
    (eexists; split; [reflexivity |]);
    unfold sections_shown, same_storage, same_environment; cbn;
    (split; [split |]).
  - intros e. rewrite !lookup_alter_ne by discriminate. apply hidden_after.
  - intros e. rewrite !lookup_alter_eq, lookup_alter_ne, Hsection
      by discriminate. cbn. now intros [= <-].
  - repeat split. intros id H1 H2. now rewrite !lookup_alter_ne by congruence.
  - intros e. apply hidden_after.
  - intros e. rewrite lookup_alter_ne, Hsection by discriminate. discriminate.
  - repeat split. intros id H1 H2. now rewrite !lookup_alter_ne by congruence.
Qed.

(** What [updateWeatherDisplay] writes of city and temperature, and what
    it leaves alone. *)
Lemma updateWeatherDisplay_effect (weatherData : WeatherData) (w : World) :
  exists w',
    updateWeatherDisplay weatherData w = (Returned tt, w') /\
    sections_shown w' /\
    same_storage w w' /\ same_environment w w' /\
    requests w' = requests w /\ announcements w' = announcements w /\
    document w' !! "city" =
      set_textContent
        (if str_truthy (wd_country weatherData)
         then cityName weatherData +:+ ", "
                +:+ default "" (wd_country weatherData)
         else cityName weatherData) <$> document w !! "city" /\
    document w' !! "temperature" =
      set_textContent (num_to_string (temperature weatherData) +:+ "°C")
        <$> document w !! "temperature" /\
    document w' !! "submit-search" = document w !! "submit-search" /\
    currentCoordinates w' = currentCoordinates w.
Proof.
  unfold updateWeatherDisplay, showWeatherData. run.
  destruct (wd_postcodes weatherData) as [[| first rest] |]; cbn;
    rewrite ?lookup_alter_ne by discriminate;
    destruct (document w !! "weather-data") as [section |] eqn:Hsection;
    cbn;
    (eexists; split; [reflexivity |]);
    unfold sections_shown, same_storage, same_environment; cbn;
    (split;
     [split; intros e;
      [rewrite ?lookup_alter_ne by discriminate; apply hidden_after
      |first
         [ rewrite !lookup_alter_eq, !lookup_alter_ne, Hsection
             by discriminate; cbn; now intros [= <-]
         | rewrite !lookup_alter_ne, Hsection by discriminate;
           discriminate ]]
     |]);
    repeat split;
    rewrite ?lookup_alter_ne by discriminate;
    rewrite ?lookup_alter_eq;
    rewrite ?lookup_alter_ne by discriminate;
    reflexivity.
Qed.

End FetchOutcome.
(** ** index.ts: how every fetch ends *)

Section Endings.
  Context (P : World -> Prop).

Lemma ending_or_throwing_bind {A B} (m : M A) (f : A -> M B) :
  keeps any_world m -> (forall a, ending_or_throwing P (f a)) ->
  ending_or_throwing P (m ≫= f).
Proof.
  intros Hm Hf w. destruct (Hm w) as (r & w1 & Hrun & Hr & _).
  unfold mbind, M_bind. rewrite Hrun. destruct r as [a | e |].
  - apply Hf.
  - exists (Thrown e), w1. split; [reflexivity | exact I].
  - contradiction.
Qed.

Lemma ending_throwing {A} (m : M A) :
  ending P m -> ending_or_throwing P m.
Proof.
  intros Hm w. destruct (Hm w) as (a & w' & Hrun & HP).
  exists (Returned a), w'. split; [exact Hrun | exact HP].
Qed.

Lemma ending_bind {A B} (m : M A) (f : A -> M B) :
  returning any_world m -> (forall a, ending P (f a)) -> ending P (m ≫= f).
Proof.
  intros Hm Hf w. destruct (Hm w) as (a & w1 & Hrun & _).
  unfold mbind, M_bind. rewrite Hrun. apply Hf.
Qed.

Lemma ending_frame {A B} (R : World -> World -> Prop) (m : M A)
    (f : A -> M B) :
  (forall w w', R w w' -> P w -> P w') ->
  ending P m -> (forall a, returning R (f a)) -> ending P (m ≫= f).
Proof.
  intros HR Hm Hf w. destruct (Hm w) as (a & w1 & Hrun & HP).
  destruct (Hf a w1) as (b & w2 & Hrun2 & Hframe).
  unfold mbind, M_bind. rewrite Hrun. exists b, w2.
  split; [exact Hrun2 | exact (HR _ _ Hframe HP)].
Qed.

Lemma ending_try_catch {A} (m : M A) (h : string -> M A) :
  ending_or_throwing P m -> (forall e, ending P (h e)) ->
  ending P (try_catch m h).
Proof.
  intros Hm Hh w. destruct (Hm w) as (r & w1 & Hrun & HP).
  unfold try_catch. rewrite Hrun. destruct r as [a | e |].
  - exists a, w1. split; [reflexivity | exact HP].
  - apply Hh.
  - contradiction.
Qed.

End Endings.

Section StorageFrames.
  Context (R : World -> World -> Prop) `{!Frame R}.
  Hypothesis storage_blind : forall w f, R w (with_localStorage f w).
  Hypothesis console_blind : forall w f, R w (with_console f w).

Lemma keeps_setItem (key : string) (t : StoredText) :
  keeps R (Storage.setItem key t).
Proof.
  intros w. unfold Storage.setItem.
  destruct (available (localStorage w)); cbn;
    [destruct (quota_exceeded (localStorage w)) |]; eexists; eexists;
    (split; [reflexivity |]; split; [discriminate |]);
    first [apply storage_blind | apply frame_refl].
Qed.

Lemma keeps_removeItem (key : string) : keeps R (Storage.removeItem key).
Proof.
  intros w. unfold Storage.removeItem.
  destruct (available (localStorage w)); eexists; eexists;
    (split; [reflexivity |]; split; [discriminate |]);
    first [apply storage_blind | apply frame_refl].
Qed.

Lemma returning_console_log (l : Level) (label : string) (arg : jsval) :
  returning R (console_log l label arg).
Proof. intros w. eexists; eexists. split; [reflexivity | apply console_blind]. Qed.

Lemma returning_isStorageAvailable : returning R Storage.isStorageAvailable.
Proof.
  unfold Storage.isStorageAvailable.
  apply returning_try_catch; frame_instance;
    [| intros _; apply returning_ret; frame_instance].
  apply keeps_bind; frame_instance; [apply keeps_setItem | intros _].
  apply keeps_bind; frame_instance; [apply keeps_removeItem | intros _].
  apply returning_keeps; frame_instance. apply returning_ret; frame_instance.
Qed.

Lemma returning_saveLastCity (c : Coordinates) (text : string) :
  returning R (Storage.saveLastCity c text).
Proof.
  unfold Storage.saveLastCity.
  apply returning_try_catch; frame_instance;
    [| intros e; apply returning_console_log].
  apply keeps_bind; frame_instance;
    [apply returning_keeps; frame_instance;
     apply returning_get; frame_instance | intros t].
  apply keeps_bind; frame_instance; [apply keeps_setItem | intros _].
  apply returning_keeps; frame_instance. apply returning_console_log.
Qed.

End StorageFrames.

Section FetchEnds.
  Import Index.

Lemma sections_kept (w w' : World) :
  same_sections w w' -> sections_shown w -> sections_shown w'.
Proof.
  unfold same_sections, same_element, sections_shown.
  intros [H1 H2] [Hloading Hdata]. rewrite H1, H2. now split.
Qed.

Lemma showWeatherData_ending : ending sections_shown showWeatherData.
Proof.
  intros w. destruct (showWeatherData_shows w) as (w' & Hrun & Hshown & _).
  exists tt, w'. now split.
Qed.

Lemma updateWeatherDisplay_ending (weatherData : WeatherData) :
  ending sections_shown (updateWeatherDisplay weatherData).
Proof.
  intros w.
  destruct (updateWeatherDisplay_effect weatherData w)
    as (w' & Hrun & Hshown & _).
  exists tt, w'. now split.
Qed.

(** X15. However a fetch goes (the service answers or not, the storage
    works or not), [fetchWeatherData] returns, the loading section is
    hidden and the weather section is shown, and the submit button is
    enabled again with its label. *)
Theorem fetchWeatherData_ends (c : Coordinates)
    (saveToStorage showLoading : bool) (w : World) :
  exists w',
    fetchWeatherData c saveToStorage showLoading w = (Returned tt, w') /\
    sections_shown w' /\ button_restored w'.
Proof.
  unfold fetchWeatherData.
  match goal with
  | |- context [try_finally ?body _] =>
      assert (Hbody : ending sections_shown body)
  end.
  { apply ending_try_catch.
    - apply ending_or_throwing_bind.
      { apply returning_keeps; frame_instance.
        unfold showLoadingState. framing_all; exact I. }
      intros _. apply ending_or_throwing_bind;
        [apply returning_keeps; frame_instance; framing_all; exact I |].
      intros _. apply ending_or_throwing_bind;
        [apply returning_keeps; frame_instance; framing_all; exact I |].
      intros _. apply ending_or_throwing_bind;
        [apply getCurrentWeather_keeps; intros; exact I |].
      intros weatherData. apply ending_throwing.
      apply (ending_frame _ same_sections); [apply sections_kept | |].
      + apply updateWeatherDisplay_ending.
      + intros _. apply returning_bind; frame_instance.
        * destruct saveToStorage;
            [ apply returning_isStorageAvailable; frame_instance;
              intros; within_frames
            | apply returning_ret; frame_instance ].
        * intros usable. apply returning_bind; frame_instance.
          -- apply returning_when; frame_instance.
             apply returning_try_catch; frame_instance.
             ++ apply returning_keeps; frame_instance.
                apply returning_saveLastCity; frame_instance;
                  intros; within_frames.
             ++ intros e. framing_all.
          -- intros _. unfold announceWeatherUpdate. framing_all.
    - intros e. apply ending_bind; [framing_all; exact I |].
      intros _. apply (ending_frame _ same_sections);
        [apply sections_kept | apply showWeatherData_ending |].
      intros _. framing_all. }
  destruct (Hbody w) as ([] & w1 & Hrun & Hloading & Hdata).
  unfold try_finally. rewrite Hrun. run.
  eexists. split; [reflexivity |].
  unfold sections_shown, button_restored. cbn.
  split; [split |].
  - intros e. rewrite !lookup_alter_ne by discriminate. apply Hloading.
  - intros e. rewrite !lookup_alter_ne by discriminate. apply Hdata.
  - intros e. rewrite !lookup_alter_eq.
    destruct (document w1 !! "submit-search"); [| discriminate].
    cbn. intros [= <-]. split; reflexivity.
Qed.

End FetchEnds.
(** ** index.ts: a fetch that the service answers *)

Section FetchAnswered.
  Import Index.

Lemma isStorageAvailable_working (w : World) :
  working (localStorage w) ->
  Storage.isStorageAvailable w =
    (Returned true,
     with_localStorage (Storage.remove "test-storage")
       (with_localStorage (Storage.put "test-storage" MalformedText) w)).
Proof.
  intros [Havail Hquota].
  unfold Storage.isStorageAvailable, Storage.setItem, Storage.removeItem.
  run. rewrite Havail, Hquota. cbn. now rewrite Havail.
Qed.

(** A fetch that is asked to save, answered by the service, with working
    storage. *)
Lemma fetchWeatherData_saved (c : Coordinates) (cur : Current)
    (showLoading : bool) (w : World) :
  forecast_answers w c cur ->
  working (localStorage w) ->
  exists w',
    fetchWeatherData c true showLoading w = (Returned tt, w') /\
    held w' =
      Some (Document
              (Storage.stringify (record_of c (generateSearchText c) w))) /\
    document w' !! "city" =
      set_textContent
        (if str_truthy (country c)
         then name c +:+ ", " +:+ default "" (country c)
         else name c) <$> document w !! "city" /\
    document w' !! "temperature" =
      set_textContent (num_to_string (round (temperature_2m cur)) +:+ "°C")
        <$> document w !! "temperature" /\
    announcements w' =
      (announcements w ++ [announcement_of (snapshot c cur)])%list /\
    sections_shown w' /\
    currentCoordinates w' = currentCoordinates w /\
    working (localStorage w').
Proof.
  intros Hanswer Hworking.
  unfold fetchWeatherData, showLoadingState. run.
  destruct showLoading; cbn;
    match goal with
    | |- context [WeatherApi.getCurrentWeather c ?W] =>
        rewrite (getCurrentWeather_answers c cur W Hanswer)
    end;
    match goal with
    | |- context [updateWeatherDisplay ?wd ?W] =>
        destruct (updateWeatherDisplay_effect wd W)
          as (w2 & Hrun2 & Hshown & Hstorage & (Hnow & _) & _ & Hann
              & Hcity & Htemp & _ & Hcur)
    end;
    rewrite Hrun2;
    unfold same_storage in Hstorage; cbn in Hstorage, Hnow, Hann, Hcity,
      Htemp, Hcur;
    (assert (Hworking2 : working (localStorage w2))
       by (rewrite Hstorage; exact Hworking));
    rewrite (isStorageAvailable_working w2 Hworking2);
    rewrite saveLastCity_working
      by (destruct Hworking2; split; assumption);
    unfold announceWeatherUpdate; run;
    (eexists; split; [reflexivity |]);
    unfold sections_shown in *; cbn;
    (split; [unfold held, record_of; cbn; rewrite lookup_insert_eq, Hnow;
             reflexivity |]);
    (split;
     [rewrite ?lookup_alter_ne by discriminate; rewrite Hcity;
      rewrite ?lookup_alter_ne by discriminate;
      destruct (str_truthy (country c)) eqn:Hcountry;
      [rewrite Hcountry | ]; reflexivity |]);
    (split;
     [rewrite ?lookup_alter_ne by discriminate; rewrite Htemp;
      rewrite ?lookup_alter_ne by discriminate; reflexivity |]);
    (split; [rewrite Hann; reflexivity |]);
    (split;
     [destruct Hshown as [Hloading Hdata];
      split; intros e; rewrite ?lookup_alter_ne by discriminate;
      [apply Hloading | apply Hdata] |]);
    (split; [exact Hcur |]);
    destruct Hworking2; split; cbn; assumption.
Qed.

(** X16. When the weather service answers, a fetch ends with the city
    (with its country, if it has one) and the rounded temperature on
    display, the weather section shown instead of the loading section,
    and one announcement for screen readers added, whether or not it was
    asked to save and whatever the storage does. *)
Theorem fetchWeatherData_success (c : Coordinates) (cur : Current)
    (saveToStorage showLoading : bool) (w : World) :
  forecast_answers w c cur ->
  exists w',
    fetchWeatherData c saveToStorage showLoading w = (Returned tt, w') /\
    document w' !! "city" =
      set_textContent
        (if str_truthy (country c)
         then name c +:+ ", " +:+ default "" (country c)
         else name c) <$> document w !! "city" /\
    document w' !! "temperature" =
      set_textContent (num_to_string (round (temperature_2m cur)) +:+ "°C")
        <$> document w !! "temperature" /\
    announcements w' =
      (announcements w ++ [announcement_of (snapshot c cur)])%list /\
    sections_shown w'.
Proof.
  intros Hanswer.
  assert (Hprobe : returning same_page Storage.isStorageAvailable)
    by (apply returning_isStorageAvailable; frame_instance;
        intros; within_frames).
  assert (Hsave : returning same_page
                    (Storage.saveLastCity c (generateSearchText c)))
    by (apply returning_saveLastCity; frame_instance;
        intros; within_frames).
  unfold fetchWeatherData, showLoadingState. run.
  destruct showLoading; cbn;
    match goal with
    | |- context [WeatherApi.getCurrentWeather c ?W] =>
        rewrite (getCurrentWeather_answers c cur W Hanswer)
    end;
    match goal with
    | |- context [updateWeatherDisplay ?wd ?W] =>
        destruct (updateWeatherDisplay_effect wd W)
          as (w2 & Hrun2 & Hshown & _ & _ & _ & Hann & Hcity & Htemp & _)
    end;
    rewrite Hrun2; cbn in Hann, Hcity, Htemp;
    (destruct saveToStorage;
     [ destruct (Hprobe w2) as (usable & w3 & Hrun3 & Hdoc3 & _ & Hann3);
       rewrite Hrun3;
       destruct usable; cbn;
       [ destruct (Hsave w3) as ([] & w4 & Hrun4 & Hdoc4 & _ & Hann4);
         rewrite Hrun4; rewrite Hdoc3, Hann3 in *; clear Hdoc3 Hann3
       | pose proof Hdoc3 as Hdoc4; pose proof Hann3 as Hann4 ]
     | cbn ]);
    unfold announceWeatherUpdate; run;
    (eexists; split; [reflexivity |]);
    unfold sections_shown in *; cbn;
    rewrite ?lookup_alter_ne by discriminate;
    try rewrite Hdoc4; try rewrite Hann4;
    (split;
     [rewrite Hcity; rewrite ?lookup_alter_ne by discriminate;
      destruct (str_truthy (country c)) eqn:Hcountry;
      [rewrite Hcountry | ]; reflexivity |]);
    (split;
     [rewrite Htemp; rewrite ?lookup_alter_ne by discriminate;
      reflexivity |]);
    (split; [rewrite Hann; reflexivity |]);
    exact Hshown.
Qed.

Lemma fetchWeatherData_success_online :
  forecast_answers online paris overcast /\
  exists w',
    fetchWeatherData paris true true online = (Returned tt, w') /\
    textContent <$> document w' !! "city" = Some "Paris, France" /\
    textContent <$> document w' !! "temperature" = Some "18°C".
Proof.
  assert (Hanswer : forecast_answers online paris overcast)
    by (exists 200; reflexivity).
  split; [exact Hanswer |].
  destruct (fetchWeatherData_success paris overcast true true online Hanswer)
    as (w' & Hrun & Hcity & Htemp & _).
  exists w'. split; [exact Hrun |].
  split; [rewrite Hcity | rewrite Htemp]; vm_compute; reflexivity.
Defined.

Lemma cached_written (c : Coordinates) (text : string) (w0 w : World) :
  available (localStorage w) = true ->
  held w = Some (Document (Storage.stringify (record_of c text w0))) ->
  finite_nonzero (lat c) -> finite_nonzero (lon c) -> name c <> "" ->
  ((inject_Z (now w) - inject_Z (now w0)) / 3600000 <= 24)%Q ->
  cached Storage.default_maxAgeHours w
    = Some (Storage.stringify (record_of c text w0)) /\
  as_StoredCity (Storage.stringify (record_of c text w0))
    = Some (record_of c text w0).
Proof.
  intros Havail Hheld Hlat Hlon Hname Hage.
  pose proof (stringify_fields (record_of c text w0))
    as (Hts & Hflat & Hflon & Hfname).
  split.
  - unfold cached. rewrite Havail, Hheld.
    unfold field_number, field_truthy, ageInHours.
    rewrite Hts, Hflat, Hflon, Hfname. cbn [record_of city timestamp].
    change (ToNumber (Some (json_of_num (of_Z (now w0)))))
      with (Some (Fin (inject_Z (now w0)))).
    cbv beta iota. rewrite ageInHours_number. unfold gt, Storage.default_maxAgeHours.
    rewrite (Qlt_bool_false _ _ Hage).
    rewrite (proj2 (truthy_json_of_num _) Hlat).
    rewrite (proj2 (truthy_json_of_num _) Hlon).
    cbn. destruct (decide (name c = "")); [contradiction | reflexivity].
  - destruct Hlat as (la & Hla & _), Hlon as (lo & Hlo & _).
    apply (as_StoredCity_stringify (record_of c text w0) la lo
             (inject_Z (now w0)));
      [exact Hla | exact Hlo | reflexivity].
Qed.

(** X17. Selecting a city and reloading the page brings the city back.
    With a service that answers and working storage, the listener of
    [citySelected] makes the candidate (finite non-zero latitude and
    longitude, non-empty name) the current selection; a page loaded
    within 24 hours over the storage it leaves then asks the weather of
    that very candidate, makes it the current selection and names it in
    the search field. *)
Theorem select_then_reload (c : Coordinates) (cur : Current)
    (w reloaded : World) :
  forecast_answers w c cur ->
  working (localStorage w) ->
  finite_nonzero (lat c) -> finite_nonzero (lon c) -> name c <> "" ->
  exists w1,
    on_citySelected c w = (Returned tt, w1) /\
    currentCoordinates w1 = Some c /\
    (localStorage reloaded = localStorage w1 ->
     ((inject_Z (now reloaded) - inject_Z (now w)) / 3600000 <= 24)%Q ->
     exists w2,
       loadInitialWeather reloaded = (Returned tt, w2) /\
       requests w2 =
         (requests reloaded ++ [WeatherRequest (lat c) (lon c)])%list /\
       currentCoordinates w2 = Some c /\
       document w2 !! "search" =
         naming (generateSearchText c) <$> document reloaded !! "search").
Proof.
  intros Hanswer Hworking Hlat Hlon Hname.
  destruct (fetchWeatherData_saved c cur true
              (with_currentCoordinates (fun _ => Some c) w)
              Hanswer Hworking)
    as (w1 & Hrun & Hheld & _ & _ & _ & _ & Hcur & Havail & _).
  exists w1. split; [exact Hrun |]. split; [exact Hcur |].
  intros Hstorage Hage.
  destruct (cached_written c (generateSearchText c) w reloaded)
    as [Hcached Hcast]; try assumption.
  { rewrite Hstorage. exact Havail. }
  { unfold held. rewrite Hstorage. exact Hheld. }
  destruct (loadInitialWeather_run reloaded)
    as (r & w2 & Hload & _ & _ & _ & _ & Hresolved).
  unfold resolved in Hresolved. rewrite Hcached, Hcast in Hresolved.
  destruct Hresolved as (-> & Hreq & Hsel & Hsearch).
  exists w2. repeat split; assumption.
Qed.

Lemma select_then_reload_paris :
  forecast_answers online paris overcast /\
  exists w1,
    on_citySelected paris online = (Returned tt, w1) /\
    exists w2,
      loadInitialWeather (with_now (now online + 3600000) w1)
        = (Returned tt, w2) /\
      currentCoordinates w2 = Some paris.
Proof.
  assert (Hanswer : forecast_answers online paris overcast)
    by (exists 200; reflexivity).
  split; [exact Hanswer |].
  destruct (select_then_reload paris overcast online
              (with_now (now online + 3600000)
                 (on_citySelected paris online).2) Hanswer)
    as (w1 & Hrun & _ & Hreload).
  - split; reflexivity.
  - eexists. split; [reflexivity |]. vm_compute. discriminate.
  - eexists. split; [reflexivity |]. vm_compute. discriminate.
  - discriminate.
  - exists w1. split; [exact Hrun |].
    apply (f_equal snd) in Hrun. cbn [snd] in Hrun. rewrite Hrun in Hreload.
    destruct Hreload as (w2 & Hload & _ & Hsel & _);
      [reflexivity | vm_compute; discriminate |].
    exists w2. split; assumption.
Defined.

End FetchAnswered.
(** ** search.ts: the autocomplete list and its keys *)

Section Autocomplete.
  Import Search.

Lemma entries_length (k : nat) (matches : list Coordinates) :
  length (entries k matches) = length matches.
Proof.
  revert k. induction matches as [| c rest IH]; intros k; simpl;
    [reflexivity | now rewrite IH].
Qed.

Lemma entries_lookup (matches : list Coordinates) (k i : nat) :
  entries k matches !! i =
    (fun city =>
       {| item_text := cityText city;
          item_id := "result-" +:+ num_to_string (of_nat (k + i));
          aria_selected := None;
          city_index := Some (k + i) |}) <$> matches !! i.
Proof.
  revert k i. induction matches as [| c rest IH]; intros k i.
  - reflexivity.
  - destruct i as [| i]; cbn [entries].
    + cbn. now rewrite Nat.add_0_r.
    + cbn [lookup list_lookup]. change (entries (S k) rest !! i = 
        (fun city =>
           {| item_text := cityText city;
              item_id := "result-" +:+ num_to_string (of_nat (k + S i));
              aria_selected := None;
              city_index := Some (k + S i) |}) <$> rest !! i).
      rewrite IH. now rewrite Nat.add_succ_r.
Qed.

(** [searchCities] on an answer with results. *)
Lemma searchCities_answer (query : string) (rs : list GeoResult)
    (w : World) :
  trim query <> "" ->
  geocoding_answers w query rs ->
  exists l,
    WeatherApi.searchCities query w =
      (Returned l,
       with_requests (fun r => (r ++ [GeoRequest (trim query)])%list) w) /\
    length l = length rs /\
    forall i r, rs !! i = Some r ->
      exists c,
        l !! i = Some c /\
        name c = geo_name r /\ lat c = latitude r /\ lon c = longitude r /\
        country c = (if str_truthy (geo_country r) then geo_country r
                     else admin1 r) /\
        postcodes c = Some (default [] (geo_postcodes r)).
Proof.
  intros Hquery [s Hanswer].
  unfold WeatherApi.searchCities.
  destruct (decide (trim query = "")); [contradiction |].
  unfold fetch_geocoding, response_json. run. rewrite Hanswer. cbn.
  eexists. split; [reflexivity |]. split; [apply length_map |].
  intros i r Hi. rewrite list_lookup_fmap, Hi. cbn.
  eexists. split; [reflexivity |]. repeat split.
Qed.

(** X18. [searchCities] always returns a list.  It makes one geocoding
    request, for the trimmed query, and none for a query that is blank;
    it touches neither the storage nor the page nor the state of the
    list, and a blank query changes nothing at all. *)
Theorem searchCities_requests (query : string) (w : World) :
  exists l w',
    WeatherApi.searchCities query w = (Returned l, w') /\
    requests w' =
      (requests w
         ++ (if decide (trim query = "") then []
             else [GeoRequest (trim query)]))%list /\
    same_storage w w' /\ same_page w w' /\ same_search w w' /\
    (trim query = "" -> l = [] /\ w' = w).
Proof.
  unfold WeatherApi.searchCities.
  destruct (decide (trim query = "")) as [Hblank | Hquery].
  { exists [], w. split; [reflexivity |].
    split; [now rewrite app_nil_r |]. repeat split. }
  unfold fetch_geocoding, response_json. run.
  destruct (geocoding w (trim query)) as [[o s b] |]; cbn;
    [destruct o; cbn; [destruct b as [[[rs |]] |]; cbn |] |];
    eexists; eexists; (split; [reflexivity |]);
    (split; [reflexivity |]); repeat split; contradiction.
Qed.

(** X19. The delayed search on an answer of the service: the list shows
    one entry per result, in the order of the answer, each with the text
    of its candidate, the id [result-i] and its index; the candidates are
    kept beside the entries for the keys, with name and coordinates of
    the results; nothing is selected and the list is visible.  An answer
    without results shows the one entry that says so. *)
Theorem debounced_answer (w : World) (field : Element)
    (rs : list GeoResult) :
  document w !! "search" = Some field ->
  trim (trim (value field)) <> "" ->
  geocoding_answers w (trim (value field)) rs ->
  exists w',
    debounced w = (Returned tt, w') /\
    length (currentResults w') = length rs /\
    results_items w' =
      (if Nat.eqb (length rs) 0 then [no_match]
       else entries 0 (currentResults w')) /\
    (forall i r, rs !! i = Some r ->
       exists c item,
         currentResults w' !! i = Some c /\
         name c = geo_name r /\ lat c = latitude r /\
         lon c = longitude r /\
         results_items w' !! i = Some item /\
         item_text item = cityText c /\
         item_id item = "result-" +:+ num_to_string (of_nat i) /\
         city_index item = Some i) /\
    selectedIndex w' = (-1)%Z /\
    (forall e, document w' !! "results" = Some e -> hidden e = false) /\
    requests w' =
      (requests w ++ [GeoRequest (trim (trim (value field)))])%list.
Proof.
  intros Hfield Hquery Hanswer.
  assert (Hvalue : trim (value field) <> "")
    by (intros Hblank; apply Hquery; now rewrite Hblank).
  destruct (searchCities_answer (trim (value field)) rs w Hquery Hanswer)
    as (l & Hrun & Hlen & Hl).
  unfold debounced. unfold mbind at 1. unfold M_bind at 1.
  unfold get. cbv beta iota. rewrite Hfield.
  change (default "" (value <$> Some field)) with (value field).
  destruct (decide (trim (value field) = "")); [contradiction |].
  unfold try_catch. unfold mbind at 1. unfold M_bind at 1. rewrite Hrun.
  unfold showResults. run. rewrite Hlen.
  destruct (Nat.eqb (length rs) 0) eqn:Hempty; run;
    (eexists; split; [reflexivity |]); cbn;
    (split; [exact Hlen |]); (split; [reflexivity |]);
    (split;
     [| split; [reflexivity |]; split; [| reflexivity];
        intros e; rewrite lookup_alter_ne by discriminate;
        apply hidden_after]).
  - apply Nat.eqb_eq in Hempty. intros i r Hi.
    destruct rs; [destruct i; discriminate | discriminate].
  - intros i r Hi. destruct (Hl i r Hi) as (c & Hc & Hn & Hla & Hlo & _).
    exists c,
      {| item_text := cityText c;
         item_id := "result-" +:+ num_to_string (of_nat i);
         aria_selected := None;
         city_index := Some i |}.
    split; [exact Hc |].
    split; [exact Hn |]. split; [exact Hla |]. split; [exact Hlo |].
    rewrite entries_lookup, Hc. repeat split.
Qed.

Lemma debounced_answer_frankfurt :
  geocoding_answers (typed "Frankfurt " geocoding_frankfurt)
    (trim "Frankfurt ") frankfurt_results /\
  exists w',
    debounced (typed "Frankfurt " geocoding_frankfurt) = (Returned tt, w') /\
    length (results_items w') = 2 /\
    item_text <$> results_items w' !! 1 = Some "Frankfurt (Oder), Brandenburg".
Proof.
  assert (Hanswer : geocoding_answers (typed "Frankfurt " geocoding_frankfurt)
                      (trim "Frankfurt ") frankfurt_results)
    by (exists 200; reflexivity).
  split; [exact Hanswer |].
  destruct (debounced_answer (typed "Frankfurt " geocoding_frankfurt)
              (set_value "Frankfurt " blank) frankfurt_results)
    as (w' & Hrun & Hlen & Hitems & _);
    [vm_compute; reflexivity | vm_compute; discriminate | exact Hanswer |].
  exists w'. split; [exact Hrun |].
  rewrite Hitems. cbn [frankfurt_results length Nat.eqb].
  rewrite entries_length, Hlen. split; [reflexivity |].
  rewrite entries_lookup.
  pose proof (f_equal snd Hrun) as Hw. cbn [snd] in Hw. rewrite <- Hw.
  vm_compute. reflexivity.
Defined.

End Autocomplete.

Section Keys.
  Import Search.

Lemma updateSelection_keeps (s : Z) (w : World) :
  exists w',
    updateSelection s w = (Returned tt, w') /\
    results_items w' = select_items 0 s (results_items w) /\
    selectedIndex w' = selectedIndex w /\
    currentResults w' = currentResults w /\
    dispatched w' = dispatched w.
Proof.
  unfold updateSelection. run.
  destruct (if (0 <=? s)%Z then results_items w !! Z.to_nat s else None);
    run; eexists; (split; [reflexivity |]); repeat split.
Qed.

Lemma keydown_Enter_closed (w : World) :
  results_items w = [] -> keydown Enter w = (Returned tt, w).
Proof.
  intros Hitems. unfold keydown. run. rewrite Hitems, lookup_nil.
  rewrite bool_decide_eq_false_2 by (intros [x Hx]; discriminate).
  now rewrite andb_false_r.
Qed.

Lemma keydown_Enter_empty (w : World) :
  currentResults w = [] -> keydown Enter w = (Returned tt, w).
Proof.
  intros Hcurrent. unfold keydown. run. rewrite Hcurrent.
  change (Z.of_nat (length (@nil Coordinates))) with 0%Z.
  destruct (0 <=? selectedIndex w)%Z eqn:H1;
    destruct (selectedIndex w <? 0)%Z eqn:H2; try reflexivity.
  apply Z.leb_le in H1. apply Z.ltb_lt in H2. lia.
Qed.

Lemma hideResults_closes (w : World) :
  exists w',
    hideResults w = (Returned tt, w') /\
    results_items w' = [] /\
    selectedIndex w' = selectedIndex w /\
    currentResults w' = currentResults w /\
    dispatched w' = dispatched w /\
    (forall e, document w' !! "results" = Some e -> hidden e = true).
Proof.
  unfold hideResults. run. eexists. split; [reflexivity |].
  repeat split. cbn. intros e.
  rewrite lookup_alter_ne by discriminate. apply hidden_after.
Qed.

Lemma press_app (keys more : list Key) (w : World) :
  press (keys ++ more) w = (press keys;; press more) w.
Proof.
  revert w. induction keys as [| key rest IH]; intros w; [reflexivity |].
  cbn [app press]. unfold mbind, M_bind.
  destruct (keydown key w) as [[[] | e |] w1]; [| reflexivity ..].
  rewrite IH. reflexivity.
Qed.

(** With no candidate behind the list, no key commits anything. *)
Lemma press_no_candidates (keys : list Key) :
  forall w, currentResults w = [] ->
  exists w',
    press keys w = (Returned tt, w') /\
    currentResults w' = [] /\ dispatched w' = dispatched w.
Proof.
  induction keys as [| key rest IH]; intros w Hw.
  - exists w. repeat split. exact Hw.
  - assert (Hkey : exists w1,
              keydown key w = (Returned tt, w1) /\
              currentResults w1 = [] /\ dispatched w1 = dispatched w).
    { destruct key.
      - unfold keydown. run.
        match goal with
        | |- context [updateSelection ?s ?W] =>
            destruct (updateSelection_keeps s W)
              as (w1 & Hrun & _ & _ & Hcur & Hdis)
        end.
        exists w1. split; [exact Hrun |]. rewrite Hcur, Hdis. now split.
      - unfold keydown. run.
        match goal with
        | |- context [updateSelection ?s ?W] =>
            destruct (updateSelection_keeps s W)
              as (w1 & Hrun & _ & _ & Hcur & Hdis)
        end.
        exists w1. split; [exact Hrun |]. rewrite Hcur, Hdis. now split.
      - exists w. split; [now apply keydown_Enter_empty |]. now split.
      - unfold keydown. run.
        destruct (hideResults_closes w)
          as (w1 & Hrun & _ & _ & Hcur & Hdis & _).
        rewrite Hrun. eexists. split; [reflexivity |]. cbn.
        rewrite Hcur, Hdis. now split.
      - exists w. repeat split. exact Hw. }
    destruct Hkey as (w1 & Hrun1 & Hcur1 & Hdis1).
    destruct (IH w1 Hcur1) as (w2 & Hrun2 & Hcur2 & Hdis2).
    exists w2. cbn [press]. unfold mbind, M_bind. rewrite Hrun1.
    split; [exact Hrun2 |]. split; [exact Hcur2 | congruence].
Qed.

(** X20. The entry that says there is no match cannot be chosen.  After
    [showResults] of an empty list the one entry on display is that
    message, and whatever keys follow (Down highlights the entry, Enter
    is pressed on it), no city is dispatched. *)
Theorem no_match_never_selected (keys : list Key) (w : World) :
  exists w1 w2,
    showResults [] w = (Returned tt, w1) /\
    results_items w1 = [no_match] /\
    press keys w1 = (Returned tt, w2) /\
    dispatched w2 = dispatched w.
Proof.
  assert (Hshow : exists w1,
            showResults [] w = (Returned tt, w1) /\
            results_items w1 = [no_match] /\
            currentResults w1 = [] /\ dispatched w1 = dispatched w).
  { unfold showResults. run. eexists. split; [reflexivity |].
    repeat split. }
  destruct Hshow as (w1 & Hrun1 & Hitems & Hcur & Hdis1).
  destruct (press_no_candidates keys w1 Hcur) as (w2 & Hrun2 & _ & Hdis2).
  exists w1, w2. split; [exact Hrun1 |]. split; [exact Hitems |].
  split; [exact Hrun2 | congruence].
Qed.

Lemma press_downs (k : nat) :
  forall w,
    (selectedIndex w + Z.of_nat k
       <= Z.of_nat (length (results_items w)) - 1)%Z ->
    exists w',
      press (replicate k ArrowDown) w = (Returned tt, w') /\
      selectedIndex w' = (selectedIndex w + Z.of_nat k)%Z /\
      length (results_items w') = length (results_items w) /\
      currentResults w' = currentResults w /\
      dispatched w' = dispatched w.
Proof.
  induction k as [| k IH]; intros w Hk.
  - exists w. split; [reflexivity |]. repeat split. cbn. lia.
  - cbn [replicate press]. unfold keydown. run.
    match goal with
    | |- context [updateSelection ?s ?W] =>
        destruct (updateSelection_keeps s W)
          as (w1 & Hrun & Hitems & Hsel & Hcur & Hdis)
    end.
    rewrite Hrun. cbn in Hitems, Hsel, Hcur, Hdis.
    assert (Hlen : length (results_items w1) = length (results_items w))
      by (rewrite Hitems; apply select_items_length).
    destruct (IH w1) as (w2 & Hrun2 & Hsel2 & Hlen2 & Hcur2 & Hdis2).
    { rewrite Hsel, Hlen. lia. }
    exists w2. split; [exact Hrun2 |].
    split; [rewrite Hsel2, Hsel; lia |].
    split; [congruence |]. split; congruence.
Qed.

(** X21. Choosing with the keys: with the candidates on display and
    nothing selected, pressing Down [j + 1] times and then Enter
    dispatches the candidate at position [j] of the list, that one only,
    and closes the list. *)
Theorem arrows_then_enter (matches : list Coordinates) (j : nat)
    (c : Coordinates) (w : World) :
  matches !! j = Some c ->
  selectedIndex w = (-1)%Z ->
  exists w1 w2,
    showResults matches w = (Returned tt, w1) /\
    press (replicate (S j) ArrowDown ++ [Enter]) w1 = (Returned tt, w2) /\
    dispatched w2 = (dispatched w ++ [c])%list /\
    results_items w2 = [].
Proof.
  intros Hj Hstart.
  pose proof (lookup_lt_Some _ _ _ Hj) as Hlt.
  assert (Hshow : exists w1,
            showResults matches w = (Returned tt, w1) /\
            results_items w1 = entries 0 matches /\
            currentResults w1 = matches /\
            selectedIndex w1 = selectedIndex w /\
            dispatched w1 = dispatched w).
  { unfold showResults. run.
    destruct matches as [| c0 rest]; [cbn in Hlt; lia |].
    cbn. eexists. split; [reflexivity |]. repeat split. }
  destruct Hshow as (w1 & Hrun1 & Hitems1 & Hcur1 & Hsel1 & Hdis1).
  exists w1.
  destruct (press_downs (S j) w1)
    as (w2 & Hrun2 & Hsel2 & Hlen2 & Hcur2 & Hdis2).
  { rewrite Hsel1, Hstart, Hitems1, entries_length. lia. }
  rewrite Hsel1, Hstart in Hsel2.
  rewrite Hitems1, entries_length in Hlen2.
  assert (Hsel : selectedIndex w2 = Z.of_nat j) by lia.
  rewrite press_app. unfold mbind at 1. unfold M_bind at 1. rewrite Hrun2.
  cbn [press]. unfold keydown. run.
  rewrite Hsel, Hcur2, Hcur1, Nat2Z.id, Hj.
  replace (0 <=? Z.of_nat j)%Z with true by (symmetry; apply Z.leb_le; lia).
  replace (Z.of_nat j <? Z.of_nat (length matches))%Z with true
    by (symmetry; apply Z.ltb_lt; lia).
  rewrite bool_decide_eq_true_2
    by (apply lookup_lt_is_Some; rewrite Hlen2; exact Hlt).
  cbn. unfold selectCity, hideResults. run.
  eexists. split; [exact Hrun1 |]. split; [reflexivity |]. cbn.
  split; [now rewrite Hdis2, Hdis1 | reflexivity].
Qed.

Lemma arrows_then_enter_second :
  let matches := [paris; WeatherApi.getBerlinCoordinates] in
  exists w1 w2,
    showResults matches offline = (Returned tt, w1) /\
    press [ArrowDown; ArrowDown; Enter] w1 = (Returned tt, w2) /\
    dispatched w2 = [WeatherApi.getBerlinCoordinates].
Proof.
  cbv zeta.
  destruct (arrows_then_enter [paris; WeatherApi.getBerlinCoordinates] 1
              WeatherApi.getBerlinCoordinates offline)
    as (w1 & w2 & Hrun1 & Hrun2 & Hdis & _);
    [reflexivity | reflexivity |].
  exists w1, w2. repeat split; assumption.
Defined.

(** X22. Enter commits at most one candidate, the one at the selected
    position, and closes the list with it; a second Enter then changes
    nothing. *)
Theorem enter_once (w : World) :
  exists w1,
    keydown Enter w = (Returned tt, w1) /\
    (w1 = w \/
     exists c,
       currentResults w !! Z.to_nat (selectedIndex w) = Some c /\
       dispatched w1 = (dispatched w ++ [c])%list /\
       results_items w1 = []) /\
    keydown Enter w1 = (Returned tt, w1).
Proof.
  assert (Hstep : exists w1,
            keydown Enter w = (Returned tt, w1) /\
            (w1 = w \/
             exists c,
               currentResults w !! Z.to_nat (selectedIndex w) = Some c /\
               dispatched w1 = (dispatched w ++ [c])%list /\
               results_items w1 = [])).
  { unfold keydown. run.
    destruct ((0 <=? selectedIndex w)%Z
              && (selectedIndex w <? Z.of_nat (length (currentResults w)))%Z
              && bool_decide
                   (is_Some (results_items w !! Z.to_nat (selectedIndex w))));
      [| exists w; split; [reflexivity | now left]].
    destruct (currentResults w !! Z.to_nat (selectedIndex w)) as [c |];
      [| exists w; split; [reflexivity | now left]].
    unfold selectCity, hideResults. run.
    eexists. split; [reflexivity |]. right. exists c. repeat split. }
  destruct Hstep as (w1 & Hrun & Hcases).
  exists w1. split; [exact Hrun |]. split; [exact Hcases |].
  destruct Hcases as [-> | (c & _ & _ & Hitems)];
    [exact Hrun | now apply keydown_Enter_closed].
Qed.

Lemma press_closed (keys : list Key) :
  forall w, closed w ->
  exists w',
    press keys w = (Returned tt, w') /\
    closed w' /\ dispatched w' = dispatched w.
Proof.
  induction keys as [| key rest IH]; intros w Hw.
  - exists w. repeat split; apply Hw.
  - assert (Hkey : exists w1,
              keydown key w = (Returned tt, w1) /\
              closed w1 /\ dispatched w1 = dispatched w).
    { destruct Hw as [Hitems Hsel]. unfold closed.
      destruct key.
      - unfold keydown. run.
        match goal with
        | |- context [updateSelection ?s ?W] =>
            destruct (updateSelection_keeps s W)
              as (w1 & Hrun & Hitems1 & Hsel1 & _ & Hdis)
        end.
        exists w1. split; [exact Hrun |]. cbn in Hitems1, Hsel1, Hdis.
        rewrite Hitems1, Hsel1, Hitems, Hsel, Hdis. repeat split.
      - unfold keydown. run.
        match goal with
        | |- context [updateSelection ?s ?W] =>
            destruct (updateSelection_keeps s W)
              as (w1 & Hrun & Hitems1 & Hsel1 & _ & Hdis)
        end.
        exists w1. split; [exact Hrun |]. cbn in Hitems1, Hsel1, Hdis.
        rewrite Hitems1, Hsel1, Hitems, Hsel, Hdis. repeat split.
      - exists w. split; [now apply keydown_Enter_closed |]. now split.
      - unfold keydown. run.
        destruct (hideResults_closes w)
          as (w1 & Hrun & Hitems1 & _ & _ & Hdis & _).
        rewrite Hrun. eexists. split; [reflexivity |]. cbn.
        split; [split; [exact Hitems1 | reflexivity] | exact Hdis].
      - exists w. repeat split; assumption. }
    destruct Hkey as (w1 & Hrun1 & Hclosed1 & Hdis1).
    destruct (IH w1 Hclosed1) as (w2 & Hrun2 & Hclosed2 & Hdis2).
    exists w2. cbn [press]. unfold mbind, M_bind. rewrite Hrun1.
    split; [exact Hrun2 |]. split; [exact Hclosed2 | congruence].
Qed.

(** X23. Escape closes the list: no entry is left, nothing is selected
    and the list is hidden; and until new results are shown the keys do
    nothing: whatever keys follow, the list stays closed and no city is
    dispatched. *)
Theorem escape_closes (keys : list Key) (w : World) :
  exists w1 w2,
    keydown Escape w = (Returned tt, w1) /\
    closed w1 /\
    (forall e, document w1 !! "results" = Some e -> hidden e = true) /\
    press keys w1 = (Returned tt, w2) /\
    closed w2 /\ dispatched w2 = dispatched w.
Proof.
  assert (Hescape : exists w1,
            keydown Escape w = (Returned tt, w1) /\
            closed w1 /\
            (forall e, document w1 !! "results" = Some e ->
                       hidden e = true) /\
            dispatched w1 = dispatched w).
  { unfold keydown. run.
    destruct (hideResults_closes w)
      as (w1 & Hrun & Hitems1 & _ & _ & Hdis & Hhidden).
    rewrite Hrun. eexists. split; [reflexivity |]. unfold closed. cbn.
    split; [split; [exact Hitems1 | reflexivity] |].
    split; [exact Hhidden | exact Hdis]. }
  destruct Hescape as (w1 & Hrun1 & Hclosed1 & Hhidden & Hdis1).
  destruct (press_closed keys w1 Hclosed1) as (w2 & Hrun2 & Hclosed2 & Hdis2).
  exists w1, w2. repeat split; try assumption; try apply Hclosed1;
    try apply Hclosed2. congruence.
Qed.

(** X24. Selecting a city names it in the search field exactly as a
    reload of the page does: [selectCity] of search.ts builds the text
    that [generateSearchText] of index.ts builds, empties the field,
    closes the list and dispatches the city, once. *)
Theorem selectCity_names (city : Coordinates) (w : World) :
  exists w',
    selectCity city w = (Returned tt, w') /\
    document w' !! "search" =
      setAttribute "aria-expanded" "false"
        <$> (naming (Index.generateSearchText city)
               <$> document w !! "search") /\
    dispatched w' = (dispatched w ++ [city])%list /\
    results_items w' = [] /\
    (forall e, document w' !! "results" = Some e -> hidden e = true) /\
    same_storage w w' /\ requests w' = requests w.
Proof.
  unfold selectCity, hideResults. run.
  eexists. split; [reflexivity |]. cbn.
  split.
  - rewrite lookup_alter_eq, lookup_alter_ne, !lookup_alter_eq
      by discriminate.
    unfold naming, Index.generateSearchText.
    destruct (document w !! "search") as [[]|]; reflexivity.
  - repeat split. intros e.
    rewrite lookup_alter_ne by discriminate. apply hidden_after.
Qed.

End Keys.
(** ** index.ts: the submit button *)

Section Button.
  Import Index Handlers.

(** A fetch leaves the state of the list and the current selection
    alone, also when it saves. *)
Lemma fetchWeatherData_search (c : Coordinates)
    (saveToStorage showLoading : bool) :
  returning same_search (fetchWeatherData c saveToStorage showLoading).
Proof.
  unfold fetchWeatherData.
  apply returning_try_finally; frame_instance; [| framing_all].
  apply returning_try_catch; frame_instance.
  - apply keeps_bind; frame_instance.
    { apply returning_keeps; frame_instance.
      unfold showLoadingState. framing_all. }
    intros _. apply keeps_bind; frame_instance;
      [apply returning_keeps; frame_instance; framing_all |].
    intros _. apply keeps_bind; frame_instance;
      [apply returning_keeps; frame_instance; framing_all |].
    intros _. apply keeps_bind; frame_instance.
    { apply getCurrentWeather_keeps; intros; within_frames. }
    intros weatherData. apply returning_keeps; frame_instance.
    apply returning_bind; frame_instance.
    { unfold updateWeatherDisplay, showWeatherData. framing_all. }
    intros _. apply returning_bind; frame_instance.
    { destruct saveToStorage;
        [ apply returning_isStorageAvailable; frame_instance;
          intros; within_frames
        | apply returning_ret; frame_instance ]. }
    intros usable. apply returning_bind; frame_instance.
    { apply returning_when; frame_instance.
      apply returning_try_catch; frame_instance;
        [ apply returning_keeps; frame_instance;
          apply returning_saveLastCity; frame_instance;
          intros; within_frames
        | intros e; framing_all ]. }
    intros _. unfold announceWeatherUpdate. framing_all.
  - intros e. unfold showWeatherData. framing_all.
Qed.

Lemma searchCities_nothing (query : string) (w : World) :
  trim query <> "" ->
  geocoding_fails w query \/ geocoding_answers w query [] ->
  exists w',
    WeatherApi.searchCities query w = (Returned [], w') /\
    requests w' = (requests w ++ [GeoRequest (trim query)])%list /\
    document w' = document w /\
    localStorage w' = localStorage w /\
    currentCoordinates w' = currentCoordinates w.
Proof.
  intros Hquery Hnothing.
  unfold WeatherApi.searchCities.
  destruct (decide (trim query = "")); [contradiction |].
  unfold fetch_geocoding, response_json. run.
  destruct Hnothing as [Hfails | [s Hanswer]].
  - unfold geocoding_fails in Hfails.
    destruct (geocoding w (trim query)) as [[o s b] |]; cbn in *.
    + destruct Hfails as [-> | ->]; cbn;
        [| destruct o; cbn];
        (eexists; split; [reflexivity |]; repeat split).
    + eexists. split; [reflexivity |]. repeat split.
  - rewrite Hanswer. cbn. eexists. split; [reflexivity |]. repeat split.
Qed.

(** X25. A click on the button without a selection, when the typed name
    finds no city (the geocoding request fails or has no result): the
    page says that the city was not found, the weather service is not
    asked, nothing is selected and the cache is untouched. *)
Theorem on_button_click_not_found (w : World) (field : Element) :
  currentCoordinates w = None ->
  document w !! "search" = Some field ->
  trim (trim (value field)) <> "" ->
  geocoding_fails w (trim (value field))
    \/ geocoding_answers w (trim (value field)) [] ->
  exists w',
    on_button_click w = (Returned tt, w') /\
    document w' !! "city" =
      set_textContent "Stadt nicht gefunden" <$> document w !! "city" /\
    document w' !! "weather-type" =
      set_textContent "Bitte versuchen Sie eine andere Stadt"
        <$> document w !! "weather-type" /\
    requests w' =
      (requests w ++ [GeoRequest (trim (trim (value field)))])%list /\
    currentCoordinates w' = None /\
    localStorage w' = localStorage w.
Proof.
  intros Hcurrent Hfield Hquery Hnothing.
  assert (Hvalue : trim (value field) <> "")
    by (intros Hblank; apply Hquery; now rewrite Hblank).
  destruct (searchCities_nothing (trim (value field)) w Hquery Hnothing)
    as (w1 & Hrun & Hreq & Hdoc & Hstorage & Hcur).
  unfold on_button_click. unfold mbind at 1. unfold M_bind at 1.
  unfold get at 1. cbv beta iota. rewrite Hcurrent.
  unfold mbind at 1. unfold M_bind at 1. unfold get. cbv beta iota.
  rewrite Hfield.
  change (default "" (value <$> Some field)) with (value field).
  destruct (decide (trim (value field) = "")); [contradiction |].
  unfold try_catch. unfold mbind at 1. unfold M_bind at 1. rewrite Hrun.
  run. eexists. split; [reflexivity |]. cbn.
  rewrite lookup_alter_ne, !lookup_alter_eq, lookup_alter_ne, Hdoc
    by discriminate.
  repeat split; [exact Hreq | congruence | exact Hstorage].
Qed.

Lemma on_button_click_atlantis :
  geocoding_fails (typed "Atlantis" offline) (trim "Atlantis") /\
  exists w',
    on_button_click (typed "Atlantis" offline) = (Returned tt, w') /\
    textContent <$> document w' !! "city" = Some "Stadt nicht gefunden" /\
    requests w' = [GeoRequest "Atlantis"].
Proof.
  assert (Hfails : geocoding_fails (typed "Atlantis" offline)
                     (trim "Atlantis")) by exact I.
  split; [exact Hfails |].
  destruct (on_button_click_not_found (typed "Atlantis" offline)
              (set_value "Atlantis" blank))
    as (w' & Hrun & Hcity & _ & Hreq & _);
    [reflexivity | vm_compute; reflexivity | vm_compute; discriminate
     | left; exact Hfails |].
  exists w'. split; [exact Hrun |].
  split; [rewrite Hcity; vm_compute; reflexivity | exact Hreq].
Defined.

(** X26. A click on the button without a selection, when the typed name
    finds cities: the first candidate of the answer becomes the current
    selection and its weather is asked for, with one geocoding request
    and one weather request in all. *)
Theorem on_button_click_found (w : World) (field : Element)
    (r : GeoResult) (rs : list GeoResult) :
  currentCoordinates w = None ->
  document w !! "search" = Some field ->
  trim (trim (value field)) <> "" ->
  geocoding_answers w (trim (value field)) (r :: rs) ->
  exists w' c,
    on_button_click w = (Returned tt, w') /\
    currentCoordinates w' = Some c /\
    name c = geo_name r /\ lat c = latitude r /\ lon c = longitude r /\
    requests w' =
      (requests w
         ++ [GeoRequest (trim (trim (value field)));
             WeatherRequest (latitude r) (longitude r)])%list.
Proof.
  intros Hcurrent Hfield Hquery Hanswer.
  assert (Hvalue : trim (value field) <> "")
    by (intros Hblank; apply Hquery; now rewrite Hblank).
  destruct (searchCities_answer (trim (value field)) (r :: rs) w
              Hquery Hanswer)
    as (l & Hrun & Hlen & Hl).
  destruct (Hl 0 r eq_refl) as (c & Hc & Hn & Hla & Hlo & _).
  destruct l as [| c0 l]; [discriminate |]. injection Hc as ->.
  unfold on_button_click. unfold mbind at 1. unfold M_bind at 1.
  unfold get at 1. cbv beta iota. rewrite Hcurrent.
  unfold mbind at 1. unfold M_bind at 1. unfold get. cbv beta iota.
  rewrite Hfield.
  change (default "" (value <$> Some field)) with (value field).
  destruct (decide (trim (value field) = "")); [contradiction |].
  unfold try_catch. unfold mbind at 1. unfold M_bind at 1. rewrite Hrun.
  unfold mbind at 1. unfold M_bind at 1. unfold modify at 1.
  cbv beta iota.
  match goal with
  | |- context [fetchWeatherData c true true ?W] =>
      destruct (fetchWeatherData_once c true true W)
        as ([] & w2 & Hfetch & Hreq);
      destruct (fetchWeatherData_search c true true W)
        as ([] & w2' & Hfetch' & (_ & _ & _ & _ & Hsel))
  end.
  rewrite Hfetch in Hfetch'. injection Hfetch' as <-.
  rewrite Hfetch. exists w2, c. split; [reflexivity |].
  split; [exact Hsel |]. split; [exact Hn |].
  split; [exact Hla |]. split; [exact Hlo |].
  rewrite Hreq, Hla, Hlo. cbn. now rewrite <- app_assoc.
Qed.

Lemma on_button_click_frankfurt :
  geocoding_answers (typed "Frankfurt" geocoding_frankfurt)
    (trim "Frankfurt") frankfurt_results /\
  exists w' c,
    on_button_click (typed "Frankfurt" geocoding_frankfurt)
      = (Returned tt, w') /\
    currentCoordinates w' = Some c /\ name c = "Frankfurt am Main".
Proof.
  assert (Hanswer : geocoding_answers (typed "Frankfurt" geocoding_frankfurt)
                      (trim "Frankfurt") frankfurt_results)
    by (exists 200; reflexivity).
  split; [exact Hanswer |].
  destruct (on_button_click_found (typed "Frankfurt" geocoding_frankfurt)
              (set_value "Frankfurt" blank) frankfurt_main [frankfurt_oder]
              eq_refl) as (w' & c & Hrun & Hsel & Hname & _);
    [vm_compute; reflexivity | vm_compute; discriminate | exact Hanswer |].
  exists w', c. repeat split; assumption.
Defined.

End Button.

Section DelayedSearch.
  Import Search.

(** X27. The delayed search when the typed name finds no city (the
    geocoding request fails or has no result): the list shows the one
    entry that says so, visibly, no candidate is kept behind it, nothing
    is selected, and the weather service is not asked.  With a blank
    field the list is closed instead and no request is made at all. *)
Theorem debounced_without_results (w : World) (field : Element) :
  document w !! "search" = Some field ->
  (trim (value field) = "" \/
   (trim (trim (value field)) <> "" /\
    (geocoding_fails w (trim (value field)) \/
     geocoding_answers w (trim (value field)) []))) ->
  exists w',
    debounced w = (Returned tt, w') /\
    currentCoordinates w' = currentCoordinates w /\
    localStorage w' = localStorage w /\
    if decide (trim (value field) = "") then
      results_items w' = [] /\ requests w' = requests w /\
      (forall e, document w' !! "results" = Some e -> hidden e = true)
    else
      results_items w' = [no_match] /\ currentResults w' = [] /\
      selectedIndex w' = (-1)%Z /\
      requests w' =
        (requests w ++ [GeoRequest (trim (trim (value field)))])%list /\
      (forall e, document w' !! "results" = Some e -> hidden e = false).
Proof.
  intros Hfield Hcases.
  unfold debounced. unfold mbind at 1. unfold M_bind at 1.
  unfold get. cbv beta iota. rewrite Hfield.
  change (default "" (value <$> Some field)) with (value field).
  destruct (decide (trim (value field) = "")) as [Hblank | Hvalue].
  { unfold hideResults. run. eexists. split; [reflexivity |].
    repeat split. cbn. intros e.
    rewrite lookup_alter_ne by discriminate. apply hidden_after. }
  destruct Hcases as [Hblank | [Hquery Hnothing]]; [contradiction |].
  destruct (searchCities_nothing (trim (value field)) w Hquery Hnothing)
    as (w1 & Hrun & Hreq & Hdoc & Hstorage & Hcur).
  unfold try_catch. unfold mbind at 1. unfold M_bind at 1. rewrite Hrun.
  unfold showResults. run. eexists. split; [reflexivity |]. cbn.
  split; [exact Hcur |]. split; [exact Hstorage |].
  repeat split; try exact Hreq.
  intros e. rewrite lookup_alter_ne by discriminate. apply hidden_after.
Qed.

Lemma debounced_atlantis :
  exists w',
    debounced (typed "Atlantis" offline) = (Returned tt, w') /\
    results_items w' = [no_match] /\
    requests w' = [GeoRequest "Atlantis"].
Proof.
  destruct (debounced_without_results (typed "Atlantis" offline)
              (set_value "Atlantis" blank))
    as (w' & Hrun & _ & _ & Hitems & _ & _ & Hreq & _).
  - vm_compute. reflexivity.
  - right. split; [vm_compute; discriminate | left; exact I].
  - exists w'. split; [exact Hrun |]. split; [exact Hitems | exact Hreq].
Defined.

End DelayedSearch.
(** ** index.ts: the theme of the page *)

Section Theme.
  Import Index WeatherApi.

Lemma elem_of_class_add (x c : string) (l : list string) :
  x ∈ class_add c l <-> x = c \/ x ∈ l.
Proof.
  unfold class_add. destruct (decide (c ∈ l)) as [Hc | Hc].
  - split; [now right | intros [-> | H]; assumption].
  - rewrite elem_of_app, list_elem_of_singleton. tauto.
Qed.

Lemma elem_of_class_remove (x c : string) (l : list string) :
  x ∈ class_remove c l <-> x <> c /\ x ∈ l.
Proof.
  unfold class_remove.
  exact (list_elem_of_filter (fun y => y <> c) l x).
Qed.

(** Every entry of the table has one of the two themes. *)
Lemma background_of_table (code : num) :
  background (getWeatherInfo code) = "sunny"
  \/ background (getWeatherInfo code) = "cloudy".
Proof.
  assert (Htable : map_Forall
            (fun _ info =>
               background info = "sunny" \/ background info = "cloudy")
            weatherCodeMap).
  { apply map_Forall_to_list.
    assert (Hlist : Forall
              (fun p : Z * WeatherInfo =>
                 Is_true (bool_decide (background p.2 = "sunny")
                          || bool_decide (background p.2 = "cloudy")))
              (map_to_list weatherCodeMap)).
    { apply forallb_True. vm_compute. exact I. }
    eapply Forall_impl; [exact Hlist |].
    intros [k info] H. cbn in *. apply orb_True in H.
    destruct H as [H | H]; apply bool_decide_unpack in H; tauto. }
  unfold getWeatherInfo.
  destruct (weatherCodeMap_at code) as [info |] eqn:Hcode; cbn.
  - unfold weatherCodeMap_at in Hcode.
    destruct (property_key code) as [z |]; [| discriminate].
    exact (Htable z info Hcode).
  - now left.
Qed.

(** X28. The theme follows the weather code.  [updateWeatherDisplay]
    schedules, as its last timer, the change of theme for the code of the
    snapshot; when that timer and then the frame callback it requests
    have run, the body carries [background-loaded] and, of the two
    themes [sunny] and [cloudy], exactly the one of the table entry of
    the code (the sunny default for a code the table does not hold),
    whatever classes the body had before. *)
Theorem theme_follows_code (weatherData : WeatherData) (w v : World) :
  let code := weatherCode weatherData in
  let theme := background (getWeatherInfo code) in
  exists w1 v1 v2,
    updateWeatherDisplay weatherData w = (Returned tt, w1) /\
    last (timers w1) = Some (100, UpdateTheme code) /\
    run_timer (UpdateTheme code) v = (Returned tt, v1) /\
    last (timers v1) = Some (0, AddBodyClass theme) /\
    run_timer (AddBodyClass theme) v1 = (Returned tt, v2) /\
    (theme = "sunny" \/ theme = "cloudy") /\
    "background-loaded" ∈ body_classes v2 /\
    ("sunny" ∈ body_classes v2 <-> theme = "sunny") /\
    ("cloudy" ∈ body_classes v2 <-> theme = "cloudy").
Proof.
  intros code theme.
  assert (Hdisplay : exists w1,
            updateWeatherDisplay weatherData w = (Returned tt, w1) /\
            last (timers w1) = Some (100, UpdateTheme code)).
  { unfold updateWeatherDisplay, showWeatherData. run.
    destruct (wd_postcodes weatherData) as [[| first rest] |]; cbn;
      rewrite ?lookup_alter_ne by discriminate;
      destruct (document w !! "weather-data"); cbn;
      (eexists; split; [reflexivity |]); cbn; apply last_snoc. }
  destruct Hdisplay as (w1 & Hrun & Hlast).
  pose proof (background_of_table code) as Htheme. fold theme in Htheme.
  set (v1 := (run_timer (UpdateTheme code) v).2).
  set (v2 := (run_timer (AddBodyClass theme) v1).2).
  assert (Hclasses :
    body_classes v2 =
      class_add theme
        (class_remove "cloudy"
           (class_remove "sunny"
              (class_add "background-loaded" (body_classes v)))))
    by reflexivity.
  assert (Htimers :
    timers v1 = (timers v ++ [(0, AddBodyClass theme)])%list)
    by reflexivity.
  exists w1, v1, v2.
  split; [exact Hrun |]. split; [exact Hlast |].
  split; [reflexivity |].
  split; [rewrite Htimers; apply last_snoc |].
  split; [reflexivity |]. split; [exact Htheme |].
  rewrite Hclasses. clear Hclasses Htimers v1 v2.
  rewrite !elem_of_class_add, !elem_of_class_remove, !elem_of_class_add.
  destruct Htheme as [-> | ->];
    (split; [| split; split]);
    try (intros [H | H]; [discriminate H || reflexivity
                         | destruct H as (H1 & H2 & _); congruence]);
    try (intros _; now left);
    try discriminate.
  - right. split; [discriminate |]. split; [discriminate |]. now left.
  - right. split; [discriminate |]. split; [discriminate |]. now left.
Qed.

End Theme.
